(** * LinoSPAD2app, [tools/unpack_data.py]

    A shallow embedding of the three unpacking routines of the LinoSPAD2
    data-acquisition application ([unpack_binary_flex], [unpack_numpy] and
    [unpack_calib]) together with the part of Python and numpy they run on,
    followed by the properties of the decode / reshape / calibrate pipeline.

    Conventions of the embedding:
    - a file opened in binary mode is the list of its bytes;
    - a Python [int] is a [Z] (values) or a [nat] (lengths, indices, counters);
    - a Python [float] and a numpy [float64] is a primitive binary64 [float];
    - the cycle count [noc] of [unpack_binary_flex] is a rational: the exact
      quotient in the routine, its binary64 rounding in [noc_binary64];
    - a numpy array is its shape and the list of its elements in C order;
    - a call either returns, raises, or (for a [while] loop run with a bound
      on the number of iterations) is still running when the bound is hit. *)

From Stdlib Require Import ZArith List Lia Bool Arith PeanoNat.
From Stdlib Require Import Strings.String Strings.Byte.
From Stdlib Require Import QArith Qround Qpower Qabs Lqa.
From Stdlib Require Floats.PrimFloat Floats.FloatOps Floats.SpecFloat.
From Stdlib Require Floats.FloatAxioms.
From Stdlib Require Uint63.
From Stdlib Require Import Sorting.Permutation.
From Stdlib Require Vectors.FinFun.
Import ListNotations.

Set Warnings "-inexact-float".
Local Open Scope nat_scope.

(* ================================================================== *)
(** * Python: exceptions, outcomes, numbers, slices, loops *)
(* ================================================================== *)

Module Py.

(** The exceptions the three routines can end with. *)
Inductive exn : Type :=
| StructError        (* struct.error: unpack requires a buffer of 4 bytes *)
| ZeroDivisionError  (* true division by zero *)
| ValueError         (* numpy: cannot reshape / could not broadcast *)
| IndexError         (* numpy: index out of bounds *)
| SystemExit.        (* raised by sys.exit() *)

Inductive outcome (A : Type) : Type :=
| Return (a : A)
| Raise (e : exn)
| OutOfFuel.
Arguments Return {A} a.
Arguments Raise {A} e.
Arguments OutOfFuel {A}.

Definition bind {A B : Type} (m : outcome A) (k : A -> outcome B) : outcome B :=
  match m with
  | Return a => k a
  | Raise e => Raise e
  | OutOfFuel => OutOfFuel
  end.

(** [while cond: body], run for at most [fuel] iterations.  The test comes
    first, as in Python: a loop whose test is false needs no fuel. *)
Fixpoint while {S : Type} (fuel : nat) (cond : S -> bool)
         (body : S -> outcome S) (s : S) : outcome S :=
  if cond s then
    match fuel with
    | O => OutOfFuel
    | Datatypes.S fuel' => bind (body s) (while fuel' cond body)
    end
  else Return s.

(** A Python number held in a list: [timestamp_list] of
    [unpack_binary_flex] mixes the int [-1] with float products. *)
Inductive num : Type :=
| PyInt (z : Z)
| PyFloat (f : PrimFloat.float).

(** [l[a:b]] for [0 <= a <= b]: the bounds are clipped to [len(l)]. *)
Definition slice {A : Type} (l : list A) (a b : nat) : list A :=
  firstn (b - a) (skipn a l).

End Py.

Export Py.
Notation "x <- m ;; k" := (Py.bind m (fun x => k))
  (at level 61, m at next level, right associativity).

(* ================================================================== *)
(** * Binary64 arithmetic and the integer / float conversions *)
(* ================================================================== *)

Module F64.

Import PrimFloat.

Definition float := PrimFloat.float.

(** Conversion of a 64-bit integer to the nearest binary64 (exact below
    2^53); what Python does to the int operand of [int * float] and numpy to
    an int64 array multiplied by a float. *)
Definition of_int (z : Z) : float :=
  if (z <? 0)%Z
  then PrimFloat.opp (PrimFloat.of_uint63 (Uint63.of_Z (- z)))
  else PrimFloat.of_uint63 (Uint63.of_Z z).

Definition mul : float -> float -> float := PrimFloat.mul.
Definition add : float -> float -> float := PrimFloat.add.

(** The average bin width in ps, the literal [17.857] of the source. *)
Definition bin_ps : float := 17.857%float.

Definition zero : float := 0%float.
Definition minus_one : float := of_int (-1).

Definition INT64_MIN : Z := (- 2 ^ 63)%Z.
Definition INT64_MAX : Z := (2 ^ 63 - 1)%Z.

(** Storing a float64 into an int64 array (numpy's unsafe cast, the C cast
    [(npy_longlong)x]): the fraction is dropped, rounding toward zero.
    NaN, the infinities and values out of range give INT64_MIN, the result
    of the conversion instruction on x86-64. *)
Definition to_int64 (x : float) : Z :=
  match FloatOps.Prim2SF x with
  | SpecFloat.S754_zero _ => 0%Z
  | SpecFloat.S754_finite s m e =>
      let a := match e with
               | Z0 => Zpos m
               | Zpos p => (Zpos m * 2 ^ Zpos p)%Z
               | Zneg p => (Zpos m / 2 ^ Zpos p)%Z
               end in
      let v := if s then (- a)%Z else a in
      if ((INT64_MIN <=? v) && (v <=? INT64_MAX))%Z%bool then v else INT64_MIN
  | _ => INT64_MIN
  end.

End F64.

(* ================================================================== *)
(** * Files and 32-bit words *)
(* ================================================================== *)

Definition byte_val (b : byte) : Z := Z.of_N (Byte.to_N b).

(** The value of four bytes read as one little-endian unsigned word. *)
Definition le32 (b0 b1 b2 b3 : byte) : Z :=
  (byte_val b0 + 2 ^ 8 * byte_val b1 + 2 ^ 16 * byte_val b2
   + 2 ^ 24 * byte_val b3)%Z.

(** [struct.unpack("<I", rawpacket)[0]]: exactly four bytes, or struct.error. *)
Definition struct_unpack_I (rawpacket : list byte) : outcome Z :=
  match rawpacket with
  | [b0; b1; b2; b3] => Return (le32 b0 b1 b2 b3)
  | _ => Raise StructError
  end.

(** The whole words of a byte list, in order; a trailing partial word is
    not part of it. *)
Fixpoint words_of (f : list byte) : list Z :=
  match f with
  | b0 :: b1 :: b2 :: b3 :: f' => le32 b0 b1 b2 b3 :: words_of f'
  | _ => []
  end.

(* ================================================================== *)
(** * numpy: n-dimensional arrays *)
(* ================================================================== *)

Module Np.

(** Number of elements of an array of shape [sh]. *)
Definition size (sh : list nat) : nat := fold_right Nat.mul 1 sh.

(** Position of a multi-index in C order (last axis varies fastest) and
    in Fortran order (first axis varies fastest), and the inverse maps. *)
Fixpoint ravel_C (sh idx : list nat) : nat :=
  match sh, idx with
  | _ :: sh', i :: idx' => i * size sh' + ravel_C sh' idx'
  | _, _ => 0
  end.

Fixpoint unravel_C (sh : list nat) (n : nat) : list nat :=
  match sh with
  | [] => []
  | _ :: sh' => n / size sh' :: unravel_C sh' (n mod size sh')
  end.

Fixpoint ravel_F (sh idx : list nat) : nat :=
  match sh, idx with
  | d :: sh', i :: idx' => i + d * ravel_F sh' idx'
  | _, _ => 0
  end.

Fixpoint unravel_F (sh : list nat) (n : nat) : list nat :=
  match sh with
  | [] => []
  | d :: sh' => n mod d :: unravel_F sh' (n / d)
  end.

(** A multi-index within the bounds of a shape. *)
Definition in_bounds (sh idx : list nat) : Prop := Forall2 lt idx sh.

(** Memory order of a reshape. *)
Inductive order : Type := C_order | F_order.

(** numpy's [_fix_unknown_dimension]: at most one negative entry of the
    requested shape is inferred from the element count; any other
    mismatch is an error. *)
Definition fix_unknown_dimension (newshape : list Z) (s_original : nat)
  : option (list nat) :=
  let known := filter (fun d => negb (d <? 0)%Z) newshape in
  let s_known := size (map Z.to_nat known) in
  match List.length newshape - List.length known with
  | 0 => if s_known =? s_original then Some (map Z.to_nat newshape) else None
  | 1 => if (s_known =? 0) || negb (s_original mod s_known =? 0) then None
         else Some (map (fun d => if (d <? 0)%Z then s_original / s_known
                                  else Z.to_nat d) newshape)
  | _ => None
  end.

(** Position of an axis in an axes tuple. *)
Fixpoint index_of (x : nat) (l : list nat) : nat :=
  match l with
  | [] => 0
  | y :: l' => if y =? x then 0 else S (index_of x l')
  end.

(** An axes tuple is valid for rank [r] when it is a permutation of
    [0 .. r-1]. *)
Definition valid_axes (axes : list nat) (r : nat) : bool :=
  (List.length axes =? r)
  && forallb (fun j => existsb (Nat.eqb j) axes) (seq 0 r).

(** Indices of the true entries of a 1-D boolean array: [np.where(m)[0]]. *)
Definition where_ (mask : list bool) : list nat :=
  filter (fun j => nth j mask false) (seq 0 (List.length mask)).

Section Arrays.
Context {A : Type}.
Variable dflt : A.

(** An array: its shape and its elements listed in C order. *)
Record ndarray : Type := mk_ndarray { shape : list nat; data : list A }.

Definition get (a : ndarray) (idx : list nat) : A :=
  nth (ravel_C (shape a) idx) (data a) dflt.

(** The array of shape [sh] whose element at multi-index [idx] is
    [f idx]. *)
Definition tabulate (sh : list nat) (f : list nat -> A) : ndarray :=
  {| shape := sh;
     data := map (fun n => f (unravel_C sh n)) (seq 0 (size sh)) |}.

(** [np.array(l)] / [np.fromfile]: a 1-D array. *)
Definition array1 (l : list A) : ndarray :=
  {| shape := [List.length l]; data := l |}.

(** [np.full(sh, v)]; [np.zeros(sh)] is [full sh 0.0]. *)
Definition full (sh : list nat) (v : A) : ndarray :=
  {| shape := sh; data := repeat v (size sh) |}.

(** [a.reshape(newshape, order=o)].  The requested shape is checked against
    the number of elements.  In C order the element list is kept; in
    Fortran order the elements are read from [a] in Fortran order and placed
    into the new shape in Fortran order. *)
Definition reshape (a : ndarray) (newshape : list Z) (o : order)
  : outcome ndarray :=
  match fix_unknown_dimension newshape (List.length (data a)) with
  | None => Raise ValueError
  | Some sh =>
      Return
        match o with
        | C_order => {| shape := sh; data := data a |}
        | F_order =>
            tabulate sh (fun idx =>
              get a (unravel_F (shape a) (ravel_F sh idx)))
        end
  end.

(** [a.transpose(axes)]: axis [d] of the result is axis [axes[d]] of
    [a]. *)
Definition transpose (a : ndarray) (axes : list nat) : outcome ndarray :=
  if valid_axes axes (List.length (shape a)) then
    Return
      (tabulate (map (fun ax => nth ax (shape a) 0) axes)
         (fun idx =>
            get a (map (fun j => nth (index_of j axes) idx 0)
                       (seq 0 (List.length (shape a))))))
  else Raise ValueError.

(** [a.transpose()]: the axes reversed. *)
Definition transpose_rev (a : ndarray) : outcome ndarray :=
  transpose a (rev (seq 0 (List.length (shape a)))).

(** [l] with position [j] replaced by [v] (unchanged when [j] is out of
    range; the callers only pass indices taken from [where_]). *)
Fixpoint set_nth (j : nat) (v : A) (l : list A) : list A :=
  match l, j with
  | [], _ => []
  | _ :: l', O => v :: l'
  | x :: l', S j' => x :: set_nth j' v l'
  end.

(** [a[ind]] (gather), [a[ind] = vals] (scatter) and [a[ind] = v]. *)
Definition take (l : list A) (ind : list nat) : list A :=
  map (fun j => nth j l dflt) ind.

Fixpoint put (l : list A) (ind : list nat) (vals : list A) : list A :=
  match ind, vals with
  | j :: ind', v :: vals' => put (set_nth j v l) ind' vals'
  | _, _ => l
  end.

Definition put_scalar (l : list A) (ind : list nat) (v : A) : list A :=
  fold_left (fun l' j => set_nth j v l') ind l.

(** Row [i] of a 2-D array, and the array with row [i] replaced. *)
Definition ncols (m : ndarray) : nat := nth 1 (shape m) 0.
Definition nrows (m : ndarray) : nat := nth 0 (shape m) 0.

Definition row (m : ndarray) (i : nat) : list A :=
  firstn (ncols m) (skipn (i * ncols m) (data m)).

Definition set_row (m : ndarray) (i : nat) (r : list A) : ndarray :=
  {| shape := shape m;
     data := firstn (i * ncols m) (data m) ++ r
             ++ skipn (i * ncols m + ncols m) (data m) |}.

(** [v[a:b] = src] on a 1-D view [v], for [0 <= a <= b]: the slice is
    clipped to the view; [src] must have the length of the slice or
    length one (broadcast), otherwise numpy raises ValueError. *)
Definition assign_slice (v : list A) (a b : nat) (src : list A)
  : option (list A) :=
  let lo := Nat.min a (List.length v) in
  let hi := Nat.min b (List.length v) in
  if List.length src =? hi - lo then
    Some (firstn lo v ++ src ++ skipn hi v)
  else if List.length src =? 1 then
    Some (firstn lo v ++ repeat (hd dflt src) (hi - lo) ++ skipn hi v)
  else None.

(** [m[i][a:b] = src] on a 2-D array. *)
Definition setitem_row_slice (m : ndarray) (i a b : nat) (src : list A)
  : outcome ndarray :=
  if i <? nrows m then
    match assign_slice (row m i) a b src with
    | Some r => Return (set_row m i r)
    | None => Raise ValueError
    end
  else Raise IndexError.

End Arrays.

Arguments ndarray A : clear implicits.
Arguments mk_ndarray {A} shape data.

End Np.

Export Np.

(* ================================================================== *)
(** * Python helpers used by the routines *)
(* ================================================================== *)

(** [for x in xs: body], threading the state and stopping at the first
    exception. *)
Fixpoint for_each {S : Type} (xs : list nat) (body : nat -> S -> outcome S)
         (s : S) : outcome S :=
  match xs with
  | [] => Return s
  | x :: xs' => s' <- body x s ;; for_each xs' body s'
  end.

(** [range(n)]. *)
Definition range (n : nat) : list nat := seq 0 n.

(** [len(l)] as the numerator of a true division. *)
Definition len_Q {A : Type} (l : list A) : Q := inject_Z (Z.of_nat (List.length l)).

(** [a / b] on numbers (true division).  The quotient is kept exact here;
    Python rounds it to binary64 ([Binary64.round] and [noc_binary64]
    below).  As long as the word count and [lines_of_data] are below 2^53,
    the exit test of the cycle loop cannot tell the two apart
    ([noc_binary64_test], [cycle_loop_binary64]), and a word count that
    fills [C] whole cycles gives the binary64 [C] itself.  Beyond that
    bound they differ: one word and [lines_of_data = 2^1070] give the
    binary64 [0.0]. *)
Definition true_div (a b : Q) : outcome Q :=
  if Qeq_bool b 0 then Raise ZeroDivisionError else Return (a / b)%Q.

(** Binary64 rounding of an exact quotient: what [int / int] and
    [float / float] return in Python. *)
Module Binary64.

(** [floor (log2 x)] for [x > 0]: the [e] with [2^e <= x < 2^(e+1)]. *)
Definition binade (x : Q) : Z :=
  let e := (Z.log2 (Qnum x) - Z.log2 (Zpos (Qden x)))%Z in
  if Qle_bool (2 ^ e) x then e else (e - 1)%Z.

(** The integer nearest to [y], the even one of the two when [y] lies
    halfway. *)
Definition nearest_even (y : Q) : Z :=
  let f := Qfloor y in
  match (y - inject_Z f ?= 1 # 2)%Q with
  | Lt => f
  | Gt => (f + 1)%Z
  | Eq => if Z.even f then f else (f + 1)%Z
  end.

(** The binary64 number nearest to [x], ties to even, as the rational it
    is: a multiple of the quantum [2^(e-52)] of the binade [e] of [x], and of
    [2^-1074] below [2^-1022], where the subnormal numbers lie.  (Values
    of [2^1024] and beyond, which overflow, do not arise from the quotient
    of a list length.) *)
Definition round (x : Q) : Q :=
  if Qeq_bool x 0 then 0%Q
  else
    let quantum := (2 ^ (Z.max (binade (Qabs x)) (-1022) - 52))%Q in
    let m := nearest_even (Qabs x / quantum) in
    if Qle_bool 0 x then (inject_Z m * quantum)%Q
    else (- (inject_Z m * quantum))%Q.

End Binary64.

(** The rational a finite binary64 stands for. *)
Definition binary64_value (x : F64.float) : option Q :=
  match FloatOps.Prim2SF x with
  | SpecFloat.S754_zero _ => Some 0%Q
  | SpecFloat.S754_finite s m e =>
      Some ((if s then -1 else 1) * inject_Z (Zpos m) * 2 ^ e)%Q
  | _ => None
  end.

(** [int(q)]: truncation toward zero. *)
Definition int_of_Q (q : Q) : Z :=
  if Qle_bool 0 q then Qfloor q else (- Qfloor (- q))%Z.

(** Conversion of a list element to float64 when a Python list is stored
    into a float64 array. *)
Definition to_float64 (x : num) : F64.float :=
  match x with
  | PyInt z => F64.of_int z
  | PyFloat f => f
  end.

(* ================================================================== *)
(** * [unpack_binary_flex] *)
(* ================================================================== *)

(** Lines 60-68: the timestamp decoded from one packet. *)
Definition packet_timestamp (packet : Z) : num :=
  if (Z.shiftr packet 31 =? 1)%Z then
    let timestamp := Z.land packet 0xFFFFFFF in
    PyFloat (F64.mul (F64.of_int timestamp) F64.bin_ps)
  else PyInt (-1).

(** Line 70: the address field of one packet. *)
Definition packet_address (packet : Z) : Z :=
  Z.land (Z.shiftr packet 28) 0x3.

(** Lines 54-72: the read loop.  [f.read(4)] hands out the next four bytes,
    fewer at the end of the file, none after it; an empty read leaves the
    loop, and a short one makes [unpack("<I", rawpacket)] raise. *)
Fixpoint read_packets (f : list byte) (timestamp_list : list num)
         (address_list : list Z) : outcome (list num * list Z) :=
  match f with
  | [] => Return (timestamp_list, address_list)
  | b0 :: b1 :: b2 :: b3 :: f' =>
      packet <- struct_unpack_I [b0; b1; b2; b3] ;;
      read_packets f' (timestamp_list ++ [packet_timestamp packet])
                   (address_list ++ [packet_address packet])
  | rawpacket =>
      packet <- struct_unpack_I rawpacket ;;
      Return (timestamp_list ++ [packet_timestamp packet],
              address_list ++ [packet_address packet])
  end.

(** Lines 83-90: the loop over the 256 pixels for cycle [k].  It runs 256
    times, which is the bound given to [while]. *)
Definition pixel_loop (timestamp_list : list num) (lines_of_data k : nat)
           (data_matrix : ndarray F64.float) : outcome (nat * ndarray F64.float) :=
  while 256
    (fun s => fst s <? 256)
    (fun s =>
       let i := fst s in
       data_matrix' <-
         setitem_row_slice F64.zero (snd s) i
           (k * lines_of_data) (k * lines_of_data + lines_of_data)
           (map to_float64
              (slice timestamp_list ((i + 256 * k) * lines_of_data)
                     ((i + 256 * k) * lines_of_data + lines_of_data))) ;;
       Return (i + 1, data_matrix'))
    (0, data_matrix).

(** Lines 80-91: the loop over the cycles, [while k != noc]. *)
Definition cycle_loop (fuel : nat) (timestamp_list : list num)
           (lines_of_data : nat) (noc : Q) (data_matrix : ndarray F64.float)
  : outcome (nat * ndarray F64.float) :=
  while fuel
    (fun s => negb (Qeq_bool (inject_Z (Z.of_nat (fst s))) noc))
    (fun s =>
       let k := fst s in
       s' <- pixel_loop timestamp_list lines_of_data k (snd s) ;;
       Return (k + 1, snd s'))
    (0, data_matrix).

(** Line 76 as Python computes it: [len(timestamp_list) / lines_of_data]
    is the binary64 nearest to the exact quotient of the two ints, and
    dividing it by 256 rounds once more. *)
Definition noc_binary64 (len lines_of_data : nat) : Q :=
  Binary64.round
    (Binary64.round
       (inject_Z (Z.of_nat len) / inject_Z (Z.of_nat lines_of_data))
     / 256).

(** Line 74: the matrix the reshape starts from. *)
Definition flex_alloc (timestamp_list : list num) : ndarray F64.float :=
  full [256; Z.to_nat (int_of_Q (len_Q timestamp_list / 256))] F64.zero.

(** Lines 74-92: the reshape by explicit index arithmetic. *)
Definition flex_reshape (fuel : nat) (timestamp_list : list num)
           (lines_of_data : nat) : outcome (ndarray F64.float) :=
  let data_matrix := flex_alloc timestamp_list in
  q <- true_div (len_Q timestamp_list) (inject_Z (Z.of_nat lines_of_data)) ;;
  let noc := (q / 256)%Q in
  s <- cycle_loop fuel timestamp_list lines_of_data noc data_matrix ;;
  Return (snd s).

Definition unpack_binary_flex (fuel : nat) (f : list byte) (lines_of_data : nat)
  : outcome (ndarray F64.float) :=
  lists <- read_packets f [] [] ;;
  flex_reshape fuel (fst lists) lines_of_data.

(* ================================================================== *)
(** * [unpack_numpy] *)
(* ================================================================== *)

(** [np.fromfile(filename, dtype=np.uint32)]: the file size divided by the
    item size gives the number of items read; bytes after the last whole
    item are not read. *)
Definition np_fromfile_uint32 (f : list byte) : ndarray Z := array1 (words_of f).

(** [rawFile < 0x80000000]. *)
Definition invalid_mask (rawFile : ndarray Z) : list bool :=
  map (fun w => (w <? 0x80000000)%Z) (data rawFile).

(** Lines 96-98: the vectorised decode. *)
Definition numpy_decode (f : list byte) : ndarray F64.float :=
  let rawFile := np_fromfile_uint32 f in
  let data0 :=
    map (fun w => F64.mul (F64.of_int (Z.land w 0xFFFFFFF)) F64.bin_ps)
        (data rawFile) in
  array1 (put_scalar data0 (where_ (invalid_mask rawFile)) (F64.of_int (-1))).

(** Lines 99-107: the reshape by reshapes and transposes. *)
Definition numpy_reshape (data1 : ndarray F64.float) (lines_of_data : nat)
  : outcome (ndarray F64.float) :=
  q <- true_div (len_Q (data data1)) (inject_Z (Z.of_nat lines_of_data)) ;;
  let nmrCycles := Z.to_nat (int_of_Q (q / 256)) in
  let T := Z.of_nat lines_of_data in
  a1 <- reshape F64.zero data1 [T; Z.of_nat (nmrCycles * 256)] F_order ;;
  a2 <- reshape F64.zero a1 [T; 256%Z; (-1)%Z] F_order ;;
  a3 <- transpose F64.zero a2 [0; 2; 1] ;;
  a4 <- reshape F64.zero a3 [(-1)%Z; 256%Z] F_order ;;
  transpose_rev F64.zero a4.

Definition unpack_numpy (f : list byte) (lines_of_data : nat)
  : outcome (ndarray F64.float) :=
  numpy_reshape (numpy_decode f) lines_of_data.

(* ================================================================== *)
(** * [unpack_calib] *)
(* ================================================================== *)

(** What [tools.calibrate.calibrate_load] (not part of this file) does for
    the caller: it hands back the calibration matrix, a 2-D float array, or
    raises FileNotFoundError. *)
Inductive load_result : Type :=
| FileNotFoundError
| Loaded (cal_mat : ndarray F64.float).

Definition no_csv_message : string :=
  "No .csv file with the calibration data was found, check the path or run the calibration.".

(** [cal_mat[i, bins]]: row [i] gathered at the columns [bins]. *)
Definition cal_take (cal_mat : ndarray F64.float) (i : nat) (bins : list Z)
  : outcome (list F64.float) :=
  if (i <? nrows cal_mat)
     && forallb (fun b => Z.to_nat b <? ncols cal_mat) bins
  then Return (map (fun b => get F64.zero cal_mat [i; Z.to_nat b]) bins)
  else Raise IndexError.

(** Line 160-162, for one element [v] with its table entry [c]. *)
Definition corrected (v : Z) (c : F64.float) : F64.float :=
  F64.add (F64.mul (F64.of_int (v - v mod 140)) F64.bin_ps) c.

(** Lines 159-162: the body of the loop over the pixels.  The right-hand
    side is a float64 array; storing it into the int64 matrix casts it. *)
Definition calib_row (cal_mat : ndarray F64.float) (i : nat)
           (data_matrix : ndarray Z) : outcome (ndarray Z) :=
  if i <? nrows data_matrix then
    let r := row data_matrix i in
    let ind := where_ (map (fun v => (0 <=? v)%Z) r) in
    let vals := take 0%Z r ind in
    cal <- cal_take cal_mat i (map (fun v => (v mod 140)%Z) vals) ;;
    let rhs := map (fun vc => corrected (fst vc) (snd vc)) (combine vals cal) in
    Return (set_row data_matrix i (put r ind (map F64.to_int64 rhs)))
  else Raise IndexError.

(** Lines 133-137: the decode, on 64-bit integers and without scaling. *)
Definition calib_decode (f : list byte) : ndarray Z :=
  let rawFile := np_fromfile_uint32 f in
  let data0 := map (fun w => Z.land w 0xFFFFFFF) (data rawFile) in
  array1 (put_scalar data0 (where_ (invalid_mask rawFile)) (-1)%Z).

(** Lines 139-145: the reshape. *)
Definition calib_reshape (data1 : ndarray Z) (timestamps : nat)
  : outcome (ndarray Z) :=
  q <- true_div (len_Q (data data1)) (inject_Z (Z.of_nat timestamps)) ;;
  let cycles := Z.to_nat (int_of_Q (q / 256)) in
  a1 <- reshape 0%Z data1 [Z.of_nat cycles; 256%Z; Z.of_nat timestamps] C_order ;;
  a2 <- transpose 0%Z a1 [1; 0; 2] ;;
  reshape 0%Z a2 [256%Z; Z.of_nat (timestamps * cycles)] C_order.

(** Lines 158-162: the correction of the 256 rows. *)
Definition calibrate (cal_mat : ndarray F64.float) (data_matrix : ndarray Z)
  : outcome (ndarray Z) :=
  for_each (range 256) (calib_row cal_mat) data_matrix.

(** The routine: what it prints, and how it ends.  [realpath_file] is
    [os.path.realpath(__file__)]. *)
Definition unpack_calib (calibrate_load : string -> string -> load_result)
           (realpath_file : string) (f : list byte) (board_number : string)
           (timestamps : nat) : list string * outcome (ndarray Z) :=
  match calib_reshape (calib_decode f) timestamps with
  | Return data_matrix =>
      let path_calib_data :=
        (realpath_file ++ "/../.." ++ "/calibration_data")%string in
      match calibrate_load path_calib_data board_number with
      | FileNotFoundError => ([no_csv_message], Raise SystemExit)
      | Loaded cal_mat =>
          ([], calibrate cal_mat data_matrix)
      end
  | Raise e => ([], Raise e)
  | OutOfFuel => ([], OutOfFuel)
  end.

(* ================================================================== *)
(** * Reading the matrices: the predicates the properties are stated with *)
(* ================================================================== *)

(** The value [unpack_binary_flex] copies to row [i], column [k*T + t]:
    the element of [timestamp_list] at offset [(i + 256*k)*T + t], as a
    float64. *)
Definition source_cell (timestamp_list : list num) (T i k t : nat) : F64.float :=
  to_float64 (nth ((i + 256 * k) * T + t) timestamp_list (PyInt 0)).

(** The matrix of [unpack_binary_flex], of row length [R], when the loops
    stand at cycle [k], pixel [i]: among the blocks of the [C] whole cycles,
    those of the earlier (cycle, pixel) pairs hold their source values and
    the others still hold the initial zero. *)
Definition filled (timestamp_list : list num) (T C R k i : nat)
           (m : ndarray F64.float) : Prop :=
  shape m = [256; R]
  /\ List.length (data m) = 256 * R
  /\ forall i' k' t, i' < 256 -> k' < C -> t < T ->
       nth (i' * R + k' * T + t) (data m) F64.zero =
       if (k' <? k) || ((k' =? k) && (i' <? i))
       then source_cell timestamp_list T i' k' t else F64.zero.

(** What lines 159-162 of [unpack_calib] leave in a cell of row [i] that
    held [v]. *)
Definition calibrated_cell (cal_mat : ndarray F64.float) (i : nat) (v : Z) : Z :=
  if (0 <=? v)%Z
  then F64.to_int64
         (corrected v (get F64.zero cal_mat [i; Z.to_nat (v mod 140)]))
  else v.

(** The matrix of [unpack_calib] when the loop of line 158 stands at row
    [a], in terms of the matrix [data_matrix] the loop started from. *)
Definition rows_done (cal_mat : ndarray F64.float) (data_matrix : ndarray Z)
           (R a : nat) (m : ndarray Z) : Prop :=
  shape m = [256; R]
  /\ List.length (data m) = 256 * R
  /\ forall i j, i < 256 -> j < R ->
       nth (i * R + j) (data m) 0%Z =
       if i <? a
       then calibrated_cell cal_mat i (nth (i * R + j) (data data_matrix) 0%Z)
       else nth (i * R + j) (data data_matrix) 0%Z.

(** Number of cells of a matrix that hold the sentinel [-1]. *)
Definition count_sentinel (m : ndarray Z) : nat :=
  count_occ Z.eq_dec (data m) (-1)%Z.

(** The flat index the position [p] of a [256 x (T*C)] matrix is filled
    from: position [i * (T*C) + k*T + t] holds the value at offset
    [(i + 256*k)*T + t]. *)
Definition source_index (T C p : nat) : nat :=
  (p / (T * C) + 256 * (p mod (T * C) / T)) * T + p mod (T * C) mod T.

(** A binary64 value that is not negative: NaN, a zero, a positive finite
    number or +infinity. *)
Definition not_negative (x : SpecFloat.spec_float) : bool :=
  match x with
  | SpecFloat.S754_finite true _ _ | SpecFloat.S754_infinity true => false
  | _ => true
  end.

(* ================================================================== *)
(** * Sample streams and calibration tables *)
(* ================================================================== *)

(** [n] copies of a packet. *)
Definition packets (n : nat) (packet : list byte) : list byte :=
  List.concat (repeat packet n).

(** 0x00000000: validity bit clear. *)
Definition packet_invalid : list byte := [x00; x00; x00; x00].
(** 0x80000000, 0x80000001 and 0x8000008d: valid, raw counts 0, 1 and 141. *)
Definition packet_valid_0 : list byte := [x00; x00; x00; x80].
Definition packet_valid_1 : list byte := [x01; x00; x00; x80].
Definition packet_valid_141 : list byte := [x8d; x00; x00; x80].

(** One cycle of 256 pixels with one timestamp each: pixel 0 valid, the
    others not. *)
Definition stream_valid_0 : list byte := packet_valid_0 ++ packets 255 packet_invalid.
Definition stream_valid_1 : list byte := packet_valid_1 ++ packets 255 packet_invalid.
Definition stream_valid_141 : list byte :=
  packet_valid_141 ++ packets 255 packet_invalid.

(** Two cycles of one timestamp (or one cycle of two), 512 packets. *)
Definition stream_512 : list byte :=
  packet_valid_1 ++ packet_valid_141 ++ packets 510 packet_invalid.

(** One whole cycle followed by one stray byte. *)
Definition stream_partial : list byte := stream_valid_1 ++ [x00].

(** Calibration tables with the same offset in every cell. *)
Definition constant_table (c : F64.float) : ndarray F64.float := full [256; 140] c.

Definition load_constant (c : F64.float) (path board_number : string) : load_result :=
  Loaded (constant_table c).

Definition load_nothing (path board_number : string) : load_result :=
  FileNotFoundError.

(** A reshaped matrix of one column: pixel 0 holds the raw count 141, the
    other pixels the sentinel. *)
Definition matrix_valid_141 : ndarray Z :=
  {| shape := [256; 1]; data := 141%Z :: repeat (-1)%Z 255 |}.

(** The matrix [unpack_binary_flex] allocates for fewer than 256 words: it
    has no column. *)
Definition no_columns : ndarray F64.float := {| shape := [256; 0]; data := [] |}.

(* ================================================================== *)
(** * Loops *)
(* ================================================================== *)

Section WhileRules.
Context {S : Type}.
Variables (cond : S -> bool) (body : S -> outcome S).

(** Total correctness: an invariant kept by the body and a measure it
    decreases make the loop return, in a state where the test fails. *)
Lemma while_measure (I : S -> Prop) (mu : S -> nat) :
  (forall s, I s -> cond s = true ->
             exists s', body s = Return s' /\ I s' /\ mu s' < mu s) ->
  forall fuel s, I s -> mu s <= fuel ->
  exists s', while fuel cond body s = Return s' /\ I s' /\ cond s' = false.
Proof.
  intros Hstep fuel; induction fuel as [|fuel IH]; intros s HI Hmu.
  - simpl. destruct (cond s) eqn:Hc.
    + destruct (Hstep s HI Hc) as (s' & _ & _ & Hlt). lia.
    + exists s; auto.
  - simpl. destruct (cond s) eqn:Hc.
    + destruct (Hstep s HI Hc) as (s' & Hb & HI' & Hlt).
      rewrite Hb. simpl. apply IH; [assumption | lia].
    + exists s; auto.
Qed.

(** A loop whose test holds in every reachable state never returns. *)
Lemma while_no_return (I : S -> Prop) :
  (forall s, I s -> cond s = true) ->
  (forall s s', I s -> body s = Return s' -> I s') ->
  forall fuel s, I s -> forall r, while fuel cond body s <> Return r.
Proof.
  intros Hc Hb fuel; induction fuel as [|fuel IH]; intros s HI r; simpl;
    rewrite (Hc s HI); [discriminate|].
  destruct (body s) as [s'| |] eqn:E; simpl; try discriminate.
  apply IH. eapply Hb; eauto.
Qed.

(** If moreover the body never raises, the loop exhausts any fuel. *)
Lemma while_forever (I : S -> Prop) :
  (forall s, I s -> cond s = true) ->
  (forall s, I s -> exists s', body s = Return s' /\ I s') ->
  forall fuel s, I s -> while fuel cond body s = OutOfFuel.
Proof.
  intros Hc Hb fuel; induction fuel as [|fuel IH]; intros s HI; simpl;
    rewrite (Hc s HI); [reflexivity|].
  destruct (Hb s HI) as (s' & E & HI'). rewrite E. simpl. auto.
Qed.
End WhileRules.

(* ================================================================== *)
(** * Lists: splicing and scattering *)
(* ================================================================== *)

Section ListFacts.
Context {A : Type}.
Variable d : A.

Lemma firstn_extend (l : list A) (n m : nat) :
  firstn n l ++ firstn m (skipn n l) = firstn (n + m) l.
Proof.
  revert l; induction n as [|n IH]; intros l; simpl; [reflexivity|].
  destruct l as [|x l]; simpl.
  - now rewrite firstn_nil.
  - now rewrite IH.
Qed.

(** Writing [src] over the positions [pos ..] of [l]. *)
Lemma nth_overwrite (l src : list A) (pos p : nat) :
  pos + List.length src <= List.length l ->
  nth p (firstn pos l ++ src ++ skipn (pos + List.length src) l) d =
  if (pos <=? p) && (p <? pos + List.length src)
  then nth (p - pos) src d else nth p l d.
Proof.
  intros Hlen.
  assert (Hf : List.length (firstn pos l) = pos) by (rewrite length_firstn; lia).
  destruct (Nat.leb_spec pos p) as [H1|H1]; simpl.
  - rewrite app_nth2 by lia. rewrite Hf.
    destruct (Nat.ltb_spec p (pos + List.length src)) as [H2|H2].
    + rewrite app_nth1 by lia. reflexivity.
    + rewrite app_nth2 by lia. rewrite nth_skipn. f_equal. lia.
  - rewrite app_nth1 by lia. rewrite nth_firstn.
    destruct (Nat.ltb_spec p pos); [reflexivity | lia].
Qed.

Lemma length_overwrite (l src : list A) (pos : nat) :
  pos + List.length src <= List.length l ->
  List.length (firstn pos l ++ src ++ skipn (pos + List.length src) l)
  = List.length l.
Proof.
  intros H. rewrite !length_app, length_firstn, length_skipn. lia.
Qed.

Lemma length_set_nth (j : nat) (v : A) (l : list A) :
  List.length (set_nth j v l) = List.length l.
Proof.
  revert j; induction l as [|x l IH]; intros [|j]; simpl; auto.
Qed.

Lemma nth_set_nth (j : nat) (v : A) (l : list A) (p : nat) :
  nth p (set_nth j v l) d =
  if (p =? j) && (j <? List.length l) then v else nth p l d.
Proof.
  revert j p; induction l as [|x l IH]; intros j p.
  - destruct j, p; simpl; rewrite ?andb_false_r; reflexivity.
  - destruct j, p; simpl; auto.
Qed.

Lemma length_put_scalar (ind : list nat) (v : A) (l : list A) :
  List.length (put_scalar l ind v) = List.length l.
Proof.
  unfold put_scalar. revert l; induction ind as [|j ind IH]; intros l; simpl.
  - reflexivity.
  - rewrite IH. apply length_set_nth.
Qed.

Lemma nth_put_scalar (ind : list nat) (v : A) (l : list A) (p : nat) :
  p < List.length l ->
  nth p (put_scalar l ind v) d =
  if existsb (Nat.eqb p) ind then v else nth p l d.
Proof.
  unfold put_scalar. revert l; induction ind as [|j ind IH]; intros l Hp; simpl.
  - reflexivity.
  - rewrite IH by (now rewrite length_set_nth).
    rewrite nth_set_nth.
    destruct (existsb (Nat.eqb p) ind); [now rewrite orb_true_r|].
    rewrite orb_false_r.
    destruct (Nat.eqb_spec p j) as [->|]; simpl; [|reflexivity].
    destruct (Nat.ltb_spec j (List.length l)); [reflexivity | lia].
Qed.

Lemma length_put (ind : list nat) (vals l : list A) :
  List.length (put l ind vals) = List.length l.
Proof.
  revert vals l; induction ind as [|j ind IH]; intros [|v vals] l; simpl; auto.
  rewrite IH. apply length_set_nth.
Qed.

(** Scattering values computed from the gathered positions. *)
Lemma nth_put_map (h : nat -> A) (ind : list nat) (l : list A) (p : nat) :
  p < List.length l ->
  nth p (put l ind (map h ind)) d =
  if existsb (Nat.eqb p) ind then h p else nth p l d.
Proof.
  revert l; induction ind as [|j ind IH]; intros l Hp; simpl.
  - reflexivity.
  - rewrite IH by (now rewrite length_set_nth).
    rewrite nth_set_nth.
    destruct (existsb (Nat.eqb p) ind); [now rewrite orb_true_r|].
    rewrite orb_false_r.
    destruct (Nat.eqb_spec p j) as [->|]; simpl; [|reflexivity].
    destruct (Nat.ltb_spec j (List.length l)); [reflexivity | lia].
Qed.
End ListFacts.

Lemma where_spec (mask : list bool) (p : nat) :
  existsb (Nat.eqb p) (where_ mask) = nth p mask false.
Proof.
  unfold where_.
  destruct (existsb (Nat.eqb p) _) eqn:E.
  - apply existsb_exists in E. destruct E as (j & Hin & Hj).
    apply Nat.eqb_eq in Hj. subst j. apply filter_In in Hin. now destruct Hin.
  - destruct (nth p mask false) eqn:Hn; [|reflexivity].
    assert (Hlt : p < List.length mask).
    { destruct (Nat.lt_ge_cases p (List.length mask)) as [|Hge]; [assumption|].
      rewrite nth_overflow in Hn by assumption. discriminate. }
    assert (Hex : existsb (Nat.eqb p)
              (filter (fun j => nth j mask false) (seq 0 (List.length mask))) = true).
    { apply existsb_exists. exists p. split; [|apply Nat.eqb_refl].
      apply filter_In. split; [apply in_seq; lia | assumption]. }
    congruence.
Qed.

(* ================================================================== *)
(** * Index arithmetic of arrays *)
(* ================================================================== *)

Lemma divmod_unique (a b q r : nat) :
  r < b -> a = b * q + r -> a / b = q /\ a mod b = r.
Proof.
  intros Hr Ha. split.
  - symmetry. apply (Nat.div_unique a b q r); assumption.
  - symmetry. apply (Nat.mod_unique a b q r); assumption.
Qed.

Lemma size_cons (d : nat) (sh : list nat) : size (d :: sh) = d * size sh.
Proof. reflexivity. Qed.

Lemma size_nil : size [] = 1.
Proof. reflexivity. Qed.

Lemma ravel_C_lt (sh idx : list nat) :
  in_bounds sh idx -> ravel_C sh idx < size sh.
Proof.
  intros H; induction H as [|i d idx sh Hi _ IH].
  - simpl. lia.
  - cbn [ravel_C]. rewrite size_cons. nia.
Qed.

Lemma unravel_C_ravel_C (sh idx : list nat) :
  in_bounds sh idx -> unravel_C sh (ravel_C sh idx) = idx.
Proof.
  intros H; induction H as [|i d idx sh Hi Hb IH].
  - reflexivity.
  - cbn [ravel_C unravel_C]. pose proof (ravel_C_lt _ _ Hb) as Hlt.
    destruct (divmod_unique (i * size sh + ravel_C sh idx) (size sh) i
                (ravel_C sh idx) Hlt ltac:(lia)) as [-> ->].
    now rewrite IH.
Qed.

Lemma ravel_F_lt (sh idx : list nat) :
  in_bounds sh idx -> ravel_F sh idx < size sh.
Proof.
  intros H; induction H as [|i d idx sh Hi _ IH].
  - simpl. lia.
  - cbn [ravel_F]. rewrite size_cons. nia.
Qed.

Lemma unravel_F_ravel_F (sh idx : list nat) :
  in_bounds sh idx -> unravel_F sh (ravel_F sh idx) = idx.
Proof.
  intros H; induction H as [|i d idx sh Hi Hb IH].
  - reflexivity.
  - cbn [ravel_F unravel_F].
    destruct (divmod_unique (i + d * ravel_F sh idx) d (ravel_F sh idx) i
                Hi ltac:(lia)) as [-> ->].
    now rewrite IH.
Qed.

Section ArrayFacts.
Context {A : Type}.
Variable d : A.

Lemma length_tabulate (sh : list nat) (f : list nat -> A) :
  List.length (data (tabulate sh f)) = size sh.
Proof. unfold tabulate; simpl. now rewrite length_map, length_seq. Qed.

Lemma nth_tabulate (sh : list nat) (f : list nat -> A) (n : nat) :
  n < size sh -> nth n (data (tabulate sh f)) d = f (unravel_C sh n).
Proof.
  intros Hn. unfold tabulate; simpl.
  rewrite (nth_indep _ d (f (unravel_C sh 0)))
    by (now rewrite length_map, length_seq).
  rewrite (map_nth (fun n => f (unravel_C sh n))).
  now rewrite seq_nth.
Qed.

Lemma get_tabulate (sh : list nat) (f : list nat -> A) (idx : list nat) :
  in_bounds sh idx -> get d (tabulate sh f) idx = f idx.
Proof.
  intros Hb. unfold get. change (shape (tabulate sh f)) with sh.
  rewrite nth_tabulate by (now apply ravel_C_lt).
  now rewrite unravel_C_ravel_C.
Qed.
End ArrayFacts.

(** Bounds of multi-indices of rank one, two and three. *)
Lemma in_bounds_1 (a i : nat) : i < a -> in_bounds [a] [i].
Proof. intros; repeat constructor; assumption. Qed.

Lemma in_bounds_2 (a b i j : nat) : i < a -> j < b -> in_bounds [a; b] [i; j].
Proof. intros; repeat constructor; assumption. Qed.

Lemma in_bounds_3 (a b c i j k : nat) :
  i < a -> j < b -> k < c -> in_bounds [a; b; c] [i; j; k].
Proof. intros; repeat constructor; assumption. Qed.

(** Moving between shapes with the same Fortran-order position. *)
Lemma unravel_F_of (sh sh' idx idx' : list nat) :
  in_bounds sh idx -> ravel_F sh' idx' = ravel_F sh idx ->
  unravel_F sh (ravel_F sh' idx') = idx.
Proof. intros Hb ->. now apply unravel_F_ravel_F. Qed.

(* ================================================================== *)
(** * True division and [int] on counts *)
(* ================================================================== *)

Lemma Qeq_bool_inject_Z_zero (n : nat) :
  Qeq_bool (inject_Z (Z.of_nat n)) 0 = (n =? 0).
Proof.
  destruct n as [|n]; [reflexivity|].
  unfold Qeq_bool, inject_Z; cbn [Qnum Qden].
  rewrite Z.mul_1_r. simpl. reflexivity.
Qed.

Lemma true_div_count {A : Type} (l : list A) (T : nat) :
  true_div (len_Q l) (inject_Z (Z.of_nat T)) =
  if T =? 0 then Raise ZeroDivisionError
  else Return (len_Q l / inject_Z (Z.of_nat T))%Q.
Proof. unfold true_div. now rewrite Qeq_bool_inject_Z_zero. Qed.

(** The exact value of [n / T / 256]. *)
Lemma count_quotient (n T : nat) :
  0 < T ->
  (inject_Z (Z.of_nat n) / inject_Z (Z.of_nat T) / 256 ==
   Z.of_nat n # Pos.of_nat (T * 256))%Q.
Proof.
  intros HT. destruct T as [|T]; [lia|].
  unfold Qeq, Qdiv, Qmult, Qinv, inject_Z; cbn [Qnum Qden].
  cbn [Z.of_nat]. cbn [Qnum Qden].
  rewrite !Z.mul_1_r. rewrite !Pos.mul_1_l.
  rewrite Nat2Pos.inj_mul by lia.
  rewrite <- Pos.of_nat_succ. reflexivity.
Qed.

Lemma noc_test (n T k : nat) :
  0 < T ->
  Qeq_bool (inject_Z (Z.of_nat k))
           (inject_Z (Z.of_nat n) / inject_Z (Z.of_nat T) / 256) =
  (k * (T * 256) =? n).
Proof.
  intros HT.
  destruct (Nat.eqb_spec (k * (T * 256)) n) as [E|E].
  - apply Qeq_bool_iff. rewrite (count_quotient n T HT).
    unfold Qeq, inject_Z; cbn [Qnum Qden].
    rewrite Z.mul_1_r. rewrite <- E.
    rewrite <- positive_nat_Z. rewrite Nat2Pos.id by lia. lia.
  - destruct (Qeq_bool _ _) eqn:Q; [|reflexivity]. exfalso. apply E.
    apply Qeq_bool_iff in Q. rewrite (count_quotient n T HT) in Q.
    unfold Qeq, inject_Z in Q; cbn [Qnum Qden] in Q.
    rewrite Z.mul_1_r in Q.
    rewrite <- positive_nat_Z in Q. rewrite Nat2Pos.id in Q by lia. lia.
Qed.

Lemma int_of_Q_nonneg (q : Q) : (0 <= q)%Q -> int_of_Q q = Qfloor q.
Proof.
  intros H. unfold int_of_Q.
  apply Qle_bool_iff in H. now rewrite H.
Qed.

Lemma int_of_count_quotient (n T : nat) :
  0 < T ->
  Z.to_nat (int_of_Q (inject_Z (Z.of_nat n) / inject_Z (Z.of_nat T) / 256))
  = n / (T * 256).
Proof.
  intros HT.
  assert (Hq := count_quotient n T HT).
  rewrite int_of_Q_nonneg.
  - rewrite (Qfloor_comp _ _ Hq). cbn [Qfloor].
    rewrite <- positive_nat_Z. rewrite Nat2Pos.id by lia.
    rewrite <- Nat2Z.inj_div. apply Nat2Z.id.
  - rewrite Hq. unfold Qle; cbn [Qnum Qden]. lia.
Qed.

Lemma int_of_len_256 {A : Type} (l : list A) :
  Z.to_nat (int_of_Q (len_Q l / 256)) = List.length l / 256.
Proof.
  unfold len_Q. rewrite int_of_Q_nonneg.
  - unfold Qdiv, Qmult, Qinv, inject_Z; cbn [Qnum Qden Qfloor].
    rewrite Z.mul_1_r. change (Z.pos (1 * 256)) with (Z.of_nat 256).
    rewrite <- Nat2Z.inj_div. apply Nat2Z.id.
  - unfold Qle, Qdiv, Qmult, Qinv, inject_Z; cbn [Qnum Qden]. lia.
Qed.

(* ================================================================== *)
(** * Shapes requested from [reshape] *)
(* ================================================================== *)

Lemma size_app (l1 l2 : list nat) : size (l1 ++ l2) = size l1 * size l2.
Proof.
  induction l1 as [|x l1 IH]; cbn [app].
  - rewrite size_nil. lia.
  - rewrite !size_cons, IH. lia.
Qed.

Lemma filter_known_of_nat (l : list nat) :
  filter (fun d => negb (d <? 0)%Z) (map Z.of_nat l) = map Z.of_nat l.
Proof.
  induction l as [|x l IH]; simpl; [reflexivity|].
  destruct (Z.ltb_spec (Z.of_nat x) 0); [lia|]. simpl. now rewrite IH.
Qed.

Lemma to_nat_of_nat_list (l : list nat) : map Z.to_nat (map Z.of_nat l) = l.
Proof.
  induction l as [|x l IH]; simpl; [reflexivity|].
  now rewrite Nat2Z.id, IH.
Qed.

(** A shape without unknown entry is accepted exactly when the sizes agree. *)
Lemma fix_unknown_known (sh : list nat) (n : nat) :
  fix_unknown_dimension (map Z.of_nat sh) n =
  if size sh =? n then Some sh else None.
Proof.
  unfold fix_unknown_dimension.
  rewrite filter_known_of_nat, Nat.sub_diag, !to_nat_of_nat_list.
  reflexivity.
Qed.

(** One unknown entry is inferred when the known entries divide the size. *)
Lemma fix_unknown_one (pre post : list nat) (n : nat) :
  size pre * size post <> 0 ->
  n mod (size pre * size post) = 0 ->
  fix_unknown_dimension (map Z.of_nat pre ++ (-1)%Z :: map Z.of_nat post) n =
  Some (pre ++ n / (size pre * size post) :: post).
Proof.
  intros Hk Hm. unfold fix_unknown_dimension.
  rewrite filter_app. cbn [filter].
  change (negb (-1 <? 0)%Z) with false. cbv iota.
  rewrite !filter_known_of_nat.
  rewrite <- map_app, to_nat_of_nat_list, size_app.
  replace (List.length (map Z.of_nat pre ++ (-1)%Z :: map Z.of_nat post)
           - List.length (map Z.of_nat (pre ++ post))) with 1
    by (rewrite !length_app, !length_map; cbn [List.length];
        rewrite ?length_app, ?length_map; lia).
  destruct (Nat.eqb_spec (size pre * size post) 0) as [|_]; [contradiction|].
  rewrite Hm. cbn [Nat.eqb negb orb].
  f_equal. rewrite map_app. cbn [map]. change (-1 <? 0)%Z with true. cbv iota.
  f_equal; [|f_equal].
  - rewrite map_map. rewrite <- (map_id pre) at 2. apply map_ext.
    intros a. destruct (Z.ltb_spec (Z.of_nat a) 0); [lia | apply Nat2Z.id].
  - rewrite map_map. rewrite <- (map_id post) at 2. apply map_ext.
    intros a. destruct (Z.ltb_spec (Z.of_nat a) 0); [lia | apply Nat2Z.id].
Qed.

(* ================================================================== *)
(** * What [reshape] and [transpose] do to the elements *)
(* ================================================================== *)

Section ReshapeFacts.
Context {A : Type}.
Variable d : A.

Lemma reshape_F_get (a : ndarray A) (newshape : list Z) (sh : list nat) :
  fix_unknown_dimension newshape (List.length (data a)) = Some sh ->
  exists b, reshape d a newshape F_order = Return b
            /\ shape b = sh
            /\ List.length (data b) = size sh
            /\ forall idx, in_bounds sh idx ->
                 get d b idx = get d a (unravel_F (shape a) (ravel_F sh idx)).
Proof.
  intros H. unfold reshape. rewrite H.
  eexists; split; [reflexivity|]. split; [reflexivity|].
  split; [apply length_tabulate|].
  intros idx Hb. now rewrite get_tabulate.
Qed.

Lemma reshape_C_get (a : ndarray A) (newshape : list Z) (sh : list nat) :
  fix_unknown_dimension newshape (List.length (data a)) = Some sh ->
  exists b, reshape d a newshape C_order = Return b
            /\ shape b = sh
            /\ data b = data a.
Proof.
  intros H. unfold reshape. rewrite H.
  eexists; split; [reflexivity|]. split; reflexivity.
Qed.

Lemma transpose_get (a : ndarray A) (axes : list nat) :
  valid_axes axes (List.length (shape a)) = true ->
  exists b, transpose d a axes = Return b
            /\ shape b = map (fun ax => nth ax (shape a) 0) axes
            /\ List.length (data b)
               = size (map (fun ax => nth ax (shape a) 0) axes)
            /\ forall idx,
                 in_bounds (map (fun ax => nth ax (shape a) 0) axes) idx ->
                 get d b idx =
                 get d a (map (fun j => nth (index_of j axes) idx 0)
                              (seq 0 (List.length (shape a)))).
Proof.
  intros H. unfold transpose. rewrite H.
  eexists; split; [reflexivity|]. split; [reflexivity|].
  split; [apply length_tabulate|].
  intros idx Hb. now rewrite get_tabulate.
Qed.
End ReshapeFacts.

(* ================================================================== *)
(** * The reshape of [unpack_numpy] *)
(* ================================================================== *)

Lemma exact_div (a b c : nat) : b <> 0 -> a = c * b -> a / b = c /\ a mod b = 0.
Proof.
  intros Hb ->. split; [now apply Nat.div_mul | now apply Nat.Div0.mod_mul].
Qed.

Lemma numpy_reshape_spec (l : list F64.float) (T C : nat) :
  0 < T -> List.length l = 256 * T * C ->
  exists m, numpy_reshape (array1 l) T = Return m
    /\ shape m = [256; T * C]
    /\ List.length (data m) = 256 * (T * C)
    /\ forall i k t, i < 256 -> k < C -> t < T ->
         get F64.zero m [i; k * T + t] = nth ((i + 256 * k) * T + t) l F64.zero.
Proof.
  intros HT Hlen. unfold numpy_reshape.
  change (data (array1 l)) with l.
  rewrite true_div_count. destruct (Nat.eqb_spec T 0) as [|_]; [lia|].
  cbn [bind]. unfold len_Q. rewrite int_of_count_quotient by assumption.
  destruct (exact_div (List.length l) (T * 256) C) as [-> _];
    [lia | rewrite Hlen; ring |].
  (* data.reshape((T, C*256), order="F") *)
  assert (F1 : fix_unknown_dimension [Z.of_nat T; Z.of_nat (C * 256)]
                 (List.length (data (array1 l))) = Some [T; C * 256]).
  { change [Z.of_nat T; Z.of_nat (C * 256)] with (map Z.of_nat [T; C * 256]).
    rewrite fix_unknown_known. change (data (array1 l)) with l.
    rewrite !size_cons, size_nil.
    destruct (Nat.eqb_spec (T * (C * 256 * 1)) (List.length l)) as [|NE];
      [reflexivity | exfalso; apply NE; rewrite Hlen; ring]. }
  destruct (reshape_F_get F64.zero (array1 l) _ _ F1) as (a1 & E1 & S1 & L1 & G1).
  rewrite E1; cbn [bind].
  (* .reshape((T, 256, -1), order="F") *)
  assert (F2 : fix_unknown_dimension [Z.of_nat T; 256%Z; (-1)%Z]
                 (List.length (data a1)) = Some [T; 256; C]).
  { change [Z.of_nat T; 256%Z; (-1)%Z]
      with (map Z.of_nat [T; 256] ++ (-1)%Z :: map Z.of_nat []).
    rewrite L1, !size_cons, size_nil.
    destruct (exact_div (T * (C * 256 * 1)) (T * (256 * 1) * 1) C) as [Hd Hm];
      [lia | ring |].
    rewrite fix_unknown_one; rewrite !size_cons, !size_nil; [|lia|assumption].
    rewrite Hd. reflexivity. }
  destruct (reshape_F_get F64.zero a1 _ _ F2) as (a2 & E2 & S2 & L2 & G2).
  rewrite E2; cbn [bind].
  (* .transpose((0, 2, 1)) *)
  assert (F3 : valid_axes [0; 2; 1] (List.length (shape a2)) = true).
  { rewrite S2. reflexivity. }
  destruct (transpose_get F64.zero a2 _ F3) as (a3 & E3 & S3 & L3 & G3).
  rewrite S2 in S3, L3, G3.
  cbn [map nth List.length seq index_of Nat.eqb] in S3, L3, G3.
  rewrite E3; cbn [bind].
  (* .reshape((-1, 256), order="F") *)
  assert (F4 : fix_unknown_dimension [(-1)%Z; 256%Z]
                 (List.length (data a3)) = Some [T * C; 256]).
  { change [(-1)%Z; 256%Z] with (map Z.of_nat [] ++ (-1)%Z :: map Z.of_nat [256]).
    rewrite L3, !size_cons, size_nil.
    destruct (exact_div (T * (C * (256 * 1))) (1 * (256 * 1)) (T * C)) as [Hd Hm];
      [lia | ring |].
    rewrite fix_unknown_one; rewrite !size_cons, !size_nil; [|lia|assumption].
    rewrite Hd. reflexivity. }
  destruct (reshape_F_get F64.zero a3 _ _ F4) as (a4 & E4 & S4 & L4 & G4).
  rewrite E4; cbn [bind].
  (* .transpose() *)
  unfold transpose_rev. rewrite S4. cbn [List.length seq rev app].
  assert (F5 : valid_axes [1; 0] (List.length (shape a4)) = true).
  { rewrite S4. reflexivity. }
  destruct (transpose_get F64.zero a4 _ F5) as (a5 & E5 & S5 & L5 & G5).
  rewrite S4 in S5, L5, G5.
  cbn [map nth List.length seq index_of Nat.eqb] in S5, L5, G5.
  rewrite E5.
  exists a5. split; [reflexivity|]. split; [assumption|].
  split; [rewrite L5, !size_cons, size_nil; lia|].
  intros i k t Hi Hk Ht.
  assert (Hj : k * T + t < T * C) by nia.
  rewrite G5 by (apply in_bounds_2; assumption). cbn [nth].
  rewrite G4 by (apply in_bounds_2; assumption).
  rewrite S3.
  rewrite (unravel_F_of [T; C; 256] [T * C; 256] [t; k; i])
    by (try (apply in_bounds_3; assumption); cbn [ravel_F]; ring).
  rewrite G3 by (apply in_bounds_3; assumption). cbn [nth].
  rewrite G2 by (apply in_bounds_3; assumption).
  rewrite S1.
  rewrite (unravel_F_of [T; C * 256] [T; 256; C] [t; i + 256 * k])
    by (try (apply in_bounds_2; lia); cbn [ravel_F]; ring).
  rewrite G1 by (apply in_bounds_2; lia).
  change (shape (array1 l)) with [List.length l].
  rewrite (unravel_F_of [List.length l] [T; C * 256] [(i + 256 * k) * T + t])
    by (try (apply in_bounds_1; nia); cbn [ravel_F]; ring).
  unfold get. change (shape (array1 l)) with [List.length l].
  change (data (array1 l)) with l. cbn [ravel_C]. rewrite size_nil.
  f_equal. lia.
Qed.

(* ================================================================== *)
(** * The reshape of [unpack_calib] *)
(* ================================================================== *)

Lemma calib_reshape_spec (l : list Z) (T C : nat) :
  0 < T -> List.length l = 256 * T * C ->
  exists m, calib_reshape (array1 l) T = Return m
    /\ shape m = [256; T * C]
    /\ List.length (data m) = 256 * (T * C)
    /\ forall i k t, i < 256 -> k < C -> t < T ->
         get 0%Z m [i; k * T + t] = nth ((i + 256 * k) * T + t) l 0%Z.
Proof.
  intros HT Hlen. unfold calib_reshape.
  change (data (array1 l)) with l.
  rewrite true_div_count. destruct (Nat.eqb_spec T 0) as [|_]; [lia|].
  cbn [bind]. unfold len_Q. rewrite int_of_count_quotient by assumption.
  destruct (exact_div (List.length l) (T * 256) C) as [-> _];
    [lia | rewrite Hlen; ring |].
  (* data.reshape(cycles, 256, timestamps) *)
  assert (F1 : fix_unknown_dimension [Z.of_nat C; 256%Z; Z.of_nat T]
                 (List.length (data (array1 l))) = Some [C; 256; T]).
  { change [Z.of_nat C; 256%Z; Z.of_nat T] with (map Z.of_nat [C; 256; T]).
    rewrite fix_unknown_known. change (data (array1 l)) with l.
    rewrite !size_cons, size_nil.
    destruct (Nat.eqb_spec (C * (256 * (T * 1))) (List.length l)) as [|NE];
      [reflexivity | exfalso; apply NE; rewrite Hlen; ring]. }
  destruct (reshape_C_get 0%Z (array1 l) _ _ F1) as (a1 & E1 & S1 & D1).
  rewrite E1; cbn [bind].
  (* .transpose((1, 0, 2)) *)
  assert (F2 : valid_axes [1; 0; 2] (List.length (shape a1)) = true).
  { rewrite S1. reflexivity. }
  destruct (transpose_get 0%Z a1 _ F2) as (a2 & E2 & S2 & L2 & G2).
  rewrite S1 in S2, L2, G2.
  cbn [map nth List.length seq index_of Nat.eqb] in S2, L2, G2.
  rewrite E2; cbn [bind].
  (* .reshape(256, timestamps * cycles) *)
  assert (F3 : fix_unknown_dimension [256%Z; Z.of_nat (T * C)]
                 (List.length (data a2)) = Some [256; T * C]).
  { change [256%Z; Z.of_nat (T * C)] with (map Z.of_nat [256; T * C]).
    rewrite fix_unknown_known, L2, !size_cons, size_nil.
    destruct (Nat.eqb_spec (256 * (T * C * 1)) (256 * (C * (T * 1)))) as [|NE];
      [reflexivity | exfalso; apply NE; ring]. }
  destruct (reshape_C_get 0%Z a2 _ _ F3) as (a3 & E3 & S3 & D3).
  rewrite E3.
  exists a3. split; [reflexivity|]. split; [assumption|].
  split; [rewrite D3, L2, !size_cons, size_nil; ring|].
  intros i k t Hi Hk Ht.
  transitivity (get 0%Z a2 [i; k; t]).
  { unfold get. rewrite S3, S2, D3. cbn [ravel_C]. rewrite !size_cons, size_nil.
    f_equal. ring. }
  rewrite G2 by (apply in_bounds_3; assumption). cbn [nth].
  unfold get. rewrite S1, D1. change (data (array1 l)) with l.
  cbn [ravel_C]. rewrite !size_cons, size_nil. f_equal. ring.
Qed.

(* ================================================================== *)
(** * Slices and the row-slice assignment *)
(* ================================================================== *)

Section SliceFacts.
Context {A : Type}.
Variable d : A.

Lemma length_slice (l : list A) (a b : nat) :
  List.length (slice l a b) = Nat.min (b - a) (List.length l - a).
Proof. unfold slice. now rewrite length_firstn, length_skipn. Qed.

Lemma nth_slice (l : list A) (a b t : nat) :
  t < b - a -> nth t (slice l a b) d = nth (a + t) l d.
Proof.
  intros Ht. unfold slice. rewrite nth_firstn.
  destruct (Nat.ltb_spec t (b - a)); [|lia]. apply nth_skipn.
Qed.

Lemma length_row (m : ndarray A) (i : nat) :
  (i + 1) * ncols m <= List.length (data m) ->
  List.length (row m i) = ncols m.
Proof. intros H. unfold row. rewrite length_firstn, length_skipn. lia. Qed.

(** A slice assignment whose source has the length of the slice writes
    the source over the row-major positions of the slice. *)
Lemma setitem_row_slice_exact (m : ndarray A) (R0 R i a b : nat)
      (src : list A) :
  shape m = [R0; R] -> List.length (data m) = R0 * R ->
  i < R0 -> b = a + List.length src -> b <= R ->
  setitem_row_slice d m i a b src =
  Return {| shape := shape m;
            data := firstn (i * R + a) (data m) ++ src
                    ++ skipn (i * R + a + List.length src) (data m) |}.
Proof.
  intros Hs Hl Hi Hb HR. unfold setitem_row_slice, nrows. rewrite Hs. cbn [nth].
  destruct (Nat.ltb_spec i R0) as [_|]; [|lia].
  assert (Hc : ncols m = R) by (unfold ncols; now rewrite Hs).
  assert (Hrow : List.length (row m i) = R)
    by (rewrite length_row; rewrite Hc; nia).
  unfold assign_slice. rewrite Hrow.
  rewrite (Nat.min_l a R), (Nat.min_l b R) by lia.
  destruct (Nat.eqb_spec (List.length src) (b - a)) as [_|]; [|lia].
  unfold set_row. rewrite Hs, Hc. f_equal. f_equal.
  unfold row. rewrite Hc.
  rewrite firstn_firstn, (Nat.min_l a R) by lia.
  rewrite skipn_firstn_comm, skipn_skipn.
  rewrite !app_assoc. rewrite firstn_extend. rewrite <- !app_assoc.
  f_equal. f_equal.
  replace (i * R + R) with ((R - b) + (b + i * R)) by lia.
  rewrite <- (skipn_skipn (R - b) (b + i * R)). rewrite firstn_skipn. f_equal. lia.
Qed.
End SliceFacts.

(** Two positions of one block of width [b] lie in the same block. *)
Lemma block_unique (b q q' r : nat) :
  r < b -> q' * b <= q * b + r -> q * b + r < q' * b + b -> q = q'.
Proof. intros. nia. Qed.

(* ================================================================== *)
(** * The copy loops of [unpack_binary_flex] *)
(* ================================================================== *)

(** Every position of the matrix is a (pixel, cycle, slot) triple. *)
Lemma position_triple (T C p : nat) :
  p < 256 * (T * C) ->
  exists i k t, i < 256 /\ k < C /\ t < T /\ p = i * (T * C) + k * T + t.
Proof.
  intros Hp.
  assert (HTC : T * C <> 0) by lia.
  exists (p / (T * C)), (p mod (T * C) / T), (p mod (T * C) mod T).
  pose proof (Nat.div_mod_eq p (T * C)) as E1.
  pose proof (Nat.mod_upper_bound p (T * C) HTC) as B1.
  pose proof (Nat.div_mod_eq (p mod (T * C)) T) as E2.
  pose proof (Nat.mod_upper_bound (p mod (T * C)) T ltac:(lia)) as B2.
  repeat split.
  - apply Nat.Div0.div_lt_upper_bound. lia.
  - apply Nat.Div0.div_lt_upper_bound. lia.
  - assumption.
  - lia.
Qed.

Section FlexLoops.
Variable timestamp_list : list num.
Variables T C R : nat.
Hypothesis T_pos : 0 < T.
(** The list holds [C] whole cycles, maybe more words after them, and the
    matrix has the row length line 74 gives it. *)
Hypothesis cycles_fit : 256 * T * C <= List.length timestamp_list.
Hypothesis row_length : R = List.length timestamp_list / 256.

Lemma cycles_in_row : T * C <= R.
Proof.
  rewrite row_length. apply Nat.div_le_lower_bound; lia.
Qed.

Lemma filled_alloc : filled timestamp_list T C R 0 0 (flex_alloc timestamp_list).
Proof.
  unfold flex_alloc. rewrite int_of_len_256, <- row_length.
  unfold filled, full; cbn [shape data]. rewrite !size_cons, size_nil.
  split; [reflexivity|]. split; [rewrite repeat_length; lia|].
  intros i' k' t _ _ _. cbn [Nat.ltb Nat.leb orb].
  destruct (k' =? 0); cbn [andb]; apply nth_repeat.
Qed.

Lemma filled_next_cycle (k : nat) (m : ndarray F64.float) :
  filled timestamp_list T C R k 256 m -> filled timestamp_list T C R (k + 1) 0 m.
Proof.
  intros (Hs & Hl & Hc). split; [assumption|]. split; [assumption|].
  intros i' k' t Hi Hk Ht. rewrite (Hc i' k' t Hi Hk Ht).
  replace ((k' <? k + 1) || (k' =? k + 1) && (i' <? 0))
    with ((k' <? k) || (k' =? k) && (i' <? 256)); [reflexivity|].
  destruct (Nat.ltb_spec k' k), (Nat.eqb_spec k' k), (Nat.ltb_spec i' 256),
    (Nat.ltb_spec k' (k + 1)), (Nat.eqb_spec k' (k + 1)), (Nat.ltb_spec i' 0);
    cbn; try reflexivity; lia.
Qed.

Lemma source_slice (i k t : nat) :
  i < 256 -> k < C -> t < T ->
  nth t (map to_float64
           (slice timestamp_list ((i + 256 * k) * T)
                  ((i + 256 * k) * T + T))) F64.zero
  = source_cell timestamp_list T i k t.
Proof.
  intros Hi Hk Ht. unfold source_cell.
  assert (Hlen : List.length (slice timestamp_list ((i + 256 * k) * T)
                                    ((i + 256 * k) * T + T)) = T)
    by (rewrite length_slice; nia).
  rewrite (nth_indep _ F64.zero (to_float64 (PyInt 0)))
    by (now rewrite length_map, Hlen).
  rewrite map_nth. f_equal. apply nth_slice. lia.
Qed.

(** One iteration of the pixel loop (lines 84-90). *)
Lemma pixel_step (k i : nat) (m : ndarray F64.float) :
  k < C -> i < 256 -> filled timestamp_list T C R k i m ->
  exists m',
    setitem_row_slice F64.zero m i (k * T) (k * T + T)
      (map to_float64
         (slice timestamp_list ((i + 256 * k) * T) ((i + 256 * k) * T + T)))
    = Return m'
    /\ filled timestamp_list T C R k (i + 1) m'.
Proof.
  intros Hk Hi (Hs & Hl & Hc). pose proof cycles_in_row as HR.
  set (src := map to_float64 _).
  assert (Hsrc : List.length src = T)
    by (unfold src; rewrite length_map, length_slice; nia).
  rewrite (setitem_row_slice_exact F64.zero m 256 R i (k * T) (k * T + T) src)
    by (try assumption; try lia; nia).
  eexists; split; [reflexivity|].
  assert (Hfit : i * R + k * T + List.length src <= List.length (data m))
    by (rewrite Hsrc, Hl; nia).
  split; [assumption|]. cbn [data].
  split; [rewrite length_overwrite by assumption; assumption|].
  intros i' k' t Hi' Hk' Ht.
  rewrite nth_overwrite by assumption. rewrite Hsrc.
  destruct (Nat.leb_spec (i * R + k * T) (i' * R + k' * T + t))
    as [Hlo|Hlo];
    [destruct (Nat.ltb_spec (i' * R + k' * T + t)
                            (i * R + k * T + T)) as [Hhi|Hhi]|];
    cbn [andb].
  - (* the cell lies in the block just written *)
    assert (i' = i)
      by (apply (block_unique R i' i (k' * T + t)); nia).
    subst i'.
    assert (k' = k) by (apply (block_unique T k' k t); nia).
    subst k'.
    replace (i * R + k * T + t - (i * R + k * T)) with t by lia.
    rewrite Nat.ltb_irrefl, Nat.eqb_refl.
    destruct (Nat.ltb_spec i (i + 1)); [|lia]. cbn [andb orb].
    unfold src. now apply source_slice.
  - (* above the block *)
    rewrite (Hc i' k' t Hi' Hk' Ht).
    destruct (Nat.ltb_spec k' k); [reflexivity|]. cbn [orb].
    destruct (Nat.eqb_spec k' k) as [->|]; [|reflexivity]. cbn [andb].
    destruct (Nat.ltb_spec i' i), (Nat.ltb_spec i' (i + 1)); try reflexivity;
      try lia.
    assert (i' = i) by lia. subst i'. lia.
  - (* below the block *)
    rewrite (Hc i' k' t Hi' Hk' Ht).
    destruct (Nat.ltb_spec k' k); [reflexivity|]. cbn [orb].
    destruct (Nat.eqb_spec k' k) as [->|]; [|reflexivity]. cbn [andb].
    destruct (Nat.ltb_spec i' i), (Nat.ltb_spec i' (i + 1)); try reflexivity;
      try lia.
    assert (i' = i) by lia. subst i'. lia.
Qed.

(** The pixel loop returns after its 256 iterations. *)
Lemma pixel_loop_filled (k : nat) (m : ndarray F64.float) :
  k < C -> filled timestamp_list T C R k 0 m ->
  exists m', pixel_loop timestamp_list T k m = Return (256, m')
             /\ filled timestamp_list T C R (k + 1) 0 m'.
Proof.
  intros Hk Hm. unfold pixel_loop.
  destruct (while_measure
              (fun s => fst s <? 256)
              (fun s =>
                 data_matrix' <-
                   setitem_row_slice F64.zero (snd s) (fst s)
                     (k * T) (k * T + T)
                     (map to_float64
                        (slice timestamp_list ((fst s + 256 * k) * T)
                               ((fst s + 256 * k) * T + T))) ;;
                 Return (fst s + 1, data_matrix'))
              (fun s => fst s <= 256 /\ filled timestamp_list T C R k (fst s) (snd s))
              (fun s => 256 - fst s))
    with (fuel := 256) (s := (0, m)) as ([i m'] & E & (Hle & Hf) & Hc).
  - intros [i m0] [Hle Hf] Hc. cbn [fst snd] in *.
    apply Nat.ltb_lt in Hc.
    destruct (pixel_step k i m0 Hk Hc Hf) as (m1 & E1 & Hf1).
    rewrite E1. cbn [bind]. exists (i + 1, m1). cbn [fst snd].
    split; [reflexivity|]. split; [split; [lia | exact Hf1] | lia].
  - cbn [fst snd]. split; [lia | assumption].
  - cbn [fst]. lia.
  - cbn [fst snd] in *. apply Nat.ltb_ge in Hc.
    assert (i = 256) by lia. subst i.
    exists m'. split; [exact E | now apply filled_next_cycle].
Qed.

(** Run toward a bound [K <= C], the cycle loop returns after [K] cycles
    with the first [K] cycles copied. *)
Lemma cycle_loop_upto (noc : Q) (K fuel : nat) :
  K <= C ->
  (forall k, Qeq_bool (inject_Z (Z.of_nat k)) noc = (k =? K)) ->
  K <= fuel ->
  exists m',
    cycle_loop fuel timestamp_list T noc (flex_alloc timestamp_list)
    = Return (K, m')
    /\ filled timestamp_list T C R K 0 m'.
Proof.
  intros HK Hnoc Hfuel. unfold cycle_loop.
  destruct (while_measure
              (fun s => negb (Qeq_bool (inject_Z (Z.of_nat (fst s))) noc))
              (fun s =>
                 s' <- pixel_loop timestamp_list T (fst s) (snd s) ;;
                 Return (fst s + 1, snd s'))
              (fun s => fst s <= K /\ filled timestamp_list T C R (fst s) 0 (snd s))
              (fun s => K - fst s))
    with (fuel := fuel) (s := (0, flex_alloc timestamp_list))
    as ([k m'] & E & (Hle & Hf) & Hc).
  - intros [k m0] [Hle Hf] Hc. cbn [fst snd] in *.
    rewrite Hnoc in Hc. apply negb_true_iff, Nat.eqb_neq in Hc.
    assert (Hk : k < C) by lia.
    destruct (pixel_loop_filled k m0 Hk Hf) as (m1 & E1 & Hf1).
    rewrite E1. cbn [bind snd]. exists (k + 1, m1). cbn [fst snd].
    split; [reflexivity|]. split; [split; [lia | exact Hf1] | lia].
  - cbn [fst snd]. split; [lia | apply filled_alloc].
  - cbn [fst]. lia.
  - cbn [fst snd] in *. rewrite Hnoc in Hc.
    apply negb_false_iff, Nat.eqb_eq in Hc. subst k.
    exists m'. split; assumption.
Qed.

Lemma filled_get (m : ndarray F64.float) (K i k t : nat) :
  filled timestamp_list T C R K 0 m -> i < 256 -> k < C -> t < T ->
  get F64.zero m [i; k * T + t] =
  if k <? K then source_cell timestamp_list T i k t else F64.zero.
Proof.
  intros (Hs & Hl & Hc) Hi Hk Ht. unfold get. rewrite Hs.
  cbn [ravel_C]. rewrite !size_cons, size_nil.
  replace (i * (R * 1) + ((k * T + t) * 1 + 0))
    with (i * R + k * T + t) by ring.
  rewrite Hc by assumption.
  destruct (k <? K); [reflexivity|]. cbn [orb].
  destruct (k =? K); reflexivity.
Qed.
End FlexLoops.

(** The exit test of line 81 for the [noc] of line 76, when the list holds
    exactly [C] cycles. *)
Lemma noc_exact (timestamp_list : list num) (T C k : nat) :
  0 < T -> List.length timestamp_list = 256 * T * C ->
  Qeq_bool (inject_Z (Z.of_nat k))
           (len_Q timestamp_list / inject_Z (Z.of_nat T) / 256) = (k =? C).
Proof.
  intros HT Hlen. unfold len_Q. rewrite noc_test by assumption. rewrite Hlen.
  destruct (Nat.eqb_spec k C) as [->|NE].
  - apply Nat.eqb_eq. ring.
  - apply Nat.eqb_neq. nia.
Qed.

(** A completely filled matrix without spare columns is determined by the
    source. *)
Lemma filled_unique (timestamp_list : list num) (T C : nat)
      (m1 m2 : ndarray F64.float) :
  filled timestamp_list T C (T * C) C 0 m1 ->
  filled timestamp_list T C (T * C) C 0 m2 -> m1 = m2.
Proof.
  intros (S1 & L1 & H1) (S2 & L2 & H2).
  destruct m1 as [sh1 d1], m2 as [sh2 d2]. cbn [shape data] in *.
  subst sh1 sh2. f_equal.
  apply (nth_ext _ _ F64.zero F64.zero); [congruence|].
  intros p Hp. rewrite L1 in Hp.
  destruct (position_triple T C p Hp) as (i & k & t & Hi & Hk & Ht & ->).
  now rewrite H1, H2.
Qed.

(** With exactly [C] cycles in the list the row length is [T * C]. *)
Lemma exact_row_length (timestamp_list : list num) (T C : nat) :
  List.length timestamp_list = 256 * T * C ->
  T * C = List.length timestamp_list / 256.
Proof.
  intros Hlen.
  destruct (exact_div (List.length timestamp_list) 256 (T * C)) as [-> _];
    [lia | rewrite Hlen; ring | reflexivity].
Qed.

(* ================================================================== *)
(** * Words and the two decoders *)
(* ================================================================== *)

(** Induction over a byte list four bytes at a time. *)
Lemma list_ind4 {A : Type} (P : list A -> Prop) :
  P [] -> (forall a, P [a]) -> (forall a b, P [a; b]) ->
  (forall a b c, P [a; b; c]) ->
  (forall a b c e l, P l -> P (a :: b :: c :: e :: l)) ->
  forall l, P l.
Proof.
  intros H0 H1 H2 H3 H4.
  assert (H : forall n l, List.length l <= n -> P l).
  { induction n as [|n IH]; intros l Hl.
    - destruct l; [exact H0 | simpl in Hl; lia].
    - destruct l as [|a [|b [|c [|e l]]]]; auto.
      apply H4, IH. simpl in Hl. lia. }
  intros l. now apply (H (List.length l)).
Qed.

Lemma length_words_of (f : list byte) : List.length (words_of f) = List.length f / 4.
Proof.
  induction f as [| | | |a b c e l IH] using list_ind4; try reflexivity.
  cbn [words_of List.length]. rewrite IH.
  change (S (S (S (S (List.length l))))) with (4 + List.length l).
  replace (4 + List.length l) with (List.length l + 1 * 4) by lia.
  rewrite Nat.div_add by lia. lia.
Qed.

Lemma byte_val_range (b : byte) : (0 <= byte_val b < 256)%Z.
Proof. unfold byte_val. pose proof (Byte.to_N_bounded b). lia. Qed.

Lemma le32_range (b0 b1 b2 b3 : byte) : (0 <= le32 b0 b1 b2 b3 < 2 ^ 32)%Z.
Proof.
  unfold le32.
  pose proof (byte_val_range b0). pose proof (byte_val_range b1).
  pose proof (byte_val_range b2). pose proof (byte_val_range b3).
  change (2 ^ 8)%Z with 256%Z. change (2 ^ 16)%Z with 65536%Z.
  change (2 ^ 24)%Z with 16777216%Z. change (2 ^ 32)%Z with 4294967296%Z.
  lia.
Qed.

Lemma words_of_range (f : list byte) :
  Forall (fun w => 0 <= w < 2 ^ 32)%Z (words_of f).
Proof.
  induction f as [| | | |a b c e l IH] using list_ind4;
    cbn [words_of]; constructor; [apply le32_range | assumption].
Qed.

(** The validity test of both decoders is the test of bit 31. *)
Lemma validity_shift (w : Z) :
  (0 <= w < 2 ^ 32)%Z -> (Z.shiftr w 31 =? 1)%Z = Z.testbit w 31.
Proof.
  intros Hw.
  replace (Z.testbit w 31) with (Z.odd (Z.shiftr w 31))
    by (rewrite <- Z.bit0_odd, Z.shiftr_spec by lia; reflexivity).
  rewrite Z.shiftr_div_pow2 by lia.
  assert (H : (w / 2 ^ 31 = 0 \/ w / 2 ^ 31 = 1)%Z).
  { change (2 ^ 32)%Z with (2 * 2 ^ 31)%Z in Hw.
    assert (0 <= w / 2 ^ 31 < 2)%Z; [|lia].
    split; [apply Z.div_pos; lia | apply Z.div_lt_upper_bound; lia]. }
  destruct H as [-> | ->]; reflexivity.
Qed.

Lemma validity_compare (w : Z) :
  (0 <= w < 2 ^ 32)%Z -> (w <? 0x80000000)%Z = negb (Z.testbit w 31).
Proof.
  intros Hw. rewrite <- validity_shift by assumption.
  rewrite Z.shiftr_div_pow2 by lia.
  change 0x80000000%Z with (2 ^ 31)%Z.
  destruct (Z.ltb_spec w (2 ^ 31)) as [H|H].
  - rewrite Z.div_small by lia. reflexivity.
  - assert (w / 2 ^ 31 = 1)%Z; [|now replace (w / 2 ^ 31)%Z with 1%Z].
    change (2 ^ 32)%Z with (2 * 2 ^ 31)%Z in Hw.
    assert (1 <= w / 2 ^ 31 < 2)%Z; [|lia].
    split; [apply Z.div_le_lower_bound; lia | apply Z.div_lt_upper_bound; lia].
Qed.

(** The read loop on a stream of whole words. *)
Lemma read_packets_whole (f : list byte) :
  List.length f mod 4 = 0 ->
  forall timestamp_list address_list,
    read_packets f timestamp_list address_list =
    Return (timestamp_list ++ map packet_timestamp (words_of f),
            address_list ++ map packet_address (words_of f)).
Proof.
  induction f as [|a|a b|a b c|a b c e l IH] using list_ind4; intros Hm tl al;
    try (cbn in Hm; discriminate).
  - cbn [read_packets words_of map]. now rewrite !app_nil_r.
  - cbn [read_packets struct_unpack_I bind words_of map].
    rewrite IH.
    + now rewrite <- !app_assoc.
    + cbn [List.length] in Hm.
      change (S (S (S (S (List.length l))))) with (4 + List.length l) in Hm.
      replace (4 + List.length l) with (List.length l + 1 * 4) in Hm by lia.
      now rewrite Nat.Div0.mod_add in Hm.
Qed.

(** The read loop on a stream that ends in a partial word. *)
Lemma read_packets_partial (f : list byte) :
  List.length f mod 4 <> 0 ->
  forall timestamp_list address_list,
    read_packets f timestamp_list address_list = Raise StructError.
Proof.
  induction f as [|a|a b|a b c|a b c e l IH] using list_ind4; intros Hm tl al;
    try reflexivity.
  - cbn in Hm. congruence.
  - cbn [read_packets struct_unpack_I bind]. apply IH.
    cbn [List.length] in Hm.
    change (S (S (S (S (List.length l))))) with (4 + List.length l) in Hm.
    replace (4 + List.length l) with (List.length l + 1 * 4) in Hm by lia.
    now rewrite Nat.Div0.mod_add in Hm.
Qed.

(** A masked scalar assignment, element by element. *)
Lemma put_scalar_where {A B : Type} (d : A) (g : B -> A) (c : B -> bool)
      (v : A) (ws : list B) :
  put_scalar (map g ws) (where_ (map c ws)) v =
  map (fun w => if c w then v else g w) ws.
Proof.
  apply (nth_ext _ _ d d).
  - now rewrite length_put_scalar, !length_map.
  - intros p Hp. rewrite length_put_scalar, length_map in Hp.
    rewrite nth_put_scalar by (now rewrite length_map).
    rewrite where_spec.
    destruct ws as [|w0 ws]; [simpl in Hp; lia|].
    rewrite (nth_indep (map c (w0 :: ws)) false (c w0)) by (now rewrite length_map).
    rewrite (nth_indep (map g (w0 :: ws)) d (g w0)) by (now rewrite length_map).
    rewrite (nth_indep (map _ (w0 :: ws)) d (if c w0 then v else g w0))
      by (now rewrite length_map).
    rewrite (map_nth c), (map_nth g).
    now rewrite (map_nth (fun w => if c w then v else g w)).
Qed.

Lemma numpy_decode_map (f : list byte) :
  numpy_decode f =
  array1 (map (fun w => to_float64 (packet_timestamp w)) (words_of f)).
Proof.
  unfold numpy_decode, invalid_mask, np_fromfile_uint32. cbn [data array1].
  f_equal. rewrite (put_scalar_where F64.zero).
  apply map_ext_in. intros w Hw.
  pose proof (proj1 (Forall_forall _ _) (words_of_range f) w Hw) as Hr.
  cbv beta in Hr. unfold packet_timestamp.
  rewrite validity_compare, validity_shift by assumption.
  destruct (Z.testbit w 31); reflexivity.
Qed.

Lemma calib_decode_map (f : list byte) :
  calib_decode f =
  array1 (map (fun w => if Z.testbit w 31 then Z.land w 0xFFFFFFF else (-1)%Z)
              (words_of f)).
Proof.
  unfold calib_decode, invalid_mask, np_fromfile_uint32. cbn [data array1].
  f_equal. rewrite (put_scalar_where 0%Z).
  apply map_ext_in. intros w Hw.
  pose proof (proj1 (Forall_forall _ _) (words_of_range f) w Hw) as Hr.
  cbv beta in Hr. rewrite validity_compare by assumption.
  destruct (Z.testbit w 31); reflexivity.
Qed.

(* ================================================================== *)
(** * The reshape of [unpack_binary_flex] *)
(* ================================================================== *)

Lemma flex_reshape_spec (timestamp_list : list num) (T C fuel : nat) :
  0 < T -> List.length timestamp_list = 256 * T * C -> C <= fuel ->
  exists m, flex_reshape fuel timestamp_list T = Return m
    /\ filled timestamp_list T C (T * C) C 0 m.
Proof.
  intros HT Hlen Hfuel. unfold flex_reshape.
  rewrite true_div_count. destruct (Nat.eqb_spec T 0) as [|_]; [lia|].
  cbn [bind].
  destruct (cycle_loop_upto timestamp_list T C (T * C) HT
              ltac:(rewrite Hlen; lia) (exact_row_length _ T C Hlen)
              (len_Q timestamp_list / inject_Z (Z.of_nat T) / 256) C fuel)
    as (m & E & Hf);
    [lia | intros k; apply noc_exact; assumption | assumption |].
  rewrite E. cbn [bind snd]. exists m. split; [reflexivity | assumption].
Qed.

(** When the word count is not a multiple of [256 * T] the exit test of the
    cycle loop never succeeds. *)
Lemma noc_never (n T k : nat) :
  0 < T -> n mod (256 * T) <> 0 ->
  Qeq_bool (inject_Z (Z.of_nat k))
           (inject_Z (Z.of_nat n) / inject_Z (Z.of_nat T) / 256) = false.
Proof.
  intros HT Hn. rewrite noc_test by assumption.
  apply Nat.eqb_neq. intros E. apply Hn. subst n.
  replace (k * (T * 256)) with (k * (256 * T)) by ring.
  apply Nat.Div0.mod_mul.
Qed.

Lemma cycle_loop_no_return (timestamp_list : list num) (T : nat)
      (data_matrix : ndarray F64.float) :
  0 < T -> List.length timestamp_list mod (256 * T) <> 0 ->
  forall fuel s,
    cycle_loop fuel timestamp_list T
      (len_Q timestamp_list / inject_Z (Z.of_nat T) / 256) data_matrix
    <> Return s.
Proof.
  intros HT Hn fuel s. unfold cycle_loop.
  apply (while_no_return _ _ (fun _ => True)); auto.
  intros s0 _. unfold len_Q. now rewrite noc_never.
Qed.

(* ================================================================== *)
(** * Rejection of a word count that does not fit the geometry *)
(* ================================================================== *)

Lemma floor_not_exact (n b : nat) : n mod b <> 0 -> n / b * b <> n.
Proof.
  intros H E. apply H. rewrite <- E. apply Nat.Div0.mod_mul.
Qed.

Lemma numpy_reshape_rejects (l : list F64.float) (T : nat) :
  0 < T -> List.length l mod (256 * T) <> 0 ->
  numpy_reshape (array1 l) T = Raise ValueError.
Proof.
  intros HT Hn. unfold numpy_reshape. change (data (array1 l)) with l.
  rewrite true_div_count. destruct (Nat.eqb_spec T 0) as [|_]; [lia|].
  cbn [bind]. unfold len_Q. rewrite int_of_count_quotient by assumption.
  set (c := List.length l / (T * 256)).
  unfold reshape at 1.
  change [Z.of_nat T; Z.of_nat (c * 256)] with (map Z.of_nat [T; c * 256]).
  rewrite fix_unknown_known. change (data (array1 l)) with l.
  rewrite !size_cons, size_nil.
  destruct (Nat.eqb_spec (T * (c * 256 * 1)) (List.length l)) as [E|_];
    [|reflexivity].
  exfalso. apply (floor_not_exact (List.length l) (T * 256)).
  - now replace (T * 256) with (256 * T) by ring.
  - fold c. rewrite <- E. ring.
Qed.

Lemma calib_reshape_rejects (l : list Z) (T : nat) :
  0 < T -> List.length l mod (256 * T) <> 0 ->
  calib_reshape (array1 l) T = Raise ValueError.
Proof.
  intros HT Hn. unfold calib_reshape. change (data (array1 l)) with l.
  rewrite true_div_count. destruct (Nat.eqb_spec T 0) as [|_]; [lia|].
  cbn [bind]. unfold len_Q. rewrite int_of_count_quotient by assumption.
  set (c := List.length l / (T * 256)).
  unfold reshape at 1.
  change [Z.of_nat c; 256%Z; Z.of_nat T] with (map Z.of_nat [c; 256; T]).
  rewrite fix_unknown_known. change (data (array1 l)) with l.
  rewrite !size_cons, size_nil.
  destruct (Nat.eqb_spec (c * (256 * (T * 1))) (List.length l)) as [E|_];
    [|reflexivity].
  exfalso. apply (floor_not_exact (List.length l) (T * 256)).
  - now replace (T * 256) with (256 * T) by ring.
  - fold c. rewrite <- E. ring.
Qed.

(* ================================================================== *)
(** * The calibration loop of [unpack_calib] *)
(* ================================================================== *)

Lemma combine_map_same {A B C : Type} (g : A -> B) (h : A -> C) (l : list A) :
  combine (map g l) (map h l) = map (fun x => (g x, h x)) l.
Proof. induction l as [|x l IH]; simpl; [reflexivity | now rewrite IH]. Qed.

Section Calibration.
Variable cal_mat : ndarray F64.float.
Hypothesis cal_shape : shape cal_mat = [256; 140].

Lemma nth_row (m : ndarray Z) (R i j : nat) :
  ncols m = R -> j < R ->
  nth j (row m i) 0%Z = nth (i * R + j) (data m) 0%Z.
Proof.
  intros Hc Hj. unfold row. rewrite Hc, nth_firstn.
  destruct (Nat.ltb_spec j R); [|lia]. apply nth_skipn.
Qed.

Lemma calib_row_spec (m : ndarray Z) (R i : nat) :
  shape m = [256; R] -> List.length (data m) = 256 * R -> i < 256 ->
  calib_row cal_mat i m =
  Return {| shape := shape m;
            data := firstn (i * R) (data m)
                    ++ map (calibrated_cell cal_mat i) (row m i)
                    ++ skipn (i * R + R) (data m) |}.
Proof.
  intros Hs Hl Hi. unfold calib_row, nrows. rewrite Hs. cbn [nth].
  destruct (Nat.ltb_spec i 256) as [_|]; [|lia].
  assert (Hc : ncols m = R) by (unfold ncols; now rewrite Hs).
  set (r := row m i).
  set (ind := where_ (map (fun v => (0 <=? v)%Z) r)).
  unfold cal_take, nrows, ncols. rewrite cal_shape. cbn [nth].
  destruct (Nat.ltb_spec i 256) as [_|]; [|lia]. cbn [andb].
  rewrite (proj2 (forallb_forall _ _)).
  2:{ intros b Hb. apply in_map_iff in Hb. destruct Hb as (v & <- & _).
      apply Nat.ltb_lt.
      pose proof (Z.mod_pos_bound v 140 ltac:(lia)). lia. }
  cbn [bind]. unfold set_row. rewrite Hc, Hs. do 4 f_equal.
  unfold take. rewrite !map_map, combine_map_same, !map_map. cbn [fst snd].
  apply (nth_ext _ _ 0%Z 0%Z).
  - now rewrite length_put, length_map.
  - intros p Hp. rewrite length_put in Hp.
    rewrite (nth_put_map 0%Z
               (fun j => F64.to_int64
                  (corrected (nth j r 0%Z)
                     (get F64.zero cal_mat
                        [i; Z.to_nat (nth j r 0 mod 140)%Z])))) by assumption.
    unfold ind. rewrite where_spec.
    rewrite (nth_indep (map (calibrated_cell cal_mat i) r) 0%Z
               (calibrated_cell cal_mat i 0%Z))
      by (now rewrite length_map).
    rewrite (nth_indep (map _ r) false ((fun v => (0 <=? v)%Z) 0%Z))
      by (now rewrite length_map).
    rewrite (map_nth (calibrated_cell cal_mat i)), (map_nth (fun v => (0 <=? v)%Z)).
    unfold calibrated_cell. reflexivity.
Qed.

Variable data_matrix : ndarray Z.
Variable R : nat.
Hypothesis matrix_shape : shape data_matrix = [256; R].
Hypothesis matrix_length : List.length (data data_matrix) = 256 * R.

Lemma calib_row_step (a : nat) (m : ndarray Z) :
  a < 256 -> rows_done cal_mat data_matrix R a m ->
  exists m', calib_row cal_mat a m = Return m'
             /\ rows_done cal_mat data_matrix R (a + 1) m'.
Proof.
  intros Ha (Hs & Hl & Hc).
  assert (Hcols : ncols m = R) by (unfold ncols; now rewrite Hs).
  assert (Hrow : List.length (map (calibrated_cell cal_mat a) (row m a)) = R)
    by (rewrite length_map, length_row; rewrite Hcols; nia).
  assert (Hfit : a * R + List.length (map (calibrated_cell cal_mat a) (row m a))
                 <= List.length (data m)) by (rewrite Hrow, Hl; nia).
  rewrite (calib_row_spec m R a Hs Hl Ha).
  eexists; split; [reflexivity|].
  replace (a * R + R)
    with (a * R + List.length (map (calibrated_cell cal_mat a) (row m a)))
    by (now rewrite Hrow).
  split; [assumption|]. cbn [data].
  split; [rewrite length_overwrite by assumption; assumption|].
  intros i j Hi Hj. rewrite nth_overwrite by assumption. rewrite Hrow.
  destruct (Nat.leb_spec (a * R) (i * R + j)) as [Hlo|Hlo];
    [destruct (Nat.ltb_spec (i * R + j) (a * R + R)) as [Hhi|Hhi]|];
    cbn [andb].
  - assert (i = a) by (apply (block_unique R i a j); lia). subst i.
    replace (a * R + j - a * R) with j by lia.
    destruct (Nat.ltb_spec a (a + 1)); [|lia].
    rewrite (nth_indep _ 0%Z (calibrated_cell cal_mat a 0%Z)) by (now rewrite Hrow).
    rewrite map_nth, (nth_row m R a j Hcols Hj), (Hc a j Hi Hj).
    now rewrite Nat.ltb_irrefl.
  - rewrite (Hc i j Hi Hj).
    destruct (Nat.ltb_spec i a), (Nat.ltb_spec i (a + 1)); try reflexivity;
      try lia.
    assert (i = a) by lia. subst i. lia.
  - rewrite (Hc i j Hi Hj).
    destruct (Nat.ltb_spec i a), (Nat.ltb_spec i (a + 1)); try reflexivity;
      try lia.
    assert (i = a) by lia. subst i. lia.
Qed.

Lemma for_each_rows (n a : nat) (m : ndarray Z) :
  a + n = 256 -> rows_done cal_mat data_matrix R a m ->
  exists m', for_each (seq a n) (calib_row cal_mat) m = Return m'
             /\ rows_done cal_mat data_matrix R 256 m'.
Proof.
  revert a m; induction n as [|n IH]; intros a m Han Hm.
  - cbn [seq for_each]. exists m. replace a with 256 in Hm by lia. auto.
  - cbn [seq for_each].
    destruct (calib_row_step a m ltac:(lia) Hm) as (m1 & E1 & H1).
    rewrite E1. cbn [bind]. apply IH; [lia|].
    now replace (S a) with (a + 1) by lia.
Qed.

Lemma rows_done_start : rows_done cal_mat data_matrix R 0 data_matrix.
Proof. repeat split; auto. Qed.

(** The calibration returns with every row corrected. *)
Lemma calibrate_rows_done :
  exists m', calibrate cal_mat data_matrix = Return m'
             /\ rows_done cal_mat data_matrix R 256 m'.
Proof. exact (for_each_rows 256 0 data_matrix eq_refl rows_done_start). Qed.

Lemma rows_done_get (m' : ndarray Z) (i j : nat) :
  rows_done cal_mat data_matrix R 256 m' -> i < 256 -> j < R ->
  get 0%Z m' [i; j] = calibrated_cell cal_mat i (get 0%Z data_matrix [i; j]).
Proof.
  intros (Hs & Hl & Hc) Hi Hj. unfold get. rewrite Hs, matrix_shape.
  cbn [ravel_C]. rewrite !size_cons, size_nil.
  replace (i * (R * 1) + (j * 1 + 0)) with (i * R + j) by ring.
  rewrite (Hc i j Hi Hj).
  destruct (Nat.ltb_spec i 256); [reflexivity | lia].
Qed.

(** Position by position, the corrected data is the calibrated cell of the
    row the position lies in. *)
Lemma rows_done_nth (m' : ndarray Z) (p : nat) :
  rows_done cal_mat data_matrix R 256 m' -> p < 256 * R ->
  nth p (data m') 0%Z = calibrated_cell cal_mat (p / R) (nth p (data data_matrix) 0%Z).
Proof.
  intros (Hs & Hl & Hc) Hp.
  assert (HR : R <> 0) by lia.
  pose proof (Nat.div_mod_eq p R) as E.
  pose proof (Nat.mod_upper_bound p R HR) as B.
  assert (Hi : p / R < 256) by (apply Nat.Div0.div_lt_upper_bound; lia).
  replace p with (p / R * R + p mod R) at 1 3 by lia.
  rewrite (Hc (p / R) (p mod R) Hi B).
  destruct (Nat.ltb_spec (p / R) 256); [reflexivity | lia].
Qed.
End Calibration.

(* ================================================================== *)
(** * Counting sentinels *)
(* ================================================================== *)

Lemma count_occ_pointwise_le (x : Z) (l l' : list Z) :
  List.length l = List.length l' ->
  (forall p, p < List.length l -> nth p l 0%Z = x -> nth p l' 0%Z = x) ->
  count_occ Z.eq_dec l x <= count_occ Z.eq_dec l' x.
Proof.
  revert l'; induction l as [|a l IH]; intros [|a' l'] Hlen H;
    try (simpl in Hlen; discriminate); [simpl; lia|].
  assert (Htl : count_occ Z.eq_dec l x <= count_occ Z.eq_dec l' x).
  { apply IH; [simpl in Hlen; lia|].
    intros p Hp. apply (H (S p)). simpl. lia. }
  simpl. destruct (Z.eq_dec a x) as [E|E].
  - assert (a' = x) by (apply (H 0); [simpl; lia | exact E]).
    destruct (Z.eq_dec a' x); [lia | contradiction].
  - destruct (Z.eq_dec a' x); lia.
Qed.

Lemma count_occ_pointwise_eq (x : Z) (l l' : list Z) :
  List.length l = List.length l' ->
  (forall p, p < List.length l -> nth p l 0%Z = x <-> nth p l' 0%Z = x) ->
  count_occ Z.eq_dec l x = count_occ Z.eq_dec l' x.
Proof.
  intros Hlen H. apply Nat.le_antisymm.
  - apply count_occ_pointwise_le; [assumption|]. intros p Hp. now apply H.
  - apply count_occ_pointwise_le; [now symmetry|].
    intros p Hp. rewrite <- Hlen in Hp. now apply H.
Qed.

Lemma count_occ_pointwise_lt (x : Z) (l l' : list Z) (p : nat) :
  List.length l = List.length l' ->
  (forall q, q < List.length l -> nth q l 0%Z = x -> nth q l' 0%Z = x) ->
  p < List.length l -> nth p l 0%Z <> x -> nth p l' 0%Z = x ->
  count_occ Z.eq_dec l x < count_occ Z.eq_dec l' x.
Proof.
  revert l' p; induction l as [|a l IH]; intros [|a' l'] p Hlen H Hp Hn He;
    try (simpl in Hlen; discriminate); [simpl in Hp; lia|].
  assert (Hlen' : List.length l = List.length l') by (simpl in Hlen; lia).
  assert (Htl : forall q, q < List.length l ->
                  nth q l 0%Z = x -> nth q l' 0%Z = x)
    by (intros q Hq; apply (H (S q)); simpl; lia).
  destruct p as [|p]; simpl in Hn, He; simpl.
  - pose proof (count_occ_pointwise_le x l l' Hlen' Htl).
    destruct (Z.eq_dec a x); [contradiction|].
    destruct (Z.eq_dec a' x); [lia | contradiction].
  - assert (count_occ Z.eq_dec l x < count_occ Z.eq_dec l' x)
      by (apply (IH l' p); try assumption; simpl in Hp; lia).
    destruct (Z.eq_dec a x) as [E|E].
    + assert (a' = x) by (apply (H 0); [simpl; lia | exact E]).
      destruct (Z.eq_dec a' x); [lia | contradiction].
    + destruct (Z.eq_dec a' x); lia.
Qed.

(* ================================================================== *)
(** * A stream of one word, one timestamp per cycle *)
(* ================================================================== *)

Lemma setitem_no_columns (i a b : nat) (src : list F64.float) :
  i < 256 -> List.length src <= 1 ->
  setitem_row_slice F64.zero no_columns i a b src = Return no_columns.
Proof.
  intros Hi Hsrc. unfold setitem_row_slice, nrows, no_columns. cbn [shape nth].
  destruct (Nat.ltb_spec i 256) as [_|]; [|lia].
  unfold row, ncols, assign_slice, set_row. cbn [shape data nth firstn List.length].
  rewrite !Nat.min_0_r. cbn [Nat.sub firstn].
  rewrite !skipn_nil, !firstn_nil.
  destruct src as [|x [|y src]]; cbn [List.length Nat.eqb repeat app hd];
    [reflexivity | reflexivity | simpl in Hsrc; lia].
Qed.

Lemma pixel_loop_no_columns (timestamp_list : list num) (k : nat) :
  List.length timestamp_list <= 1 ->
  pixel_loop timestamp_list 1 k no_columns = Return (256, no_columns).
Proof.
  intros Hlen. unfold pixel_loop.
  destruct (while_measure
              (fun s : nat * ndarray F64.float => fst s <? 256)
              (fun s =>
                 data_matrix' <-
                   setitem_row_slice F64.zero (snd s) (fst s) (k * 1) (k * 1 + 1)
                     (map to_float64
                        (slice timestamp_list ((fst s + 256 * k) * 1)
                               ((fst s + 256 * k) * 1 + 1))) ;;
                 Return (fst s + 1, data_matrix'))
              (fun s => fst s <= 256 /\ snd s = no_columns)
              (fun s => 256 - fst s))
    with (fuel := 256) (s := (0, no_columns)) as ([i m'] & E & (Hle & Hm) & Hc).
  - intros [i m0] [Hle Hm] Hc. cbn [fst snd] in *. subst m0.
    apply Nat.ltb_lt in Hc.
    rewrite setitem_no_columns; [|assumption|].
    + cbn [bind]. exists (i + 1, no_columns). cbn [fst snd].
      split; [reflexivity|]. split; [split; [lia | reflexivity] | lia].
    + rewrite length_map, length_slice. lia.
  - cbn [fst snd]. split; [lia | reflexivity].
  - cbn [fst]. lia.
  - cbn [fst snd] in *. subst m'. apply Nat.ltb_ge in Hc.
    assert (i = 256) by lia. subst i. exact E.
Qed.

Lemma cycle_loop_one_word (timestamp : num) (fuel : nat) :
  cycle_loop fuel [timestamp] 1
    (len_Q [timestamp] / inject_Z (Z.of_nat 1) / 256) no_columns = OutOfFuel.
Proof.
  unfold cycle_loop.
  apply (while_forever _ _ (fun s => snd s = no_columns)); [| |reflexivity].
  - intros s _. unfold len_Q. rewrite noc_never; [reflexivity | lia |].
    cbn. discriminate.
  - intros [k m] Hm. cbn [fst snd] in *. subst m.
    rewrite pixel_loop_no_columns by (cbn; lia).
    cbn [bind snd]. eexists; split; reflexivity.
Qed.

(** Rational [noc] given as an integer: the test is the comparison of the
    counters. *)
Lemma Qeq_bool_inject_nat (k K : nat) :
  Qeq_bool (inject_Z (Z.of_nat k)) (inject_Z (Z.of_nat K)) = (k =? K).
Proof.
  unfold Qeq_bool, inject_Z; cbn [Qnum Qden]. rewrite !Z.mul_1_r.
  destruct (Nat.eqb_spec k K) as [->|NE].
  - apply Z.eqb_refl.
  - apply Z.eqb_neq. lia.
Qed.

(** The four bytes of word [j] of a stream. *)
Lemma nth_words_of (f : list byte) (j : nat) :
  j < List.length (words_of f) ->
  nth j (words_of f) 0%Z =
  le32 (nth (4 * j) f x00) (nth (4 * j + 1) f x00)
       (nth (4 * j + 2) f x00) (nth (4 * j + 3) f x00).
Proof.
  revert j; induction f as [| | | |a b c e l IH] using list_ind4; intros j Hj;
    try (cbn in Hj; lia).
  cbn [words_of] in *. destruct j as [|j]; [reflexivity|].
  cbn [nth List.length] in *. rewrite IH by lia.
  replace (4 * S j) with (S (S (S (S (4 * j))))) by lia.
  cbn [Nat.add nth]. reflexivity.
Qed.

(** [reshape] and [transpose] return or raise ValueError. *)
Lemma reshape_ends {A : Type} (d : A) (a : ndarray A) (newshape : list Z)
      (o : order) :
  (exists b, reshape d a newshape o = Return b)
  \/ reshape d a newshape o = Raise ValueError.
Proof.
  unfold reshape. destruct (fix_unknown_dimension _ _); [left; eauto | now right].
Qed.

Lemma transpose_ends {A : Type} (d : A) (a : ndarray A) (axes : list nat) :
  (exists b, transpose d a axes = Return b)
  \/ transpose d a axes = Raise ValueError.
Proof.
  unfold transpose. destruct (valid_axes _ _); [left; eauto | now right].
Qed.

(** No path of [calib_reshape] runs a loop. *)
Lemma calib_reshape_ends (data1 : ndarray Z) (timestamps : nat) :
  (exists m, calib_reshape data1 timestamps = Return m)
  \/ (exists e, calib_reshape data1 timestamps = Raise e).
Proof.
  unfold calib_reshape, true_div.
  destruct (Qeq_bool _ 0); cbn [bind]; [right; eauto|].
  match goal with
  | |- context [bind (reshape ?d ?a ?n ?o) _] =>
      destruct (reshape_ends d a n o) as [(a1 & E1) | E1]; rewrite E1; cbn [bind]
  end; [|right; eauto].
  destruct (transpose_ends 0%Z a1 [1; 0; 2]) as [(a2 & E2) | E2];
    rewrite E2; cbn [bind]; [|right; eauto].
  match goal with
  | |- context [reshape ?d ?a ?n ?o] =>
      destruct (reshape_ends d a n o) as [(a3 & E3) | E3]; rewrite E3
  end; [left | right]; eauto.
Qed.

(* ================================================================== *)
(** * Binary64 rounding: nearest integers, binades, representable values *)
(* ================================================================== *)

Section Rounding.
Local Open Scope Q_scope.

Lemma pow2_pos (e : Z) : 0 < 2 ^ e.
Proof. apply Qpower_0_lt. reflexivity. Qed.

Lemma pow2_plus (a b : Z) : 2 ^ (a + b) == 2 ^ a * 2 ^ b.
Proof. apply Qpower_plus. discriminate. Qed.

Lemma pow2_succ (e : Z) : 2 ^ (e + 1) == 2 * 2 ^ e.
Proof. rewrite pow2_plus. change (2 ^ 1) with 2. ring. Qed.

Lemma pow2_le (a b : Z) : (a <= b)%Z -> 2 ^ a <= 2 ^ b.
Proof. intros H. apply Qpower_le_compat_l; [assumption | discriminate]. Qed.

Lemma pow2_lt_inv (a b : Z) : 2 ^ a < 2 ^ b -> (a < b)%Z.
Proof.
  intros H. apply (Qpower_lt_compat_l_inv 2); [assumption | reflexivity].
Qed.

Lemma pow2_Z (e : Z) : (0 <= e)%Z -> 2 ^ e == inject_Z (2 ^ e).
Proof. intros H. now rewrite Zpower_Qpower. Qed.

(** An integer lies within one half of the rational it is nearest to. *)
Lemma nearest_even_spec (y : Q) :
  inject_Z (Binary64.nearest_even y) - y <= 1 # 2
  /\ y - inject_Z (Binary64.nearest_even y) <= 1 # 2.
Proof.
  unfold Binary64.nearest_even.
  pose proof (Qfloor_le y) as Hlo. pose proof (Qlt_floor y) as Hhi.
  rewrite inject_Z_plus in Hhi. change (inject_Z 1) with 1 in Hhi.
  destruct (Qcompare_spec (y - inject_Z (Qfloor y)) (1 # 2)) as [E|L|G].
  - destruct (Z.even (Qfloor y)).
    + split; lra.
    + rewrite inject_Z_plus. change (inject_Z 1) with 1. split; lra.
  - split; lra.
  - rewrite inject_Z_plus. change (inject_Z 1) with 1. split; lra.
Qed.

Lemma inject_Z_within_half (a b : Z) :
  inject_Z a - inject_Z b <= 1 # 2 -> inject_Z b - inject_Z a <= 1 # 2 ->
  a = b.
Proof.
  intros H1 H2.
  assert (inject_Z a < inject_Z (b + 1)) as H3
    by (rewrite inject_Z_plus; change (inject_Z 1) with 1; lra).
  assert (inject_Z b < inject_Z (a + 1)) as H4
    by (rewrite inject_Z_plus; change (inject_Z 1) with 1; lra).
  rewrite <- Zlt_Qlt in H3, H4. lia.
Qed.

(** An integer is its own nearest integer. *)
Lemma nearest_even_exact (y : Q) (z : Z) :
  y == inject_Z z -> Binary64.nearest_even y = z.
Proof.
  intros E. destruct (nearest_even_spec y) as [H1 H2].
  apply inject_Z_within_half; lra.
Qed.

(** The binade of a positive rational. *)
Lemma binade_spec (x : Q) :
  0 < x -> 2 ^ Binary64.binade x <= x /\ x < 2 ^ (Binary64.binade x + 1).
Proof.
  intros Hx. destruct x as [a b].
  assert (Ha : (0 < a)%Z) by (unfold Qlt in Hx; simpl in Hx; lia).
  unfold Binary64.binade. cbn [Qnum Qden].
  set (la := Z.log2 a). set (lb := Z.log2 (Zpos b)).
  destruct (Z.log2_spec a Ha) as [A1 A2].
  destruct (Z.log2_spec (Zpos b) eq_refl) as [B1 B2].
  pose proof (Z.log2_nonneg a) as La. pose proof (Z.log2_nonneg (Zpos b)) as Lb.
  fold la in A1, A2, La. fold lb in B1, B2, Lb.
  assert (QA1 : 2 ^ la <= inject_Z a)
    by (rewrite pow2_Z by lia; now rewrite <- Zle_Qle).
  assert (QA2 : inject_Z a < 2 * 2 ^ la)
    by (rewrite <- pow2_succ, pow2_Z by lia; now rewrite <- Zlt_Qlt).
  assert (QB1 : 2 ^ lb <= inject_Z (Zpos b))
    by (rewrite pow2_Z by lia; now rewrite <- Zle_Qle).
  assert (QB2 : inject_Z (Zpos b) < 2 * 2 ^ lb)
    by (rewrite <- pow2_succ, pow2_Z by lia; now rewrite <- Zlt_Qlt).
  assert (X : (a # b) * inject_Z (Zpos b) == inject_Z a)
    by (unfold Qeq, Qmult, inject_Z; simpl; lia).
  assert (E0 : 2 ^ (la - lb) * 2 ^ lb == 2 ^ la)
    by (rewrite <- pow2_plus; now replace (la - lb + lb)%Z with la by lia).
  pose proof (pow2_pos lb) as Pb. pose proof (pow2_pos (la - lb)) as Pe.
  revert X E0 QA1 QA2 QB1 QB2 Pb Pe Hx.
  generalize (inject_Z a) (inject_Z (Zpos b)) (2 ^ la) (2 ^ lb).
  intros A B PA PB X E0 QA1 QA2 QB1 QB2 Pb Pe Hx.
  destruct (Qle_bool (2 ^ (la - lb)) (a # b)) eqn:L.
  - apply Qle_bool_iff in L. split; [exact L|]. rewrite pow2_succ.
    revert X E0 L Pe Hx. generalize (2 ^ (la - lb)) (a # b).
    intros P x X E0 L Pe Hx.
    nra.
  - assert (L' : a # b < 2 ^ (la - lb)).
    { apply Qnot_le_lt. intros H. apply Qle_bool_iff in H. congruence. }
    replace (la - lb - 1 + 1)%Z with (la - lb)%Z by lia.
    split; [|exact L'].
    assert (E1 : 2 * 2 ^ (la - lb - 1) == 2 ^ (la - lb))
      by (rewrite <- pow2_succ;
          now replace (la - lb - 1 + 1)%Z with (la - lb)%Z by lia).
    revert X E0 E1 L' Pe Hx.
    generalize (2 ^ (la - lb)) (2 ^ (la - lb - 1)) (a # b).
    intros P P' x X E0 E1 L' Pe Hx.
    nra.
Qed.

(** The binade is the only exponent that brackets the value. *)
Lemma binade_lt (x : Q) (j : Z) :
  0 < x -> x < 2 ^ j -> (Binary64.binade x < j)%Z.
Proof.
  intros Hx H. destruct (binade_spec x Hx) as [L _].
  apply pow2_lt_inv. lra.
Qed.

Lemma binade_ge (x : Q) (j : Z) :
  0 < x -> 2 ^ j <= x -> (j <= Binary64.binade x)%Z.
Proof.
  intros Hx H. destruct (binade_spec x Hx) as [_ U].
  assert (j < Binary64.binade x + 1)%Z; [|lia].
  apply pow2_lt_inv. lra.
Qed.

Lemma Qabs_of_pos (x : Q) : 0 < x -> Qabs x = x.
Proof.
  destruct x as [a b]. intros Hx.
  assert (Ha : (0 < a)%Z) by (unfold Qlt in Hx; simpl in Hx; lia).
  unfold Qabs. now rewrite Z.abs_eq by lia.
Qed.

(** The rounding of a positive rational: the nearest multiple of its
    quantum. *)
Lemma round_pos (x : Q) :
  0 < x ->
  Binary64.round x =
  inject_Z (Binary64.nearest_even
              (x / 2 ^ (Z.max (Binary64.binade x) (-1022) - 52)))
  * 2 ^ (Z.max (Binary64.binade x) (-1022) - 52).
Proof.
  intros Hx. unfold Binary64.round.
  destruct (Qeq_bool x 0) eqn:E; [apply Qeq_bool_eq in E; lra|].
  rewrite (Qabs_of_pos x Hx).
  destruct (Qle_bool 0 x) eqn:L; [reflexivity|].
  assert (H : Qle_bool 0 x = true) by (apply Qle_bool_iff; lra). congruence.
Qed.

Lemma round_zero (x : Q) : x == 0 -> Binary64.round x = 0.
Proof.
  intros E. unfold Binary64.round. now rewrite (Qeq_eq_bool _ _ E).
Qed.

(** A binary64 number is rounded to itself: [x = M * 2^j] with [M] of at
    most 53 bits and [j] not below the subnormal quantum. *)
Lemma round_representable (x : Q) (M j : Z) :
  0 < x -> x == inject_Z M * 2 ^ j -> (M < 2 ^ 53)%Z -> (-1074 <= j)%Z ->
  Binary64.round x == x.
Proof.
  intros Hx E HM Hj. rewrite (round_pos x Hx).
  set (q := (Z.max (Binary64.binade x) (-1022) - 52)%Z).
  assert (Hq : (q <= j)%Z).
  { assert (Binary64.binade x < 53 + j)%Z; [|unfold q; lia].
    apply (binade_lt x _ Hx). rewrite E, pow2_plus.
    apply Qmult_lt_r; [apply pow2_pos|].
    change (2 ^ 53) with (inject_Z (2 ^ 53)). now rewrite <- Zlt_Qlt. }
  assert (Ey : x / 2 ^ q == inject_Z (M * 2 ^ (j - q))).
  { rewrite inject_Z_mult, <- pow2_Z by lia. rewrite E.
    replace j with ((j - q) + q)%Z at 1 by lia. rewrite pow2_plus.
    field. pose proof (pow2_pos q). lra. }
  rewrite (nearest_even_exact _ _ Ey).
  rewrite inject_Z_mult, <- pow2_Z by lia. rewrite E.
  replace j with ((j - q) + q)%Z at 2 by lia. rewrite pow2_plus. ring.
Qed.

(** The rounding of a positive rational of a normal binade [e]: a multiple
    [m * 2^(e-52)] with [m] up to [2^53], within half a quantum. *)
Lemma round_normal (x : Q) :
  0 < x -> (-1022 <= Binary64.binade x)%Z ->
  exists m : Z,
    Binary64.round x == inject_Z m * 2 ^ (Binary64.binade x - 52)
    /\ (0 <= m <= 2 ^ 53)%Z
    /\ Binary64.round x - x <= 2 ^ (Binary64.binade x - 53)
    /\ x - Binary64.round x <= 2 ^ (Binary64.binade x - 53).
Proof.
  intros Hx He. rewrite (round_pos x Hx).
  rewrite Z.max_l by assumption.
  set (e := Binary64.binade x) in *.
  destruct (binade_spec x Hx) as [L U]. fold e in L, U.
  set (y := x / 2 ^ (e - 52)).
  destruct (nearest_even_spec y) as [N1 N2].
  set (m := Binary64.nearest_even y) in *.
  pose proof (pow2_pos (e - 52)) as Pq.
  assert (Ex : x == y * 2 ^ (e - 52)) by (unfold y; field; lra).
  assert (Eh : 2 ^ (e - 53) * 2 == 2 ^ (e - 52))
    by (rewrite Qmult_comm, <- pow2_succ;
        now replace (e - 53 + 1)%Z with (e - 52)%Z by lia).
  assert (Eu : 2 ^ (e + 1) == inject_Z (2 ^ 53) * 2 ^ (e - 52))
    by (rewrite <- (pow2_Z 53) by lia; rewrite <- pow2_plus;
        now replace (53 + (e - 52))%Z with (e + 1)%Z by lia).
  assert (Hy : 0 < y /\ y < inject_Z (2 ^ 53)).
  { split.
    - unfold y. apply Qlt_shift_div_l; [assumption | lra].
    - apply (Qmult_lt_r _ _ (2 ^ (e - 52))); [assumption|]. lra. }
  exists m. split; [reflexivity|]. split.
  - assert (inject_Z (-1) < inject_Z m /\ inject_Z m < inject_Z (2 ^ 53 + 1)).
    { rewrite inject_Z_plus. change (inject_Z (-1)) with (-1).
      change (inject_Z 1) with 1. split; lra. }
    rewrite <- !Zlt_Qlt in H. lia.
  - revert Ex Eh N1 N2 Pq.
    generalize (2 ^ (e - 52)) (2 ^ (e - 53)) (inject_Z m).
    intros u h mm Ex Eh N1 N2 Pq. split; nra.
Qed.

End Rounding.

(* ================================================================== *)
(** * The cycle count of line 76 in binary64 *)
(* ================================================================== *)

Section CycleCount.
Local Open Scope Q_scope.
Variables n T : nat.
Hypothesis T_pos : (0 < T)%nat.
Hypothesis T_bound : (Z.of_nat T < 2 ^ 53)%Z.
Hypothesis n_bound : (Z.of_nat n < 2 ^ 53)%Z.

Let x : Q := inject_Z (Z.of_nat n) / inject_Z (Z.of_nat T).

Lemma quotient_times_divisor :
  x * inject_Z (Z.of_nat T) == inject_Z (Z.of_nat n).
Proof.
  unfold x. field. change 0 with (inject_Z 0).
  rewrite inject_Z_injective. lia.
Qed.

Lemma divisor_range :
  1 <= inject_Z (Z.of_nat T) /\ inject_Z (Z.of_nat T) < inject_Z (2 ^ 53).
Proof.
  change 1 with (inject_Z 1). rewrite <- Zle_Qle, <- Zlt_Qlt. lia.
Qed.

Lemma count_range :
  (0 < n)%nat ->
  1 <= inject_Z (Z.of_nat n) /\ inject_Z (Z.of_nat n) < inject_Z (2 ^ 53).
Proof.
  intros Hn. change 1 with (inject_Z 1). rewrite <- Zle_Qle, <- Zlt_Qlt. lia.
Qed.

Lemma half_quantum (e : Z) : 2 ^ (e - 53) * inject_Z (2 ^ 53) == 2 ^ e.
Proof.
  rewrite <- (pow2_Z 53) by lia. rewrite <- pow2_plus.
  now replace (e - 53 + 53)%Z with e by lia.
Qed.

Lemma quotient_pos : (0 < n)%nat -> 0 < x.
Proof.
  intros Hn. destruct (count_range Hn) as [N1 _].
  destruct divisor_range as [T1 _].
  unfold x. apply Qlt_shift_div_l; lra.
Qed.

Lemma quotient_binade : (0 < n)%nat -> (-53 <= Binary64.binade x)%Z.
Proof.
  intros Hn. apply binade_ge; [now apply quotient_pos|].
  destruct (count_range Hn) as [N1 _]. destruct divisor_range as [T1 T2].
  pose proof (half_quantum 0) as E. change (2 ^ 0) with 1 in E.
  change (0 - 53)%Z with (-53)%Z in E.
  pose proof (pow2_pos (-53)) as P.
  pose proof quotient_times_divisor as X.
  revert E P X N1 T1 T2.
  generalize (2 ^ (-53)) (inject_Z (2 ^ 53)) (inject_Z (Z.of_nat T))
             (inject_Z (Z.of_nat n)) x.
  intros c B t N y E P X N1 T1 T2. nra.
Qed.

(** Dividing the rounded quotient by 256 is exact. *)
Lemma noc_binary64_scaled :
  (0 < n)%nat -> noc_binary64 n T == Binary64.round x / 256.
Proof.
  intros Hn. unfold noc_binary64. fold x.
  pose proof (quotient_pos Hn) as Hx.
  pose proof (quotient_binade Hn) as He.
  destruct (round_normal x Hx ltac:(lia)) as (m & ER & Hm & E1 & E2).
  set (R := Binary64.round x) in *. set (e := Binary64.binade x) in *.
  destruct (binade_spec x Hx) as [L _]. fold e in L.
  assert (HR : 0 < R).
  { pose proof (half_quantum e) as E. pose proof (pow2_pos (e - 53)) as P.
    revert E P L E2. generalize (2 ^ (e - 53)) (2 ^ e).
    change (inject_Z (2 ^ 53)) with 9007199254740992.
    intros h pe E P L E2. lra. }
  assert (H1 : 0 < R / 256) by (apply Qlt_shift_div_l; lra).
  destruct (Z.eq_dec m (2 ^ 53)) as [Em|Nm].
  - apply (round_representable _ (2 ^ 52) (e - 59)); try lia; try assumption.
    rewrite ER, Em.
    replace (e - 52)%Z with (7 + (e - 59))%Z by lia. rewrite pow2_plus.
    change (inject_Z (2 ^ 53)) with 9007199254740992.
    change (inject_Z (2 ^ 52)) with 4503599627370496.
    change (2 ^ 7) with 128. field.
  - apply (round_representable _ m (e - 60)); try lia; try assumption.
    rewrite ER.
    replace (e - 52)%Z with (8 + (e - 60))%Z by lia. rewrite pow2_plus.
    change (2 ^ 8) with 256. field.
Qed.

(** Within these bounds the exit test [k == noc] of line 81 succeeds on the
    binary64 [noc] exactly when [k] cycles make up the word count. *)
Lemma noc_binary64_test (k : nat) :
  Qeq_bool (inject_Z (Z.of_nat k)) (noc_binary64 n T)
  = (k * (T * 256) =? n)%nat.
Proof.
  destruct (Nat.eq_dec n 0) as [En|Hn].
  - assert (E0 : noc_binary64 n T = 0).
    { unfold noc_binary64.
      assert (Ei : Binary64.round
                     (inject_Z (Z.of_nat n) / inject_Z (Z.of_nat T)) = 0)
        by (apply round_zero; subst n; unfold Qdiv; now rewrite Qmult_0_l).
      rewrite Ei. apply round_zero. reflexivity. }
    rewrite E0. subst n.
    destruct (Nat.eqb_spec (k * (T * 256)) 0) as [E|E].
    + assert (k = 0)%nat by nia. subst k. reflexivity.
    + destruct k as [|k]; [simpl in E; congruence | reflexivity].
  - assert (Hn' : (0 < n)%nat) by lia.
    pose proof (quotient_pos Hn') as Hx.
    pose proof (quotient_binade Hn') as He.
    pose proof quotient_times_divisor as X.
    destruct (count_range Hn') as [N1 N2]. destruct divisor_range as [T1 T2].
    destruct (Nat.eqb_spec (k * (T * 256)) n) as [E|E].
    + apply Qeq_eq_bool. rewrite (noc_binary64_scaled Hn').
      assert (Ex : x == inject_Z (Z.of_nat (256 * k))).
      { unfold x. rewrite <- E.
        replace (Z.of_nat (k * (T * 256)))
          with (Z.of_nat (256 * k) * Z.of_nat T)%Z by lia.
        rewrite inject_Z_mult. field. lra. }
      rewrite (round_representable x (Z.of_nat (256 * k)) 0);
        [| assumption | rewrite Ex; change (2 ^ 0) with 1; ring | nia | lia].
      rewrite Ex. replace (Z.of_nat (256 * k)) with (256 * Z.of_nat k)%Z by lia.
      rewrite inject_Z_mult. change (inject_Z 256) with 256. field.
    + destruct (Qeq_bool _ _) eqn:Q; [|reflexivity]. exfalso. apply E.
      apply Qeq_bool_eq in Q. rewrite (noc_binary64_scaled Hn') in Q.
      destruct (round_normal x Hx ltac:(lia)) as (m & _ & _ & E1 & E2).
      set (R := Binary64.round x) in *. set (e := Binary64.binade x) in *.
      destruct (binade_spec x Hx) as [L _]. fold e in L.
      pose proof (half_quantum e) as Eh. pose proof (pow2_pos (e - 53)) as P.
      assert (D : inject_Z (-1) < inject_Z (256 * Z.of_nat k * Z.of_nat T
                                            - Z.of_nat n)
                  /\ inject_Z (256 * Z.of_nat k * Z.of_nat T - Z.of_nat n)
                     < inject_Z 1).
      { unfold Zminus. rewrite inject_Z_plus, inject_Z_opp, !inject_Z_mult.
        change (inject_Z 256) with 256. change (inject_Z (-1)) with (-1).
        change (inject_Z 1) with 1.
        assert (ER : R == 256 * inject_Z (Z.of_nat k))
          by (rewrite Q; field).
        revert X N1 N2 T1 T2 L Eh P E1 E2 ER Hx.
        change (inject_Z (2 ^ 53)) with 9007199254740992.
        generalize (2 ^ (e - 53)) (2 ^ e) (inject_Z (Z.of_nat T))
                   (inject_Z (Z.of_nat n)) (inject_Z (Z.of_nat k)) R x.
        intros h pe t N kk r y X N1 N2 T1 T2 L Eh P E1 E2 ER Hy.
        split; nra. }
      rewrite <- !Zlt_Qlt in D. lia.
Qed.

End CycleCount.

(** On sample operands the rounding above gives the value the hardware
    division gives: [noc] computed with two binary64 divisions. *)
Lemma noc_binary64_on_samples :
  forallb
    (fun p =>
       match binary64_value
               (PrimFloat.div
                  (PrimFloat.div (F64.of_int (Z.of_nat (fst p)))
                                 (F64.of_int (Z.of_nat (snd p))))
                  (F64.of_int 256)) with
       | Some q => Qeq_bool q (noc_binary64 (fst p) (snd p))
       | None => false
       end)
    [(0, 1); (1, 1); (1, 3); (256, 1); (257, 1); (512, 2); (513, 2); (770, 3);
     (1000, 7); (5, 512); (4096, 512); (4097, 512); (4999, 10)]
  = true.
Proof. vm_compute. reflexivity. Qed.

(* ================================================================== *)
(** * The cycle loop on the binary64 cycle count *)
(* ================================================================== *)



(* ================================================================== *)
(** * Properties of the pipeline *)
(* ================================================================== *)

(** C2.  For a flat decoded sequence of [256 * T * C] values, each reshaper
    ([unpack_binary_flex] lines 74-92, [unpack_calib] lines 139-145 and
    [unpack_numpy] lines 99-107) returns a [256 x (T*C)] matrix in which, for
    every cycle [k] and pixel [i], the [T] consecutive flat values from
    offset [(i + 256*k)*T] on stand in row [i], columns [k*T .. k*T + T - 1]. *)
Theorem reshape_places_cycle_blocks (T C : nat) :
  0 < T ->
  (forall (timestamp_list : list num) (fuel : nat),
      List.length timestamp_list = 256 * T * C -> C <= fuel ->
      exists m, flex_reshape fuel timestamp_list T = Return m
        /\ shape m = [256; T * C]
        /\ forall i k t, i < 256 -> k < C -> t < T ->
             get F64.zero m [i; k * T + t] =
             to_float64 (nth ((i + 256 * k) * T + t) timestamp_list (PyInt 0)))
  /\ (forall flat : list Z,
      List.length flat = 256 * T * C ->
      exists m, calib_reshape (array1 flat) T = Return m
        /\ shape m = [256; T * C]
        /\ forall i k t, i < 256 -> k < C -> t < T ->
             get 0%Z m [i; k * T + t] = nth ((i + 256 * k) * T + t) flat 0%Z)
  /\ (forall flat : list F64.float,
      List.length flat = 256 * T * C ->
      exists m, numpy_reshape (array1 flat) T = Return m
        /\ shape m = [256; T * C]
        /\ forall i k t, i < 256 -> k < C -> t < T ->
             get F64.zero m [i; k * T + t] =
             nth ((i + 256 * k) * T + t) flat F64.zero).
Proof.
  intros HT. split; [|split].
  - intros ts fuel Hlen Hfuel.
    destruct (flex_reshape_spec ts T C fuel HT Hlen Hfuel) as (m & E & Hf).
    exists m. split; [exact E|]. split; [apply Hf|].
    intros i k t Hi Hk Ht.
    rewrite (filled_get ts T C (T * C) m C i k t Hf Hi Hk Ht).
    destruct (Nat.ltb_spec k C); [reflexivity | lia].
  - intros flat Hlen.
    destruct (calib_reshape_spec flat T C HT Hlen) as (m & E & Hs & _ & Hg).
    exists m. auto.
  - intros flat Hlen.
    destruct (numpy_reshape_spec flat T C HT Hlen) as (m & E & Hs & _ & Hg).
    exists m. auto.
Qed.

Lemma reshape_places_cycle_blocks_witness :
  0 < 2
  /\ (exists m, flex_reshape 1 (repeat (PyInt (-1)) 512) 2 = Return m
        /\ shape m = [256; 2 * 1]
        /\ forall i k t, i < 256 -> k < 1 -> t < 2 ->
             get F64.zero m [i; k * 2 + t] =
             to_float64 (nth ((i + 256 * k) * 2 + t) (repeat (PyInt (-1)) 512)
                             (PyInt 0))).
Proof.
  split; [lia|].
  apply (proj1 (reshape_places_cycle_blocks 2 1 ltac:(lia))
           (repeat (PyInt (-1)) 512) 1); [reflexivity | lia].
Defined.

(** C3.  On a stream of [n] whole words both decoders emit exactly one
    value per 32-bit little-endian word, in input order: [-1] when bit 31
    of the word is 0, whatever its other bits, and
    [(word & 0x0FFFFFFF) * 17.857] when it is 1.  ([unpack_binary_flex]
    keeps the Python int [-1] in its list; [unpack_numpy] holds float64
    values throughout.) *)
Theorem decoders_emit_one_value_per_word (f : list byte) (n : nat) :
  List.length f = 4 * n ->
  List.length (words_of f) = n
  /\ (forall j, j < n ->
        nth j (words_of f) 0%Z =
        le32 (nth (4 * j) f x00) (nth (4 * j + 1) f x00)
             (nth (4 * j + 2) f x00) (nth (4 * j + 3) f x00))
  /\ (exists address_list,
        read_packets f [] [] =
        Return (map (fun word =>
                       if Z.testbit word 31
                       then PyFloat (F64.mul (F64.of_int (Z.land word 0x0FFFFFFF))
                                             F64.bin_ps)
                       else PyInt (-1))
                    (words_of f),
                address_list))
  /\ numpy_decode f =
     array1 (map (fun word =>
                    if Z.testbit word 31
                    then F64.mul (F64.of_int (Z.land word 0x0FFFFFFF)) F64.bin_ps
                    else F64.of_int (-1))
                 (words_of f)).
Proof.
  intros Hlen.
  assert (Hn : List.length (words_of f) = n).
  { rewrite length_words_of, Hlen.
    replace (4 * n) with (n * 4) by ring. apply Nat.div_mul. lia. }
  split; [exact Hn|]. split; [|split].
  - intros j Hj. apply nth_words_of. lia.
  - rewrite read_packets_whole
      by (rewrite Hlen; replace (4 * n) with (n * 4) by ring;
          apply Nat.Div0.mod_mul).
    eexists. cbn [app]. f_equal. f_equal.
    apply map_ext_in. intros w Hw.
    pose proof (proj1 (Forall_forall _ _) (words_of_range f) w Hw) as Hr.
    cbv beta in Hr. unfold packet_timestamp.
    rewrite validity_shift by assumption. reflexivity.
  - rewrite numpy_decode_map. f_equal.
    apply map_ext_in. intros w Hw.
    pose proof (proj1 (Forall_forall _ _) (words_of_range f) w Hw) as Hr.
    cbv beta in Hr. unfold packet_timestamp.
    rewrite validity_shift by assumption.
    destruct (Z.testbit w 31); reflexivity.
Qed.

Lemma decoders_emit_one_value_per_word_witness :
  List.length stream_512 = 4 * 512
  /\ List.length (words_of stream_512) = 512
  /\ numpy_decode stream_512 =
     array1 (map (fun word =>
                    if Z.testbit word 31
                    then F64.mul (F64.of_int (Z.land word 0x0FFFFFFF)) F64.bin_ps
                    else F64.of_int (-1))
                 (words_of stream_512)).
Proof.
  assert (H : List.length stream_512 = 4 * 512) by reflexivity.
  split; [exact H|].
  split; [exact (proj1 (decoders_emit_one_value_per_word stream_512 512 H))|].
  exact (proj2 (proj2 (proj2 (decoders_emit_one_value_per_word stream_512 512 H)))).
Defined.

(** C4.  For every stream of whole words whose word count is [256 * T * C],
    the reshape by explicit index arithmetic ([unpack_binary_flex], given
    fuel for its [C] cycles) and the reshape by transposition
    ([unpack_numpy]) return the same matrix: same shape, same float64 in
    every cell. *)
Theorem unpack_binary_flex_agrees_with_unpack_numpy
        (f : list byte) (T C fuel : nat) :
  0 < T -> List.length f = 4 * (256 * T * C) -> C <= fuel ->
  exists data_matrix,
    unpack_binary_flex fuel f T = Return data_matrix
    /\ unpack_numpy f T = Return data_matrix.
Proof.
  intros HT Hlen Hfuel.
  assert (Hw : List.length (words_of f) = 256 * T * C).
  { rewrite length_words_of, Hlen.
    replace (4 * (256 * T * C)) with (256 * T * C * 4) by ring.
    apply Nat.div_mul. lia. }
  unfold unpack_binary_flex, unpack_numpy.
  rewrite read_packets_whole
    by (rewrite Hlen; replace (4 * (256 * T * C)) with (256 * T * C * 4) by ring;
        apply Nat.Div0.mod_mul).
  cbn [bind fst app].
  set (ts := map packet_timestamp (words_of f)).
  assert (Hts : List.length ts = 256 * T * C) by (unfold ts; now rewrite length_map).
  destruct (flex_reshape_spec ts T C fuel HT Hts Hfuel) as (m1 & E1 & F1).
  rewrite numpy_decode_map.
  replace (map (fun w => to_float64 (packet_timestamp w)) (words_of f))
    with (map to_float64 ts) by (unfold ts; now rewrite map_map).
  destruct (numpy_reshape_spec (map to_float64 ts) T C HT
              ltac:(now rewrite length_map)) as (m2 & E2 & S2 & L2 & G2).
  exists m1. split; [exact E1|]. rewrite E2. f_equal.
  apply (filled_unique ts T C); [|exact F1].
  split; [exact S2|]. split; [exact L2|].
  intros i k t Hi Hk Ht.
  pose proof (G2 i k t Hi Hk Ht) as G. unfold get in G. rewrite S2 in G.
  cbn [ravel_C] in G. rewrite !size_cons, size_nil in G.
  replace (i * (T * C * 1) + ((k * T + t) * 1 + 0))
    with (i * (T * C) + k * T + t) in G by ring.
  rewrite G. destruct (Nat.ltb_spec k C); [|lia]. cbn [orb].
  unfold source_cell.
  change F64.zero with (to_float64 (PyInt 0)). apply map_nth.
Qed.

Lemma unpack_binary_flex_agrees_with_unpack_numpy_witness :
  0 < 2 /\ List.length stream_512 = 4 * (256 * 2 * 1) /\ 1 <= 1
  /\ exists data_matrix,
       unpack_binary_flex 1 stream_512 2 = Return data_matrix
       /\ unpack_numpy stream_512 2 = Return data_matrix.
Proof.
  split; [lia|]. split; [reflexivity|]. split; [lia|].
  apply (unpack_binary_flex_agrees_with_unpack_numpy stream_512 2 1 1);
    [lia | reflexivity | lia].
Defined.




(* ================================================================== *)
(** * [unpack_calib] end to end *)
(* ================================================================== *)

Lemma get_row_major {A : Type} (d : A) (m : ndarray A) (R0 R i j : nat) :
  shape m = [R0; R] -> get d m [i; j] = nth (i * R + j) (data m) d.
Proof.
  intros Hs. unfold get. rewrite Hs. cbn [ravel_C].
  rewrite !size_cons, size_nil. f_equal. ring.
Qed.

Lemma get_full {A : Type} (d v : A) (R0 R i j : nat) :
  i < R0 -> j < R -> get d (full [R0; R] v) [i; j] = v.
Proof.
  intros Hi Hj. rewrite (get_row_major d _ R0 R) by reflexivity.
  unfold full; cbn [data]. apply nth_repeat_lt.
  rewrite !size_cons, size_nil. nia.
Qed.

Lemma unpack_calib_loaded
      (calibrate_load : string -> string -> load_result)
      (realpath_file board_number : string) (cal_mat : ndarray F64.float)
      (f : list byte) (T C : nat) :
  0 < T -> List.length f = 4 * (256 * T * C) ->
  calibrate_load (realpath_file ++ "/../.." ++ "/calibration_data")%string
                 board_number = Loaded cal_mat ->
  shape cal_mat = [256; 140] ->
  exists reshaped result,
    calib_reshape (calib_decode f) T = Return reshaped
    /\ shape reshaped = [256; T * C]
    /\ List.length (data reshaped) = 256 * (T * C)
    /\ unpack_calib calibrate_load realpath_file f board_number T
       = ([], Return result)
    /\ rows_done cal_mat reshaped (T * C) 256 result.
Proof.
  intros HT Hlen Hload Hcal.
  rewrite calib_decode_map.
  set (flat := map _ (words_of f)).
  assert (Hflat : List.length flat = 256 * T * C).
  { unfold flat. rewrite length_map, length_words_of, Hlen.
    replace (4 * (256 * T * C)) with (256 * T * C * 4) by ring.
    apply Nat.div_mul. lia. }
  destruct (calib_reshape_spec flat T C HT Hflat) as (dm & E & Hs & Hl & _).
  destruct (calibrate_rows_done cal_mat Hcal dm (T * C) Hs Hl) as (m' & E' & Hr).
  exists dm, m'. split; [exact E|]. split; [exact Hs|]. split; [exact Hl|].
  split; [|exact Hr].
  unfold unpack_calib. rewrite calib_decode_map. fold flat.
  rewrite E, Hload, E'. reflexivity.
Qed.

(** C1 (as the code has it).  For every entry [v >= 0] of the reshaped
    matrix at pixel row [i], [unpack_calib] computes
    [(v - v mod 140) * 17.857 + cal_mat[i][v mod 140]] in float64 and stores
    it back into the int64 matrix: the cell ends up holding that value cast
    to a 64-bit integer, its fraction dropped. *)
Theorem unpack_calib_stores_cast_correction
        (calibrate_load : string -> string -> load_result)
        (realpath_file board_number : string) (cal_mat : ndarray F64.float)
        (f : list byte) (T C : nat) :
  0 < T -> List.length f = 4 * (256 * T * C) ->
  calibrate_load (realpath_file ++ "/../.." ++ "/calibration_data")%string
                 board_number = Loaded cal_mat ->
  shape cal_mat = [256; 140] ->
  exists reshaped result,
    calib_reshape (calib_decode f) T = Return reshaped
    /\ unpack_calib calibrate_load realpath_file f board_number T
       = ([], Return result)
    /\ shape result = [256; T * C]
    /\ forall i j, i < 256 -> j < T * C ->
         (0 <= get 0%Z reshaped [i; j])%Z ->
         get 0%Z result [i; j] =
         F64.to_int64
           (F64.add
              (F64.mul (F64.of_int (get 0%Z reshaped [i; j]
                                    - get 0%Z reshaped [i; j] mod 140))
                       F64.bin_ps)
              (get F64.zero cal_mat
                   [i; Z.to_nat (get 0%Z reshaped [i; j] mod 140)])).
Proof.
  intros HT Hlen Hload Hcal.
  destruct (unpack_calib_loaded calibrate_load realpath_file board_number
              cal_mat f T C HT Hlen Hload Hcal)
    as (dm & m' & E & Hs & Hl & E' & Hr).
  exists dm, m'. split; [exact E|]. split; [exact E'|]. split; [apply Hr|].
  intros i j Hi Hj Hv.
  rewrite (rows_done_get cal_mat dm (T * C) Hs Hl m' i j Hr Hi Hj).
  unfold calibrated_cell, corrected.
  destruct (Z.leb_spec 0 (get 0%Z dm [i; j])); [reflexivity | lia].
Qed.

Lemma unpack_calib_stores_cast_correction_witness :
  0 < 1 /\ List.length stream_valid_141 = 4 * (256 * 1 * 1)
  /\ shape (constant_table F64.zero) = [256; 140]
  /\ exists reshaped result,
       calib_reshape (calib_decode stream_valid_141) 1 = Return reshaped
       /\ unpack_calib (load_constant F64.zero) EmptyString stream_valid_141
                       EmptyString 1 = ([], Return result)
       /\ shape result = [256; 1 * 1]
       /\ forall i j, i < 256 -> j < 1 * 1 ->
            (0 <= get 0%Z reshaped [i; j])%Z ->
            get 0%Z result [i; j] =
            F64.to_int64
              (F64.add
                 (F64.mul (F64.of_int (get 0%Z reshaped [i; j]
                                       - get 0%Z reshaped [i; j] mod 140))
                          F64.bin_ps)
                 (get F64.zero (constant_table F64.zero)
                      [i; Z.to_nat (get 0%Z reshaped [i; j] mod 140)])).
Proof.
  split; [lia|]. split; [reflexivity|]. split; [reflexivity|].
  apply (unpack_calib_stores_cast_correction (load_constant F64.zero)
           EmptyString EmptyString (constant_table F64.zero)
           stream_valid_141 1 1); [lia | reflexivity | reflexivity | reflexivity].
Defined.

(** C1, refuted as stated.  Pixel 0 holds the raw count 141 and the table
    is all zeros: the corrected value is [140 * 17.857 = 2499.98] ps, and
    the cell of the returned matrix holds the integer 2499, which is less
    than (and not equal to) the value the claim promises. *)
Lemma unpack_calib_drops_the_fraction :
  exists result,
    unpack_calib (load_constant F64.zero) EmptyString stream_valid_141
                 EmptyString 1 = ([], Return result)
    /\ get 0%Z result [0; 0] = 2499%Z
    /\ F64.to_int64 (corrected 141 (get F64.zero (constant_table F64.zero) [0; 1]))
       = 2499%Z
    /\ PrimFloat.ltb (F64.of_int (get 0%Z result [0; 0]))
                     (corrected 141 (get F64.zero (constant_table F64.zero) [0; 1]))
       = true
    /\ PrimFloat.eqb (F64.of_int (get 0%Z result [0; 0]))
                     (corrected 141 (get F64.zero (constant_table F64.zero) [0; 1]))
       = false.
Proof.
  eexists. split; [vm_compute; reflexivity|].
  repeat split; vm_compute; reflexivity.
Qed.

(** C5 (as the code has it).  The calibration leaves every cell equal to
    [-1] unchanged and replaces every cell [v >= 0] by the cast correction,
    so the number of [-1] cells never decreases; the correction is itself
    [-1] for some tables, and the number of [-1] cells is the same before
    and after exactly when no correction of a cell [v >= 0] comes out as
    [-1]. *)
Theorem calibrate_keeps_sentinels
        (cal_mat : ndarray F64.float) (data_matrix : ndarray Z) (R : nat) :
  shape cal_mat = [256; 140] ->
  shape data_matrix = [256; R] ->
  List.length (data data_matrix) = 256 * R ->
  exists result,
    calibrate cal_mat data_matrix = Return result
    /\ shape result = [256; R]
    /\ (forall i j, i < 256 -> j < R ->
          get 0%Z data_matrix [i; j] = (-1)%Z -> get 0%Z result [i; j] = (-1)%Z)
    /\ (forall i j, i < 256 -> j < R ->
          (0 <= get 0%Z data_matrix [i; j])%Z ->
          get 0%Z result [i; j] =
          F64.to_int64
            (corrected (get 0%Z data_matrix [i; j])
               (get F64.zero cal_mat
                    [i; Z.to_nat (get 0%Z data_matrix [i; j] mod 140)])))
    /\ count_sentinel data_matrix <= count_sentinel result
    /\ (count_sentinel result = count_sentinel data_matrix
        <->
        forall i j, i < 256 -> j < R ->
          (0 <= get 0%Z data_matrix [i; j])%Z ->
          F64.to_int64
            (corrected (get 0%Z data_matrix [i; j])
               (get F64.zero cal_mat
                    [i; Z.to_nat (get 0%Z data_matrix [i; j] mod 140)]))
          <> (-1)%Z).
Proof.
  intros Hcal Hs Hl.
  destruct (calibrate_rows_done cal_mat Hcal data_matrix R Hs Hl)
    as (m' & E & Hr).
  pose proof Hr as (Hs' & Hl' & _).
  exists m'. split; [exact E|]. split; [exact Hs'|].
  assert (Hcell : forall p, p < 256 * R ->
            nth p (data m') 0%Z =
            calibrated_cell cal_mat (p / R) (nth p (data data_matrix) 0%Z))
    by (intros p Hp; now apply (rows_done_nth cal_mat data_matrix R)).
  assert (Hle : count_sentinel data_matrix <= count_sentinel m').
  { unfold count_sentinel. apply count_occ_pointwise_le; [congruence|].
    intros p Hp Hv. rewrite Hl in Hp. rewrite (Hcell p Hp), Hv. reflexivity. }
  split; [|split; [|split; [exact Hle|split]]].
  - intros i j Hi Hj Hv.
    rewrite (rows_done_get cal_mat data_matrix R Hs Hl m' i j Hr Hi Hj), Hv.
    reflexivity.
  - intros i j Hi Hj Hv.
    rewrite (rows_done_get cal_mat data_matrix R Hs Hl m' i j Hr Hi Hj).
    unfold calibrated_cell.
    destruct (Z.leb_spec 0 (get 0%Z data_matrix [i; j])); [reflexivity | lia].
  - intros Heq i j Hi Hj Hv Hc.
    assert (Hp : i * R + j < 256 * R) by nia.
    assert (Hlt : count_sentinel data_matrix < count_sentinel m'); [|lia].
    unfold count_sentinel.
    apply (count_occ_pointwise_lt _ _ _ (i * R + j)); [congruence | | lia | |].
    + intros p Hp' Hv'. rewrite Hl in Hp'.
      rewrite (Hcell p Hp'), Hv'. reflexivity.
    + rewrite <- (get_row_major 0%Z data_matrix 256 R) by assumption. lia.
    + rewrite <- (get_row_major 0%Z m' 256 R) by assumption.
      rewrite (rows_done_get cal_mat data_matrix R Hs Hl m' i j Hr Hi Hj).
      unfold calibrated_cell.
      destruct (Z.leb_spec 0 (get 0%Z data_matrix [i; j]));
        [exact Hc | lia].
  - intros Hno. unfold count_sentinel. apply count_occ_pointwise_eq; [congruence|].
    intros p Hp. rewrite Hl' in Hp. rewrite (Hcell p Hp). split.
    + unfold calibrated_cell.
      destruct (Z.leb_spec 0 (nth p (data data_matrix) 0%Z)) as [Hv|Hv];
        [|tauto].
      intros Hc. exfalso.
      assert (HR : R <> 0) by lia.
      pose proof (Nat.div_mod_eq p R) as Ep.
      pose proof (Nat.mod_upper_bound p R HR) as B.
      assert (Hi : p / R < 256) by (apply Nat.Div0.div_lt_upper_bound; lia).
      apply (Hno (p / R) (p mod R) Hi B);
        rewrite (get_row_major 0%Z data_matrix 256 R) by assumption;
        replace (p / R * R + p mod R) with p by lia; assumption.
    + intros ->. reflexivity.
Qed.

Lemma forallb_below (P : nat -> bool) (n : nat) :
  forallb P (seq 0 n) = true -> forall i, i < n -> P i = true.
Proof.
  intros H i Hi. apply (proj1 (forallb_forall P (seq 0 n)) H).
  apply in_seq. lia.
Qed.

(** The theorem at a matrix with one valid cell and the all-zero table: the
    correction of the valid cell is 2499, so the count stays at 255. *)
Lemma calibrate_keeps_sentinels_witness :
  shape (constant_table F64.zero) = [256; 140]
  /\ shape matrix_valid_141 = [256; 1]
  /\ List.length (data matrix_valid_141) = 256 * 1
  /\ exists result,
       calibrate (constant_table F64.zero) matrix_valid_141 = Return result
       /\ shape result = [256; 1]
       /\ count_sentinel matrix_valid_141 <= count_sentinel result
       /\ count_sentinel result = count_sentinel matrix_valid_141.
Proof.
  split; [reflexivity|]. split; [reflexivity|]. split; [reflexivity|].
  destruct (calibrate_keeps_sentinels (constant_table F64.zero)
              matrix_valid_141 1 eq_refl eq_refl eq_refl)
    as (result & E & Hs & _ & _ & Hc & He).
  exists result. split; [exact E|]. split; [exact Hs|]. split; [exact Hc|].
  apply He. intros i j Hi Hj Hv.
  assert (j = 0) by lia. subst j.
  pose proof (forallb_below
                (fun i =>
                   negb (Z.leb 0 (get 0%Z matrix_valid_141 [i; 0]))
                   || negb (Z.eqb
                              (F64.to_int64
                                 (corrected (get 0%Z matrix_valid_141 [i; 0])
                                    (get F64.zero (constant_table F64.zero)
                                       [i; Z.to_nat
                                             (get 0%Z matrix_valid_141 [i; 0]
                                              mod 140)])))
                              (-1)))
                256 ltac:(vm_compute; reflexivity) i Hi) as Hb.
  cbv beta in Hb.
  apply orb_true_iff in Hb. destruct Hb as [Hb | Hb].
  - apply negb_true_iff, Z.leb_gt in Hb. lia.
  - apply negb_true_iff, Z.eqb_neq in Hb. exact Hb.
Defined.

(** C5, refuted as stated.  Pixel 0 holds the valid raw count 0 and the
    table holds the offset [-1.0] everywhere: the correction of that cell
    is [0 * 17.857 + (-1.0)], stored as [-1], so the matrix has 255 cells
    equal to [-1] before the correction and 256 after it. *)
Lemma calibration_can_add_a_sentinel :
  exists reshaped result,
    calib_reshape (calib_decode stream_valid_0) 1 = Return reshaped
    /\ unpack_calib (load_constant F64.minus_one) EmptyString stream_valid_0
                    EmptyString 1 = ([], Return result)
    /\ get 0%Z reshaped [0; 0] = 0%Z
    /\ get 0%Z result [0; 0] = (-1)%Z
    /\ count_sentinel reshaped = 255
    /\ count_sentinel result = 256.
Proof.
  do 2 eexists. split; [vm_compute; reflexivity|].
  split; [vm_compute; reflexivity|].
  repeat split; vm_compute; reflexivity.
Qed.

(** C8 (as the code has it).  When [calibrate_load] raises
    FileNotFoundError, [unpack_calib] returns no matrix, corrected or not:
    if the stream fits the geometry it prints the "No .csv file" message
    and calls [sys.exit()], which raises SystemExit and ends the process
    unless a caller intercepts it; otherwise the ValueError (or
    ZeroDivisionError) of the reshape has already been raised. *)
Theorem unpack_calib_exits_without_table
        (calibrate_load : string -> string -> load_result)
        (realpath_file board_number : string) (f : list byte) (timestamps : nat) :
  calibrate_load (realpath_file ++ "/../.." ++ "/calibration_data")%string
                 board_number = FileNotFoundError ->
  (exists e, snd (unpack_calib calibrate_load realpath_file f board_number
                               timestamps) = Raise e)
  /\ (forall data_matrix,
        calib_reshape (calib_decode f) timestamps = Return data_matrix ->
        unpack_calib calibrate_load realpath_file f board_number timestamps
        = ([no_csv_message], Raise SystemExit)).
Proof.
  intros Hload. unfold unpack_calib. split.
  - destruct (calib_reshape_ends (calib_decode f) timestamps)
      as [(m & E) | (e & E)]; rewrite E.
    + rewrite Hload. exists SystemExit. reflexivity.
    + exists e. reflexivity.
  - intros dm E. rewrite E, Hload. reflexivity.
Qed.

Lemma unpack_calib_exits_without_table_witness :
  load_nothing (EmptyString ++ "/../.." ++ "/calibration_data")%string EmptyString
  = FileNotFoundError
  /\ (exists e, snd (unpack_calib load_nothing EmptyString stream_valid_1
                                  EmptyString 1) = Raise e)
  /\ (forall data_matrix,
        calib_reshape (calib_decode stream_valid_1) 1 = Return data_matrix ->
        unpack_calib load_nothing EmptyString stream_valid_1 EmptyString 1
        = ([no_csv_message], Raise SystemExit)).
Proof.
  split; [reflexivity|].
  apply (unpack_calib_exits_without_table load_nothing EmptyString EmptyString
           stream_valid_1 1). reflexivity.
Defined.

(** C8, refuted as stated.  With no calibration file for the board,
    [unpack_calib] on a well-formed stream prints its message and ends in
    SystemExit: the process exit the claim rules out, and not an error
    value of its own handed to the caller. *)
Lemma missing_table_ends_the_process :
  unpack_calib load_nothing EmptyString stream_valid_1 EmptyString 1
  = ([no_csv_message], Raise SystemExit).
Proof. vm_compute. reflexivity. Qed.

(** C9 (as the code has it).  The matrix allocated by [unpack_binary_flex]
    is [np.zeros]: every cell starts at [0.0], and while the copy loop runs
    the cells of the cycles it has not reached yet still hold [0.0]. *)
Theorem flex_unwritten_cells_hold_zero
        (timestamp_list : list num) (T C K fuel : nat) :
  0 < T -> List.length timestamp_list = 256 * T * C -> K <= C -> K <= fuel ->
  (forall i j, i < 256 -> j < T * C ->
      get F64.zero (flex_alloc timestamp_list) [i; j] = F64.zero)
  /\ exists m,
      cycle_loop fuel timestamp_list T (inject_Z (Z.of_nat K))
                 (flex_alloc timestamp_list) = Return (K, m)
      /\ forall i k t, i < 256 -> K <= k -> k < C -> t < T ->
           get F64.zero m [i; k * T + t] = F64.zero.
Proof.
  intros HT Hlen HK Hfuel. split.
  - intros i j Hi Hj. unfold flex_alloc. rewrite int_of_len_256.
    destruct (exact_div (List.length timestamp_list) 256 (T * C)) as [-> _];
      [lia | rewrite Hlen; ring |].
    now apply get_full.
  - destruct (cycle_loop_upto timestamp_list T C (T * C) HT
                ltac:(rewrite Hlen; lia) (exact_row_length _ T C Hlen)
                (inject_Z (Z.of_nat K)) K fuel HK
                (fun k => Qeq_bool_inject_nat k K) Hfuel) as (m & E & Hf).
    exists m. split; [exact E|].
    intros i k t Hi HKk Hk Ht.
    rewrite (filled_get timestamp_list T C (T * C) m K i k t Hf Hi Hk Ht).
    destruct (Nat.ltb_spec k K); [lia | reflexivity].
Qed.

Lemma flex_unwritten_cells_hold_zero_witness :
  0 < 1 /\ List.length (repeat (PyInt (-1)) 512) = 256 * 1 * 2 /\ 1 <= 2 /\ 1 <= 1
  /\ (forall i j, i < 256 -> j < 1 * 2 ->
        get F64.zero (flex_alloc (repeat (PyInt (-1)) 512)) [i; j] = F64.zero)
  /\ exists m,
      cycle_loop 1 (repeat (PyInt (-1)) 512) 1 (inject_Z (Z.of_nat 1))
                 (flex_alloc (repeat (PyInt (-1)) 512)) = Return (1, m)
      /\ forall i k t, i < 256 -> 1 <= k -> k < 2 -> t < 1 ->
           get F64.zero m [i; k * 1 + t] = F64.zero.
Proof.
  split; [lia|]. split; [reflexivity|]. split; [lia|]. split; [lia|].
  apply (flex_unwritten_cells_hold_zero (repeat (PyInt (-1)) 512) 1 2 1 1);
    [lia | reflexivity | lia | lia].
Defined.

(** C9, refuted as stated.  A cell of the freshly allocated matrix holds
    [0.0], which is not the sentinel [-1.0]. *)
Lemma flex_alloc_starts_at_zero_not_sentinel :
  get F64.zero (flex_alloc (repeat (PyInt (-1)) 256)) [0; 0] = F64.zero
  /\ PrimFloat.eqb (get F64.zero (flex_alloc (repeat (PyInt (-1)) 256)) [0; 0])
                   F64.minus_one = false.
Proof. split; vm_compute; reflexivity. Qed.

(** C6 (code defect).  A stream of one word with one timestamp per cycle:
    the word count 1 is not a multiple of 256.  [unpack_numpy] and
    [unpack_calib] raise ValueError from their [reshape];
    [unpack_binary_flex] raises nothing and returns nothing: its loop
    [while k != noc] is still running after any number of iterations. *)
Theorem single_word_stream (b0 b1 b2 b3 : byte) :
  (forall fuel, unpack_binary_flex fuel [b0; b1; b2; b3] 1 = OutOfFuel)
  /\ unpack_numpy [b0; b1; b2; b3] 1 = Raise ValueError
  /\ (forall calibrate_load realpath_file board_number,
         unpack_calib calibrate_load realpath_file [b0; b1; b2; b3]
                      board_number 1 = ([], Raise ValueError)).
Proof.
  split; [|split].
  - intros fuel. unfold unpack_binary_flex.
    cbn [read_packets struct_unpack_I bind fst app].
    unfold flex_reshape. rewrite true_div_count. cbn [Nat.eqb bind].
    replace (flex_alloc [packet_timestamp (le32 b0 b1 b2 b3)]) with no_columns
      by (unfold flex_alloc; rewrite int_of_len_256; reflexivity).
    now rewrite cycle_loop_one_word.
  - unfold unpack_numpy. rewrite numpy_decode_map.
    apply numpy_reshape_rejects; [lia | cbn; discriminate].
  - intros loader rp board. unfold unpack_calib. rewrite calib_decode_map.
    rewrite calib_reshape_rejects; [reflexivity | lia | cbn; discriminate].
Qed.

(** C7 (code defect).  A stream of 256 whole words followed by one stray
    byte: [unpack_binary_flex] raises struct.error at the partial word,
    while [unpack_numpy] and [unpack_calib] return the matrix of the 256
    whole words, as if the stray byte were not there. *)
Theorem stray_byte_is_dropped :
  (forall fuel, unpack_binary_flex fuel stream_partial 1 = Raise StructError)
  /\ (exists m, unpack_numpy stream_valid_1 1 = Return m
                /\ unpack_numpy stream_partial 1 = Return m)
  /\ (exists m,
         unpack_calib (load_constant F64.zero) EmptyString stream_valid_1
                      EmptyString 1 = ([], Return m)
         /\ unpack_calib (load_constant F64.zero) EmptyString stream_partial
                         EmptyString 1 = ([], Return m)).
Proof.
  split; [|split].
  - intros fuel. unfold unpack_binary_flex.
    rewrite read_packets_partial; [reflexivity|].
    vm_compute. discriminate.
  - eexists. split; vm_compute; reflexivity.
  - eexists. split; vm_compute; reflexivity.
Qed.

(** Every stream that ends in a partial word is treated the same way:
    [np.fromfile] reads the whole words only, and the read loop of
    [unpack_binary_flex] raises. *)
Lemma words_of_ignores_partial_word (f tail : list byte) :
  List.length f mod 4 = 0 -> List.length tail < 4 ->
  words_of (f ++ tail) = words_of f.
Proof.
  induction f as [|a|a b|a b c|a b c e l IH] using list_ind4; intros Hm Ht;
    try (cbn in Hm; discriminate).
  - destruct tail as [|x [|y [|z [|w tail]]]]; try reflexivity.
    simpl in Ht. lia.
  - cbn [app words_of]. f_equal. apply IH; [|assumption].
    cbn [List.length] in Hm.
    change (S (S (S (S (List.length l))))) with (4 + List.length l) in Hm.
    replace (4 + List.length l) with (List.length l + 1 * 4) in Hm by lia.
    now rewrite Nat.Div0.mod_add in Hm.
Qed.

(* ================================================================== *)
(** * Further properties of the error paths and of the layout *)
(* ================================================================== *)

(** X1.  [unpack_binary_flex] raises struct.error on every stream whose
    length is not a multiple of 4, whatever [lines_of_data]: the read loop
    reaches the partial word before any reshape starts. *)
Theorem unpack_binary_flex_rejects_partial_word
        (f : list byte) (lines_of_data fuel : nat) :
  List.length f mod 4 <> 0 ->
  unpack_binary_flex fuel f lines_of_data = Raise StructError.
Proof.
  intros Hm. unfold unpack_binary_flex.
  now rewrite read_packets_partial.
Qed.

Lemma unpack_binary_flex_rejects_partial_word_witness :
  List.length stream_partial mod 4 <> 0
  /\ unpack_binary_flex 0 stream_partial 1 = Raise StructError.
Proof.
  assert (H : List.length stream_partial mod 4 <> 0)
    by (vm_compute; discriminate).
  split; [exact H|].
  exact (unpack_binary_flex_rejects_partial_word stream_partial 1 0 H).
Defined.

(** X2.  When the number of whole words is not a multiple of
    [256 * lines_of_data], [unpack_numpy] and [unpack_calib] raise
    ValueError from their first [reshape]; [unpack_calib] does so before it
    looks for the calibration table. *)
Theorem vectorised_unpackers_reject_bad_geometry (f : list byte) (T : nat) :
  0 < T -> List.length (words_of f) mod (256 * T) <> 0 ->
  unpack_numpy f T = Raise ValueError
  /\ forall calibrate_load realpath_file board_number,
       unpack_calib calibrate_load realpath_file f board_number T
       = ([], Raise ValueError).
Proof.
  intros HT Hm. split.
  - unfold unpack_numpy. rewrite numpy_decode_map.
    apply numpy_reshape_rejects; [assumption | now rewrite length_map].
  - intros loader rp board. unfold unpack_calib. rewrite calib_decode_map.
    rewrite calib_reshape_rejects;
      [reflexivity | assumption | now rewrite length_map].
Qed.

Lemma vectorised_unpackers_reject_bad_geometry_witness :
  0 < 2 /\ List.length (words_of stream_valid_1) mod (256 * 2) <> 0
  /\ unpack_numpy stream_valid_1 2 = Raise ValueError.
Proof.
  assert (H : List.length (words_of stream_valid_1) mod (256 * 2) <> 0)
    by (vm_compute; discriminate).
  split; [lia|]. split; [exact H|].
  exact (proj1 (vectorised_unpackers_reject_bad_geometry stream_valid_1 2
                  ltac:(lia) H)).
Defined.

(** X3.  On a stream of whole words whose count is not a multiple of
    [256 * lines_of_data], the count and [lines_of_data] being below
    [2^53], the binary64 [noc] of line 76 passes the exit test for no [k],
    and [unpack_binary_flex] returns no matrix, partial or not, however
    long it runs: it either raises or keeps looping.  (The bound matters:
    with [lines_of_data] near [2^1070] the quotient underflows to [0.0].) *)
Theorem unpack_binary_flex_returns_nothing_on_bad_geometry
        (f : list byte) (T : nat) :
  0 < T -> (Z.of_nat T < 2 ^ 53)%Z ->
  (Z.of_nat (List.length (words_of f)) < 2 ^ 53)%Z ->
  List.length f mod 4 = 0 ->
  List.length (words_of f) mod (256 * T) <> 0 ->
  (forall k : nat,
      Qeq_bool (inject_Z (Z.of_nat k))
               (noc_binary64 (List.length (words_of f)) T) = false)
  /\ forall fuel data_matrix,
       unpack_binary_flex fuel f T <> Return data_matrix.
Proof.
  intros HT HbT Hbn H4 Hm. split.
  - intros k. rewrite noc_binary64_test by assumption.
    apply Nat.eqb_neq. intros E. apply Hm. rewrite <- E.
    replace (k * (T * 256)) with (k * (256 * T)) by ring.
    apply Nat.Div0.mod_mul.
  - intros fuel m. unfold unpack_binary_flex.
    rewrite read_packets_whole by assumption. cbn [bind fst app].
    set (ts := map packet_timestamp (words_of f)).
    assert (Hts : List.length ts mod (256 * T) <> 0)
      by (unfold ts; now rewrite length_map).
    unfold flex_reshape. rewrite true_div_count.
    destruct (Nat.eqb_spec T 0) as [|_]; [lia|]. cbn [bind].
    destruct (cycle_loop fuel ts T _ _) as [s| |] eqn:E; cbn [bind];
      try discriminate.
    exfalso. revert E. now apply cycle_loop_no_return.
Qed.

Lemma unpack_binary_flex_returns_nothing_on_bad_geometry_witness :
  0 < 2 /\ (Z.of_nat 2 < 2 ^ 53)%Z
  /\ (Z.of_nat (List.length (words_of stream_valid_1)) < 2 ^ 53)%Z
  /\ List.length stream_valid_1 mod 4 = 0
  /\ List.length (words_of stream_valid_1) mod (256 * 2) <> 0
  /\ forall fuel data_matrix,
       unpack_binary_flex fuel stream_valid_1 2 <> Return data_matrix.
Proof.
  assert (H : List.length (words_of stream_valid_1) mod (256 * 2) <> 0)
    by (vm_compute; discriminate).
  assert (Hb : (Z.of_nat (List.length (words_of stream_valid_1)) < 2 ^ 53)%Z)
    by (vm_compute; reflexivity).
  split; [lia|]. split; [reflexivity|]. split; [exact Hb|].
  split; [reflexivity|]. split; [exact H|].
  exact (proj2 (unpack_binary_flex_returns_nothing_on_bad_geometry
                  stream_valid_1 2 ltac:(lia) eq_refl Hb eq_refl H)).
Defined.

(** X4.  Reading the matrix of [unpack_numpy] back by the inverse index
    map gives the decoded sequence: the value decoded from word [n] stands in
    row [(n / T) mod 256], column [(n / T / 256) * T + n mod T]. *)
Theorem unpack_numpy_round_trip (f : list byte) (T C : nat) :
  0 < T -> List.length f = 4 * (256 * T * C) ->
  exists data_matrix,
    unpack_numpy f T = Return data_matrix
    /\ forall n, n < 256 * T * C ->
         get F64.zero data_matrix
             [n / T mod 256; n / T / 256 * T + n mod T]
         = nth n (data (numpy_decode f)) F64.zero.
Proof.
  intros HT Hlen. unfold unpack_numpy.
  rewrite numpy_decode_map. cbn [data array1].
  set (l := map _ (words_of f)).
  assert (Hl : List.length l = 256 * T * C).
  { unfold l. rewrite length_map, length_words_of, Hlen.
    replace (4 * (256 * T * C)) with (256 * T * C * 4) by ring.
    apply Nat.div_mul. lia. }
  destruct (numpy_reshape_spec l T C HT Hl) as (m & E & _ & _ & G).
  exists m. split; [exact E|]. intros n Hn.
  pose proof (Nat.div_mod_eq n T) as E1.
  pose proof (Nat.mod_upper_bound n T ltac:(lia)) as B1.
  pose proof (Nat.div_mod_eq (n / T) 256) as E2.
  pose proof (Nat.mod_upper_bound (n / T) 256 ltac:(lia)) as B2.
  assert (Hk : n / T / 256 < C).
  { apply Nat.Div0.div_lt_upper_bound, Nat.Div0.div_lt_upper_bound.
    replace (T * (256 * C)) with (256 * T * C) by ring. assumption. }
  rewrite (G (n / T mod 256) (n / T / 256) (n mod T) B2 Hk B1).
  f_equal. nia.
Qed.

Lemma unpack_numpy_round_trip_witness :
  0 < 2 /\ List.length stream_512 = 4 * (256 * 2 * 1)
  /\ exists data_matrix,
       unpack_numpy stream_512 2 = Return data_matrix
       /\ forall n, n < 256 * 2 * 1 ->
            get F64.zero data_matrix
                [n / 2 mod 256; n / 2 / 256 * 2 + n mod 2]
            = nth n (data (numpy_decode stream_512)) F64.zero.
Proof.
  split; [lia|]. split; [reflexivity|].
  apply (unpack_numpy_round_trip stream_512 2 1); [lia | reflexivity].
Defined.

(* ================================================================== *)
(** * [unpack_binary_flex] on a word count that does not fit *)
(* ================================================================== *)

Lemma while_unfold {St : Type} (fuel : nat) (cond : St -> bool)
      (body : St -> outcome St) (s : St) :
  while (S fuel) cond body s =
  if cond s then bind (body s) (while fuel cond body) else Return s.
Proof. reflexivity. Qed.

(** A loop whose test always holds and whose body raises once a measure
    has come down to zero raises, given fuel to get there. *)
Lemma while_raises {St : Type} (cond : St -> bool) (body : St -> outcome St)
      (I : St -> Prop) (mu : St -> nat) (e : exn) :
  (forall s, I s -> cond s = true) ->
  (forall s, I s -> 0 < mu s ->
             exists s', body s = Return s' /\ I s' /\ mu s' < mu s) ->
  (forall s, I s -> mu s = 0 -> body s = Raise e) ->
  forall fuel s, I s -> mu s < fuel -> while fuel cond body s = Raise e.
Proof.
  intros Hc Hstep Hend fuel; induction fuel as [|fuel IH]; intros s HI Hmu;
    [lia|].
  rewrite while_unfold, (Hc s HI).
  destruct (Nat.eq_dec (mu s) 0) as [Hz|Hz].
  - now rewrite (Hend s HI Hz).
  - destruct (Hstep s HI ltac:(lia)) as (s' & E & HI' & Hlt).
    rewrite E. cbn [bind]. apply IH; [assumption | lia].
Qed.

Section RowAssignments.
Context {A : Type}.
Variable d : A.
Variable m : ndarray A.
Variables R0 R i : nat.
Hypothesis m_shape : shape m = [R0; R].
Hypothesis m_length : List.length (data m) = R0 * R.
Hypothesis i_row : i < R0.

Lemma set_row_same : set_row m i (row m i) = m.
Proof.
  assert (Hc : ncols m = R) by (unfold ncols; now rewrite m_shape).
  unfold set_row, row. rewrite Hc.
  replace (firstn (i * R) (data m) ++ firstn R (skipn (i * R) (data m))
           ++ skipn (i * R + R) (data m)) with (data m).
  - now destruct m.
  - rewrite app_assoc, firstn_extend. symmetry. apply firstn_skipn.
Qed.

(** Assigning at most one value to a slice that starts at or after the end
    of the row changes nothing and raises nothing. *)
Lemma setitem_empty_slice (a b : nat) (src : list A) :
  R <= a -> a <= b -> List.length src <= 1 ->
  setitem_row_slice d m i a b src = Return m.
Proof.
  intros Ha Hab Hsrc. unfold setitem_row_slice, nrows. rewrite m_shape.
  cbn [nth]. destruct (Nat.ltb_spec i R0) as [_|]; [|lia].
  assert (Hc : ncols m = R) by (unfold ncols; now rewrite m_shape).
  assert (Hrow : List.length (row m i) = R)
    by (rewrite length_row; rewrite Hc; nia).
  unfold assign_slice. rewrite Hrow.
  rewrite (Nat.min_r a R), (Nat.min_r b R) by lia.
  rewrite Nat.sub_diag.
  rewrite (firstn_all2 (row m i)), (skipn_all2 (row m i)) by lia.
  destruct src as [|x [|y src]]; cbn [List.length Nat.eqb repeat app];
    [| | simpl in Hsrc; lia];
    rewrite app_nil_r; now rewrite set_row_same.
Qed.

(** A source that has neither the length of the slice nor length one is
    refused. *)
Lemma setitem_mismatch (a b : nat) (src : list A) :
  a <= R ->
  List.length src <> Nat.min b R - a -> List.length src <> 1 ->
  setitem_row_slice d m i a b src = Raise ValueError.
Proof.
  intros Ha Hn H1. unfold setitem_row_slice, nrows. rewrite m_shape.
  cbn [nth]. destruct (Nat.ltb_spec i R0) as [_|]; [|lia].
  assert (Hc : ncols m = R) by (unfold ncols; now rewrite m_shape).
  assert (Hrow : List.length (row m i) = R)
    by (rewrite length_row; rewrite Hc; nia).
  unfold assign_slice. rewrite Hrow. rewrite (Nat.min_l a R) by lia.
  destruct (Nat.eqb_spec (List.length src) (Nat.min b R - a)); [contradiction|].
  destruct (Nat.eqb_spec (List.length src) 1); [contradiction | reflexivity].
Qed.
End RowAssignments.

Section BadGeometry.
Variable timestamp_list : list num.
Variables T C r : nat.
Hypothesis T_pos : 0 < T.
(** [C] whole cycles and [r] more words, fewer than a cycle. *)
Hypothesis length_ts : List.length timestamp_list = 256 * T * C + r.
Hypothesis r_pos : 0 < r.
Hypothesis r_small : r < 256 * T.

Let R := List.length timestamp_list / 256.
Let noc := (len_Q timestamp_list / inject_Z (Z.of_nat T) / 256)%Q.

Lemma bad_cycles_fit : 256 * T * C <= List.length timestamp_list.
Proof. lia. Qed.

Lemma bad_row_length : R = T * C + r / 256.
Proof.
  unfold R. rewrite length_ts.
  replace (256 * T * C + r) with (T * C * 256 + r) by ring.
  rewrite Nat.div_add_l by lia. reflexivity.
Qed.

Lemma bad_noc (k : nat) : Qeq_bool (inject_Z (Z.of_nat k)) noc = false.
Proof.
  unfold noc, len_Q. apply noc_never; [assumption|].
  rewrite length_ts.
  replace (256 * T * C + r) with (r + C * (256 * T)) by ring.
  rewrite Nat.Div0.mod_add, Nat.mod_small; lia.
Qed.

Lemma bad_first_cycles (m : ndarray F64.float) (k : nat) :
  k < C -> filled timestamp_list T C R k 0 m ->
  exists m', pixel_loop timestamp_list T k m = Return (256, m')
             /\ filled timestamp_list T C R (k + 1) 0 m'.
Proof.
  intros Hk Hf.
  exact (pixel_loop_filled timestamp_list T C R T_pos bad_cycles_fit eq_refl
           k m Hk Hf).
Qed.

(** With one timestamp per cycle, or one word too many, every assignment
    after the whole cycles is an empty one: the pixel loop changes
    nothing. *)
Lemma pixel_loop_idle (m : ndarray F64.float) (k : nat) :
  T = 1 \/ r = 1 -> C <= k ->
  shape m = [256; R] -> List.length (data m) = 256 * R ->
  pixel_loop timestamp_list T k m = Return (256, m).
Proof.
  intros Hcase Hk Hs Hl. unfold pixel_loop.
  assert (HR : R = T * C).
  { rewrite bad_row_length. rewrite Nat.div_small; [lia|].
    destruct Hcase; subst; lia. }
  destruct (while_measure
              (fun s : nat * ndarray F64.float => fst s <? 256)
              (fun s =>
                 data_matrix' <-
                   setitem_row_slice F64.zero (snd s) (fst s)
                     (k * T) (k * T + T)
                     (map to_float64
                        (slice timestamp_list ((fst s + 256 * k) * T)
                               ((fst s + 256 * k) * T + T))) ;;
                 Return (fst s + 1, data_matrix'))
              (fun s => fst s <= 256 /\ snd s = m)
              (fun s => 256 - fst s))
    with (fuel := 256) (s := (0, m)) as ([i m'] & E & (Hle & Hm) & Hc).
  - intros [i m0] [Hle Hm] Hc. cbn [fst snd] in *. subst m0.
    apply Nat.ltb_lt in Hc.
    rewrite (setitem_empty_slice F64.zero m 256 R i Hs Hl Hc).
    + cbn [bind]. exists (i + 1, m). cbn [fst snd].
      split; [reflexivity|]. split; [split; [lia | reflexivity] | lia].
    + rewrite HR. nia.
    + lia.
    + rewrite length_map, length_slice, length_ts.
      destruct Hcase as [-> | ->]; [lia | nia].
  - cbn [fst snd]. split; [lia | reflexivity].
  - cbn [fst]. lia.
  - cbn [fst snd] in *. subst m'. apply Nat.ltb_ge in Hc.
    assert (i = 256) by lia. subst i. exact E.
Qed.

(** In that case the cycle loop never stops. *)
Lemma cycle_loop_runs_forever (fuel : nat) :
  T = 1 \/ r = 1 ->
  cycle_loop fuel timestamp_list T noc (flex_alloc timestamp_list) = OutOfFuel.
Proof.
  intros Hcase. unfold cycle_loop.
  apply (while_forever _ _
           (fun s => filled timestamp_list T C R (Nat.min (fst s) C) 0 (snd s))).
  - intros s _. now rewrite bad_noc.
  - intros [k m] Hf. cbn [fst snd] in *.
    destruct (Nat.lt_ge_cases k C) as [Hk|Hk].
    + rewrite Nat.min_l in Hf by lia.
      destruct (bad_first_cycles m k Hk Hf) as (m' & E & Hf').
      rewrite E. cbn [bind snd]. eexists; split; [reflexivity|].
      cbn [fst snd]. rewrite Nat.min_l by lia. exact Hf'.
    + rewrite Nat.min_r in Hf by lia.
      rewrite (pixel_loop_idle m k Hcase Hk (proj1 Hf) (proj1 (proj2 Hf))).
      cbn [bind snd]. eexists; split; [reflexivity|].
      cbn [fst snd]. rewrite Nat.min_r by lia. exact Hf.
  - cbn [fst snd]. rewrite Nat.min_0_l.
    exact (filled_alloc timestamp_list T C R T_pos bad_cycles_fit eq_refl).
Qed.

(** Otherwise the first assignment after the whole cycles is refused: the
    source holds [min(T, r) >= 2] values, the slice [r / 256] cells. *)
Lemma pixel_loop_refused (m : ndarray F64.float) :
  2 <= T -> 2 <= r ->
  shape m = [256; R] -> List.length (data m) = 256 * R ->
  pixel_loop timestamp_list T C m = Raise ValueError.
Proof.
  intros HT Hr Hs Hl. unfold pixel_loop.
  change 256 with (S 255) at 1. rewrite while_unfold. cbn [fst snd].
  change (0 <? 256) with true. cbv iota.
  assert (Hq : r / 256 < T) by (apply Nat.Div0.div_lt_upper_bound; lia).
  assert (Hq' : r / 256 < r) by (apply Nat.div_lt; lia).
  rewrite (setitem_mismatch F64.zero m 256 R 0 Hs Hl ltac:(lia));
    [reflexivity | | | ].
  - rewrite bad_row_length. nia.
  - rewrite length_map, length_slice, length_ts, bad_row_length. nia.
  - rewrite length_map, length_slice, length_ts. nia.
Qed.

Lemma cycle_loop_refused (fuel : nat) :
  2 <= T -> 2 <= r -> C < fuel ->
  cycle_loop fuel timestamp_list T noc (flex_alloc timestamp_list)
  = Raise ValueError.
Proof.
  intros HT Hr Hfuel. unfold cycle_loop.
  apply (while_raises _ _
           (fun s => fst s <= C /\ filled timestamp_list T C R (fst s) 0 (snd s))
           (fun s => C - fst s)).
  - intros s _. now rewrite bad_noc.
  - intros [k m] [Hle Hf] Hmu. cbn [fst snd] in *.
    destruct (bad_first_cycles m k ltac:(lia) Hf) as (m' & E & Hf').
    rewrite E. cbn [bind snd]. exists (k + 1, m'). cbn [fst snd].
    split; [reflexivity|]. split; [split; [lia | exact Hf'] | lia].
  - intros [k m] [Hle Hf] Hmu. cbn [fst snd] in *.
    assert (k = C) by lia. subst k.
    now rewrite (pixel_loop_refused m HT Hr (proj1 Hf) (proj1 (proj2 Hf))).
  - cbn [fst snd]. split; [lia|].
    exact (filled_alloc timestamp_list T C R T_pos bad_cycles_fit eq_refl).
  - cbn [fst]. lia.
Qed.
End BadGeometry.

(** X5.  What [unpack_binary_flex] does with a stream of whole words whose
    count is not a multiple of [256 * lines_of_data], [r] words being left
    over after the whole cycles, the count and [lines_of_data] being below
    [2^53]: the binary64 [noc] of line 76 passes the exit test for no [k];
    when [lines_of_data = 1] or [r = 1] the loop [while k != noc] runs
    forever on empty assignments; in every other case the first slice
    assignment after the whole cycles raises ValueError (the source cannot
    be broadcast into the slice). *)
Theorem unpack_binary_flex_on_bad_geometry (f : list byte) (T fuel : nat) :
  0 < T -> (Z.of_nat T < 2 ^ 53)%Z ->
  (Z.of_nat (List.length (words_of f)) < 2 ^ 53)%Z ->
  List.length f mod 4 = 0 ->
  List.length (words_of f) mod (256 * T) <> 0 ->
  List.length (words_of f) / (256 * T) < fuel ->
  (forall k : nat,
      Qeq_bool (inject_Z (Z.of_nat k))
               (noc_binary64 (List.length (words_of f)) T) = false)
  /\ unpack_binary_flex fuel f T =
     if (T =? 1) || (List.length (words_of f) mod (256 * T) =? 1)
     then OutOfFuel else Raise ValueError.
Proof.
  intros HT HbT Hbn H4 Hr Hfuel. split.
  { intros k. rewrite noc_binary64_test by assumption.
    apply Nat.eqb_neq. intros E. apply Hr. rewrite <- E.
    replace (k * (T * 256)) with (k * (256 * T)) by ring.
    apply Nat.Div0.mod_mul. }
  clear HbT Hbn. unfold unpack_binary_flex.
  rewrite read_packets_whole by assumption. cbn [bind fst app].
  set (ts := map packet_timestamp (words_of f)).
  assert (Hts : List.length ts = List.length (words_of f))
    by (unfold ts; apply length_map).
  rewrite <- Hts in *.
  set (C := List.length ts / (256 * T)) in *.
  set (r := List.length ts mod (256 * T)) in *.
  assert (Hlen : List.length ts = 256 * T * C + r)
    by (unfold C, r; apply Nat.div_mod_eq).
  assert (Hsmall : r < 256 * T) by (unfold r; apply Nat.mod_upper_bound; lia).
  unfold flex_reshape. rewrite true_div_count.
  destruct (Nat.eqb_spec T 0) as [|_]; [lia|]. cbn [bind].
  destruct (Nat.eqb_spec T 1) as [HT1|HT1]; cbn [orb].
  - rewrite (cycle_loop_runs_forever ts T C r HT Hlen ltac:(lia) Hsmall fuel
               (or_introl HT1)).
    reflexivity.
  - destruct (Nat.eqb_spec r 1) as [Hr1|Hr1].
    + rewrite (cycle_loop_runs_forever ts T C r HT Hlen ltac:(lia) Hsmall fuel
                 (or_intror Hr1)).
      reflexivity.
    + rewrite (cycle_loop_refused ts T C r HT Hlen ltac:(lia) Hsmall fuel
                 ltac:(lia) ltac:(lia) Hfuel).
      reflexivity.
Qed.

Lemma unpack_binary_flex_on_bad_geometry_witness :
  0 < 2 /\ (Z.of_nat 2 < 2 ^ 53)%Z
  /\ (Z.of_nat (List.length (words_of stream_valid_1)) < 2 ^ 53)%Z
  /\ List.length stream_valid_1 mod 4 = 0
  /\ List.length (words_of stream_valid_1) mod (256 * 2) <> 0
  /\ List.length (words_of stream_valid_1) / (256 * 2) < 1
  /\ unpack_binary_flex 1 stream_valid_1 2 = Raise ValueError.
Proof.
  assert (H : List.length (words_of stream_valid_1) mod (256 * 2) <> 0)
    by (vm_compute; discriminate).
  assert (Hf : List.length (words_of stream_valid_1) / (256 * 2) < 1)
    by (vm_compute; lia).
  assert (Hb : (Z.of_nat (List.length (words_of stream_valid_1)) < 2 ^ 53)%Z)
    by (vm_compute; reflexivity).
  split; [lia|]. split; [reflexivity|]. split; [exact Hb|].
  split; [reflexivity|]. split; [exact H|]. split; [exact Hf|].
  exact (proj2 (unpack_binary_flex_on_bad_geometry stream_valid_1 2 1
                  ltac:(lia) eq_refl Hb eq_refl H Hf)).
Defined.

(* ================================================================== *)
(** * Streams: whole words, concatenation, the fields of a word *)
(* ================================================================== *)

Lemma length_words_exact (f : list byte) (n : nat) :
  List.length f = 4 * n -> List.length (words_of f) = n.
Proof.
  intros H. rewrite length_words_of, H.
  replace (4 * n) with (n * 4) by ring. apply Nat.div_mul. lia.
Qed.

Lemma whole_words (f : list byte) (n : nat) :
  List.length f = 4 * n -> List.length f mod 4 = 0.
Proof.
  intros ->. replace (4 * n) with (n * 4) by ring. apply Nat.Div0.mod_mul.
Qed.

(** The words of two streams written one after the other, the first one
    ending on a word boundary. *)
Lemma words_of_app (f1 f2 : list byte) :
  List.length f1 mod 4 = 0 ->
  words_of (f1 ++ f2) = words_of f1 ++ words_of f2.
Proof.
  induction f1 as [|a|a b|a b c|a b c e l IH] using list_ind4; intros Hm;
    try (cbn in Hm; discriminate).
  - reflexivity.
  - cbn [app words_of]. f_equal. apply IH.
    cbn [List.length] in Hm.
    change (S (S (S (S (List.length l))))) with (4 + List.length l) in Hm.
    replace (4 + List.length l) with (List.length l + 1 * 4) in Hm by lia.
    now rewrite Nat.Div0.mod_add in Hm.
Qed.

(** A column of a [256 x (T*C)] matrix is a (cycle, slot) pair. *)
Lemma column_pair (T C j : nat) :
  0 < T -> j < T * C ->
  j / T < C /\ j mod T < T /\ j = j / T * T + j mod T.
Proof.
  intros HT Hj.
  pose proof (Nat.div_mod_eq j T) as E.
  pose proof (Nat.mod_upper_bound j T ltac:(lia)) as B.
  repeat split; [|assumption|lia].
  apply Nat.Div0.div_lt_upper_bound. lia.
Qed.

(** The two-bit field read by [(packet >> 28) & 0x3]. *)
Lemma packet_address_field (w : Z) :
  (0 <= w)%Z -> packet_address w = ((w / 2 ^ 28) mod 4)%Z.
Proof.
  intros Hw. unfold packet_address.
  rewrite Z.shiftr_div_pow2 by lia.
  change 0x3%Z with (Z.ones 2). rewrite Z.land_ones by lia. reflexivity.
Qed.

(** Both decoders read a word through bit 31 and the low 28 bits only. *)
Lemma low_bits_of_masked (w : Z) :
  Z.land (Z.land w 0x8FFFFFFF) 0xFFFFFFF = Z.land w 0xFFFFFFF.
Proof. rewrite <- Z.land_assoc. reflexivity. Qed.

Lemma validity_of_masked (w : Z) :
  Z.testbit (Z.land w 0x8FFFFFFF) 31 = Z.testbit w 31.
Proof. rewrite Z.land_spec. change (Z.testbit 0x8FFFFFFF 31) with true.
  apply andb_true_r. Qed.

Lemma map_on_masked {B : Type} (g g' : Z -> B) (f f' : list byte) :
  (forall w, (0 <= w < 2 ^ 32)%Z -> g w = g' (Z.land w 0x8FFFFFFF)) ->
  map (fun w => Z.land w 0x8FFFFFFF) (words_of f)
  = map (fun w => Z.land w 0x8FFFFFFF) (words_of f') ->
  map g (words_of f) = map g (words_of f').
Proof.
  intros Hg E.
  assert (H : forall f0, map g (words_of f0)
                         = map g' (map (fun w => Z.land w 0x8FFFFFFF)
                                       (words_of f0))).
  { intros f0. rewrite map_map. apply map_ext_in. intros w Hw.
    apply Hg. exact (proj1 (Forall_forall _ _) (words_of_range f0) w Hw). }
  now rewrite (H f), (H f'), E.
Qed.

(** The timestamp of a packet, read off its masked value. *)
Lemma packet_timestamp_masked (w : Z) :
  (0 <= w < 2 ^ 32)%Z ->
  packet_timestamp w =
  if Z.testbit (Z.land w 0x8FFFFFFF) 31
  then PyFloat (F64.mul (F64.of_int (Z.land (Z.land w 0x8FFFFFFF) 0xFFFFFFF))
                        F64.bin_ps)
  else PyInt (-1).
Proof.
  intros Hw. unfold packet_timestamp. rewrite validity_shift by assumption.
  now rewrite validity_of_masked, low_bits_of_masked.
Qed.

(* ================================================================== *)
(** * Edge inputs, trailing bytes, unused bits *)
(* ================================================================== *)

(** X6.  With [lines_of_data = 0] (or [timestamps = 0]) each routine ends
    in ZeroDivisionError at its division of the word count: [unpack_numpy]
    and [unpack_calib] on every stream, the latter before it looks for the
    calibration table; [unpack_binary_flex] on every stream of whole words
    (on any other stream its read loop has already raised struct.error). *)
Theorem zero_lines_of_data_divides_by_zero (f : list byte) :
  unpack_numpy f 0 = Raise ZeroDivisionError
  /\ (forall calibrate_load realpath_file board_number,
        unpack_calib calibrate_load realpath_file f board_number 0
        = ([], Raise ZeroDivisionError))
  /\ (List.length f mod 4 = 0 ->
      forall fuel, unpack_binary_flex fuel f 0 = Raise ZeroDivisionError)
  /\ (List.length f mod 4 <> 0 ->
      forall fuel, unpack_binary_flex fuel f 0 = Raise StructError).
Proof.
  split; [|split; [|split]].
  - unfold unpack_numpy, numpy_reshape. now rewrite true_div_count.
  - intros loader rp board. unfold unpack_calib, calib_reshape.
    now rewrite true_div_count.
  - intros Hm fuel. unfold unpack_binary_flex.
    rewrite read_packets_whole by assumption. cbn [bind fst app].
    unfold flex_reshape. now rewrite true_div_count.
  - intros Hm fuel. unfold unpack_binary_flex.
    now rewrite read_packets_partial.
Qed.

Lemma zero_lines_of_data_divides_by_zero_witness :
  List.length stream_valid_1 mod 4 = 0
  /\ unpack_numpy stream_partial 0 = Raise ZeroDivisionError
  /\ (forall fuel,
        unpack_binary_flex fuel stream_valid_1 0 = Raise ZeroDivisionError).
Proof.
  assert (H : List.length stream_valid_1 mod 4 = 0) by reflexivity.
  split; [exact H|].
  split; [exact (proj1 (zero_lines_of_data_divides_by_zero stream_partial))|].
  exact (proj1 (proj2 (proj2 (zero_lines_of_data_divides_by_zero
                                stream_valid_1))) H).
Defined.

(** X7.  Bytes after the last whole word are not seen by [unpack_numpy] and
    [unpack_calib]: a stream followed by one to three stray bytes gives the
    outcome of the stream without them, whatever that outcome is. *)
Theorem vectorised_unpackers_ignore_trailing_bytes
        (f tail : list byte) (lines_of_data : nat) :
  List.length f mod 4 = 0 -> List.length tail < 4 ->
  unpack_numpy (f ++ tail) lines_of_data = unpack_numpy f lines_of_data
  /\ forall calibrate_load realpath_file board_number,
       unpack_calib calibrate_load realpath_file (f ++ tail) board_number
                    lines_of_data
       = unpack_calib calibrate_load realpath_file f board_number lines_of_data.
Proof.
  intros Hm Ht. split.
  - unfold unpack_numpy. rewrite !numpy_decode_map.
    now rewrite words_of_ignores_partial_word.
  - intros loader rp board. unfold unpack_calib. rewrite !calib_decode_map.
    now rewrite words_of_ignores_partial_word.
Qed.

Lemma vectorised_unpackers_ignore_trailing_bytes_witness :
  List.length stream_valid_1 mod 4 = 0 /\ List.length [x00; xff; x80] < 4
  /\ unpack_numpy (stream_valid_1 ++ [x00; xff; x80]) 1
     = unpack_numpy stream_valid_1 1.
Proof.
  assert (H : List.length stream_valid_1 mod 4 = 0) by reflexivity.
  assert (H' : List.length [x00; xff; x80] < 4) by (cbn; lia).
  split; [exact H|]. split; [exact H'|].
  exact (proj1 (vectorised_unpackers_ignore_trailing_bytes
                  stream_valid_1 [x00; xff; x80] 1 H H')).
Defined.

(** X8.  The read loop of [unpack_binary_flex] fills [address_list] with
    one entry per word, the two-bit field at bits 28 and 29 of the word (a
    value from 0 to 3), next to one timestamp per word; the list is not used
    afterwards. *)
Theorem address_list_holds_bits_28_and_29 (f : list byte) :
  List.length f mod 4 = 0 ->
  exists timestamp_list address_list,
    read_packets f [] [] = Return (timestamp_list, address_list)
    /\ List.length timestamp_list = List.length f / 4
    /\ List.length address_list = List.length f / 4
    /\ forall j, j < List.length f / 4 ->
         nth j address_list 0%Z = ((nth j (words_of f) 0 / 2 ^ 28) mod 4)%Z
         /\ (0 <= nth j address_list 0 <= 3)%Z.
Proof.
  intros Hm. rewrite read_packets_whole by assumption. cbn [app].
  do 2 eexists. split; [reflexivity|].
  rewrite !length_map, length_words_of. split; [reflexivity|].
  split; [reflexivity|]. intros j Hj.
  assert (Hw : (0 <= nth j (words_of f) 0 < 2 ^ 32)%Z).
  { apply (proj1 (Forall_forall _ _) (words_of_range f)).
    apply nth_In. now rewrite length_words_of. }
  assert (Ha : nth j (map packet_address (words_of f)) 0%Z
               = packet_address (nth j (words_of f) 0%Z)).
  { rewrite (nth_indep _ 0%Z (packet_address 0%Z))
      by (now rewrite length_map, length_words_of).
    apply map_nth. }
  rewrite Ha, packet_address_field by lia.
  split; [reflexivity|].
  pose proof (Z.mod_pos_bound (nth j (words_of f) 0 / 2 ^ 28)%Z 4%Z ltac:(lia)).
  lia.
Qed.

Lemma address_list_holds_bits_28_and_29_witness :
  List.length stream_512 mod 4 = 0
  /\ exists timestamp_list address_list,
       read_packets stream_512 [] [] = Return (timestamp_list, address_list)
       /\ List.length timestamp_list = List.length stream_512 / 4
       /\ List.length address_list = List.length stream_512 / 4
       /\ forall j, j < List.length stream_512 / 4 ->
            nth j address_list 0%Z
            = ((nth j (words_of stream_512) 0 / 2 ^ 28) mod 4)%Z
            /\ (0 <= nth j address_list 0 <= 3)%Z.
Proof.
  assert (H : List.length stream_512 mod 4 = 0) by reflexivity.
  split; [exact H|].
  exact (address_list_holds_bits_28_and_29 stream_512 H).
Defined.

(** X9.  The three routines read a word through bit 31 and the low 28 bits
    only: two streams whose words agree on those bits (whatever bits 28 to
    30 hold) are unpacked to the same outcome. *)
Theorem unpackers_ignore_bits_28_to_30
        (f f' : list byte) (lines_of_data : nat) :
  map (fun w => Z.land w 0x8FFFFFFF) (words_of f)
  = map (fun w => Z.land w 0x8FFFFFFF) (words_of f') ->
  unpack_numpy f lines_of_data = unpack_numpy f' lines_of_data
  /\ (forall calibrate_load realpath_file board_number,
        unpack_calib calibrate_load realpath_file f board_number lines_of_data
        = unpack_calib calibrate_load realpath_file f' board_number
                       lines_of_data)
  /\ (List.length f mod 4 = 0 -> List.length f' mod 4 = 0 ->
      forall fuel,
        unpack_binary_flex fuel f lines_of_data
        = unpack_binary_flex fuel f' lines_of_data).
Proof.
  intros E. split; [|split].
  - unfold unpack_numpy. rewrite !numpy_decode_map. do 2 f_equal.
    apply (map_on_masked _
             (fun x => to_float64
                         (if Z.testbit x 31
                          then PyFloat (F64.mul
                                          (F64.of_int (Z.land x 0xFFFFFFF))
                                          F64.bin_ps)
                          else PyInt (-1)))); [|exact E].
    intros w Hw. now rewrite (packet_timestamp_masked w Hw).
  - intros loader rp board. unfold unpack_calib. rewrite !calib_decode_map.
    assert (H : map (fun w => if Z.testbit w 31 then Z.land w 0xFFFFFFF
                              else (-1)%Z) (words_of f)
                = map (fun w => if Z.testbit w 31 then Z.land w 0xFFFFFFF
                                else (-1)%Z) (words_of f')).
    { apply (map_on_masked _ (fun x => if Z.testbit x 31 then Z.land x 0xFFFFFFF
                                       else (-1)%Z)); [|exact E].
      intros w Hw. now rewrite validity_of_masked, low_bits_of_masked. }
    now rewrite H.
  - intros Hm Hm' fuel. unfold unpack_binary_flex.
    rewrite !read_packets_whole by assumption. cbn [bind fst app].
    f_equal.
    apply (map_on_masked _
             (fun x => if Z.testbit x 31
                       then PyFloat (F64.mul (F64.of_int (Z.land x 0xFFFFFFF))
                                             F64.bin_ps)
                       else PyInt (-1))); [|exact E].
    intros w Hw. now apply packet_timestamp_masked.
Qed.

Lemma unpackers_ignore_bits_28_to_30_witness :
  map (fun w => Z.land w 0x8FFFFFFF) (words_of stream_valid_1)
  = map (fun w => Z.land w 0x8FFFFFFF)
        (words_of ([x01; x00; x00; xf0] ++ packets 255 packet_invalid))
  /\ unpack_numpy stream_valid_1 1
     = unpack_numpy ([x01; x00; x00; xf0] ++ packets 255 packet_invalid) 1.
Proof.
  assert (H : map (fun w => Z.land w 0x8FFFFFFF) (words_of stream_valid_1)
              = map (fun w => Z.land w 0x8FFFFFFF)
                    (words_of ([x01; x00; x00; xf0]
                               ++ packets 255 packet_invalid)))
    by (vm_compute; reflexivity).
  split; [exact H|].
  exact (proj1 (unpackers_ignore_bits_28_to_30 stream_valid_1 _ 1 H)).
Defined.

(* ================================================================== *)
(** * Cells of the returned matrices, read off the words of the stream *)
(* ================================================================== *)

Lemma nth_map_in_range {A B : Type} (g : A -> B) (a : A) (b : B)
      (l : list A) (n : nat) :
  n < List.length l -> nth n (map g l) b = g (nth n l a).
Proof.
  intros Hn. rewrite (nth_indep _ b (g a)) by (now rewrite length_map).
  apply map_nth.
Qed.

Lemma word_in_range (f : list byte) (n : nat) :
  n < List.length (words_of f) -> (0 <= nth n (words_of f) 0 < 2 ^ 32)%Z.
Proof.
  intros Hn. apply (proj1 (Forall_forall _ _) (words_of_range f)).
  now apply nth_In.
Qed.

Lemma low_bits_nonneg (w : Z) : (0 <= w)%Z -> (0 <= Z.land w 0xFFFFFFF)%Z.
Proof. intros Hw. apply Z.land_nonneg. now left. Qed.

(** The flat index a cell is filled from lies in the flat sequence. *)
Lemma flat_index_lt (T C i k t : nat) :
  i < 256 -> k < C -> t < T -> (i + 256 * k) * T + t < 256 * T * C.
Proof. intros Hi Hk Ht. nia. Qed.

(** A matrix with no column. *)
Lemma matrix_without_columns {A : Type} (m : ndarray A) (T : nat) :
  shape m = [256; T * 0] -> List.length (data m) = 256 * (T * 0) ->
  m = {| shape := [256; 0]; data := [] |}.
Proof.
  destruct m as [sh l]. cbn [shape data]. rewrite Nat.mul_0_r. intros -> Hl.
  destruct l; [reflexivity | simpl in Hl; discriminate].
Qed.

(** X10.  The empty stream.  For every [lines_of_data > 0] the three
    routines return the matrix of 256 rows and no column:
    [unpack_binary_flex] without entering its loop, [unpack_calib] after
    loading the calibration table, which it still requires (without one it
    prints its message and exits). *)
Theorem empty_stream_gives_no_column (T : nat) :
  0 < T ->
  (forall fuel, unpack_binary_flex fuel [] T = Return no_columns)
  /\ unpack_numpy [] T = Return no_columns
  /\ (forall calibrate_load realpath_file board_number cal_mat,
        calibrate_load (realpath_file ++ "/../.." ++ "/calibration_data")%string
                       board_number = Loaded cal_mat ->
        shape cal_mat = [256; 140] ->
        unpack_calib calibrate_load realpath_file [] board_number T
        = ([], Return {| shape := [256; 0]; data := [] |}))
  /\ (forall calibrate_load realpath_file board_number,
        calibrate_load (realpath_file ++ "/../.." ++ "/calibration_data")%string
                       board_number = FileNotFoundError ->
        unpack_calib calibrate_load realpath_file [] board_number T
        = ([no_csv_message], Raise SystemExit)).
Proof.
  intros HT. split; [|split; [|split]].
  - intros fuel. unfold unpack_binary_flex. cbn [read_packets bind fst].
    destruct (flex_reshape_spec [] T 0 fuel HT) as (m & E & Hs & Hl & _);
      [cbn; lia | lia |].
    rewrite E. f_equal. now apply (matrix_without_columns m T).
  - unfold unpack_numpy. rewrite numpy_decode_map. cbn [words_of map].
    destruct (numpy_reshape_spec [] T 0 HT) as (m & E & Hs & Hl & _);
      [cbn; lia |].
    rewrite E. f_equal. now apply (matrix_without_columns m T).
  - intros loader rp board cal_mat Hload Hcal.
    destruct (unpack_calib_loaded loader rp board cal_mat [] T 0 HT
                ltac:(cbn; lia) Hload Hcal)
      as (dm & m' & _ & _ & _ & E & Hs & Hl & _).
    rewrite E. do 2 f_equal. now apply (matrix_without_columns m' T).
  - intros loader rp board Hload. unfold unpack_calib.
    rewrite calib_decode_map. cbn [words_of map].
    destruct (calib_reshape_spec [] T 0 HT) as (m & E & _); [cbn; lia|].
    now rewrite E, Hload.
Qed.

Lemma empty_stream_gives_no_column_witness :
  0 < 512
  /\ (forall fuel, unpack_binary_flex fuel [] 512 = Return no_columns)
  /\ unpack_numpy [] 512 = Return no_columns.
Proof.
  assert (H : 0 < 512) by lia.
  split; [exact H|].
  split; [exact (proj1 (empty_stream_gives_no_column 512 H))|].
  exact (proj1 (proj2 (empty_stream_gives_no_column 512 H))).
Defined.

(** X11.  [unpack_numpy] and [unpack_calib] lay the stream out in the same
    way: the matrix of [unpack_numpy] is, cell by cell, the matrix
    [unpack_calib] holds before its calibration loop, with every raw count
    [v >= 0] scaled to [v * 17.857] and every [-1] kept as [-1.0]. *)
Theorem unpack_numpy_scales_the_raw_matrix (f : list byte) (T C : nat) :
  0 < T -> List.length f = 4 * (256 * T * C) ->
  exists data_matrix reshaped,
    unpack_numpy f T = Return data_matrix
    /\ calib_reshape (calib_decode f) T = Return reshaped
    /\ shape data_matrix = shape reshaped
    /\ forall i j, i < 256 -> j < T * C ->
         get F64.zero data_matrix [i; j] =
         if (get 0%Z reshaped [i; j] <? 0)%Z then F64.of_int (-1)
         else F64.mul (F64.of_int (get 0%Z reshaped [i; j])) F64.bin_ps.
Proof.
  intros HT Hlen.
  pose proof (length_words_exact f _ Hlen) as Hw.
  unfold unpack_numpy. rewrite numpy_decode_map, calib_decode_map.
  destruct (numpy_reshape_spec
              (map (fun w => to_float64 (packet_timestamp w)) (words_of f))
              T C HT
              ltac:(now rewrite length_map)) as (m & E & Hs & _ & G).
  destruct (calib_reshape_spec
              (map (fun w => if Z.testbit w 31 then Z.land w 0xFFFFFFF
                             else (-1)%Z) (words_of f)) T C HT
              ltac:(now rewrite length_map)) as (dm & E' & Hs' & _ & G').
  exists m, dm. split; [exact E|]. split; [exact E'|].
  split; [congruence|]. intros i j Hi Hj.
  destruct (column_pair T C j HT Hj) as (Hk & Ht & Ej).
  revert Hk Ht Ej. generalize (j / T) (j mod T). intros k t Hk Ht ->.
  rewrite (G i k t Hi Hk Ht), (G' i k t Hi Hk Ht).
  pose proof (flat_index_lt T C i k t Hi Hk Ht) as Hn.
  rewrite <- Hw in Hn.
  rewrite (nth_map_in_range _ 0%Z), (nth_map_in_range _ 0%Z) by assumption.
  pose proof (word_in_range f _ Hn) as Hr.
  set (word := nth ((i + 256 * k) * T + t) (words_of f) 0%Z) in *.
  unfold packet_timestamp. rewrite validity_shift by assumption.
  destruct (Z.testbit word 31); [|reflexivity].
  pose proof (low_bits_nonneg _ (proj1 Hr)) as Hv.
  destruct (Z.ltb_spec (Z.land word 0xFFFFFFF) 0); [lia | reflexivity].
Qed.

Lemma unpack_numpy_scales_the_raw_matrix_witness :
  0 < 2 /\ List.length stream_512 = 4 * (256 * 2 * 1)
  /\ exists data_matrix reshaped,
       unpack_numpy stream_512 2 = Return data_matrix
       /\ calib_reshape (calib_decode stream_512) 2 = Return reshaped
       /\ shape data_matrix = shape reshaped
       /\ forall i j, i < 256 -> j < 2 * 1 ->
            get F64.zero data_matrix [i; j] =
            if (get 0%Z reshaped [i; j] <? 0)%Z then F64.of_int (-1)
            else F64.mul (F64.of_int (get 0%Z reshaped [i; j])) F64.bin_ps.
Proof.
  split; [lia|]. split; [reflexivity|].
  apply (unpack_numpy_scales_the_raw_matrix stream_512 2 1);
    [lia | reflexivity].
Defined.

(** X12.  [unpack_calib] end to end.  On a stream of [256 * T * C] words
    and with a [256 x 140] table, the cell the routine returns in row
    [(n / T) mod 256], column [(n / T / 256) * T + n mod T] is determined by
    word [n] and by that row of the table alone: [-1] when bit 31 of the
    word is clear, and otherwise the cast correction of its low 28 bits. *)
Theorem unpack_calib_cell_of_word
        (calibrate_load : string -> string -> load_result)
        (realpath_file board_number : string) (cal_mat : ndarray F64.float)
        (f : list byte) (T C : nat) :
  0 < T -> List.length f = 4 * (256 * T * C) ->
  calibrate_load (realpath_file ++ "/../.." ++ "/calibration_data")%string
                 board_number = Loaded cal_mat ->
  shape cal_mat = [256; 140] ->
  exists result,
    unpack_calib calibrate_load realpath_file f board_number T
    = ([], Return result)
    /\ forall n, n < 256 * T * C ->
         get 0%Z result [n / T mod 256; n / T / 256 * T + n mod T] =
         let word := nth n (words_of f) 0%Z in
         let v := Z.land word 0xFFFFFFF in
         if Z.testbit word 31
         then F64.to_int64
                (F64.add (F64.mul (F64.of_int (v - v mod 140)) F64.bin_ps)
                         (get F64.zero cal_mat
                              [n / T mod 256; Z.to_nat (v mod 140)]))
         else (-1)%Z.
Proof.
  intros HT Hlen Hload Hcal.
  pose proof (length_words_exact f _ Hlen) as Hw.
  destruct (unpack_calib_loaded calibrate_load realpath_file board_number
              cal_mat f T C HT Hlen Hload Hcal)
    as (dm & m' & E & Hs & Hl & E' & Hr).
  rewrite calib_decode_map in E.
  destruct (calib_reshape_spec
              (map (fun w => if Z.testbit w 31 then Z.land w 0xFFFFFFF
                             else (-1)%Z) (words_of f)) T C HT
              ltac:(now rewrite length_map)) as (dm' & E2 & _ & _ & G).
  assert (dm' = dm) by congruence. subst dm'.
  exists m'. split; [exact E'|]. intros n Hn.
  pose proof (Nat.div_mod_eq n T) as E1.
  pose proof (Nat.mod_upper_bound n T ltac:(lia)) as B1.
  pose proof (Nat.div_mod_eq (n / T) 256) as E3.
  pose proof (Nat.mod_upper_bound (n / T) 256 ltac:(lia)) as B2.
  assert (Hk : n / T / 256 < C).
  { apply Nat.Div0.div_lt_upper_bound, Nat.Div0.div_lt_upper_bound.
    replace (T * (256 * C)) with (256 * T * C) by ring. assumption. }
  assert (Hj : n / T / 256 * T + n mod T < T * C) by nia.
  rewrite (rows_done_get cal_mat dm (T * C) Hs Hl m' _ _ Hr B2 Hj).
  rewrite (G (n / T mod 256) (n / T / 256) (n mod T) B2 Hk B1).
  replace ((n / T mod 256 + 256 * (n / T / 256)) * T + n mod T) with n by nia.
  rewrite (nth_map_in_range _ 0%Z) by lia.
  rewrite <- Hw in Hn. pose proof (word_in_range f n Hn) as Hrg.
  cbv zeta. unfold calibrated_cell, corrected.
  set (word := nth n (words_of f) 0%Z) in *.
  destruct (Z.testbit word 31); [|reflexivity].
  pose proof (low_bits_nonneg _ (proj1 Hrg)) as Hv.
  destruct (Z.leb_spec 0 (Z.land word 0xFFFFFFF)); [reflexivity | lia].
Qed.

Lemma unpack_calib_cell_of_word_witness :
  0 < 1 /\ List.length stream_valid_141 = 4 * (256 * 1 * 1)
  /\ shape (constant_table F64.zero) = [256; 140]
  /\ exists result,
       unpack_calib (load_constant F64.zero) EmptyString stream_valid_141
                    EmptyString 1 = ([], Return result)
       /\ forall n, n < 256 * 1 * 1 ->
            get 0%Z result [n / 1 mod 256; n / 1 / 256 * 1 + n mod 1] =
            let word := nth n (words_of stream_valid_141) 0%Z in
            let v := Z.land word 0xFFFFFFF in
            if Z.testbit word 31
            then F64.to_int64
                   (F64.add (F64.mul (F64.of_int (v - v mod 140)) F64.bin_ps)
                            (get F64.zero (constant_table F64.zero)
                                 [n / 1 mod 256; Z.to_nat (v mod 140)]))
            else (-1)%Z.
Proof.
  split; [lia|]. split; [reflexivity|]. split; [reflexivity|].
  apply (unpack_calib_cell_of_word (load_constant F64.zero) EmptyString
           EmptyString (constant_table F64.zero) stream_valid_141 1 1);
    [lia | reflexivity | reflexivity | reflexivity].
Defined.

(* ================================================================== *)
(** * The reshape as a rearrangement *)
(* ================================================================== *)

Lemma source_index_of (T C i k t : nat) :
  i < 256 -> k < C -> t < T ->
  source_index T C (i * (T * C) + k * T + t) = (i + 256 * k) * T + t.
Proof.
  intros Hi Hk Ht. unfold source_index.
  assert (Hin : k * T + t < T * C)
    by (assert (k * T + T <= C * T) by nia; lia).
  destruct (divmod_unique (i * (T * C) + k * T + t) (T * C) i (k * T + t))
    as [-> ->]; [assumption | ring |].
  destruct (divmod_unique (k * T + t) T k t) as [-> ->];
    [assumption | ring |].
  reflexivity.
Qed.

Section Rearrangement.
Context {A : Type}.
Variable d : A.
Variables (T C : nat) (l : list A) (m : ndarray A).
Hypothesis T_pos : 0 < T.
Hypothesis l_length : List.length l = 256 * T * C.
Hypothesis m_shape : shape m = [256; T * C].
Hypothesis m_length : List.length (data m) = 256 * (T * C).
Hypothesis m_cells :
  forall i k t, i < 256 -> k < C -> t < T ->
    get d m [i; k * T + t] = nth ((i + 256 * k) * T + t) l d.

Lemma nth_source (p : nat) :
  p < 256 * (T * C) -> nth p (data m) d = nth (source_index T C p) l d.
Proof.
  intros Hp.
  destruct (position_triple T C p Hp) as (i & k & t & Hi & Hk & Ht & ->).
  rewrite source_index_of by assumption.
  rewrite <- (m_cells i k t Hi Hk Ht).
  rewrite (get_row_major d m 256 (T * C)) by assumption.
  f_equal. lia.
Qed.

Lemma source_index_lt (p : nat) :
  p < 256 * (T * C) -> source_index T C p < 256 * T * C.
Proof.
  intros Hp.
  destruct (position_triple T C p Hp) as (i & k & t & Hi & Hk & Ht & ->).
  rewrite source_index_of by assumption. now apply flat_index_lt.
Qed.

Lemma source_index_injective (p q : nat) :
  p < 256 * (T * C) -> q < 256 * (T * C) ->
  source_index T C p = source_index T C q -> p = q.
Proof.
  intros Hp Hq.
  destruct (position_triple T C p Hp) as (i & k & t & Hi & Hk & Ht & ->).
  destruct (position_triple T C q Hq) as (i' & k' & t' & Hi' & Hk' & Ht' & ->).
  rewrite !source_index_of by assumption. intros E.
  destruct (divmod_unique ((i + 256 * k) * T + t) T (i + 256 * k) t)
    as [D1 M1]; [assumption | ring |].
  destruct (divmod_unique ((i' + 256 * k') * T + t') T (i' + 256 * k') t')
    as [D2 M2]; [assumption | ring |].
  rewrite E in D1, M1.
  assert (t = t') by congruence.
  assert (i + 256 * k = i' + 256 * k') by congruence.
  assert (k = k') by lia. assert (i = i') by lia. subst. congruence.
Qed.

(** The matrix holds the flat sequence rearranged: nothing is lost, nothing
    is repeated, nothing is added. *)
Lemma reshaped_permutation : Permutation (data m) l.
Proof.
  apply Permutation_sym.
  apply (proj2 (FinFun.Permutation_nth l (data m) d)). cbv zeta.
  split; [rewrite m_length, l_length; ring|].
  exists (source_index T C). rewrite l_length.
  replace (256 * T * C) with (256 * (T * C)) by ring.
  split; [|split].
  - intros p Hp. replace (256 * (T * C)) with (256 * T * C) by ring.
    now apply source_index_lt.
  - intros p q. apply source_index_injective.
  - intros p Hp. now apply nth_source.
Qed.

End Rearrangement.

(** Occurrences of [-1] in the decoded sequence of [unpack_calib]. *)
Lemma count_decoded_sentinels (ws : list Z) :
  Forall (fun w => 0 <= w < 2 ^ 32)%Z ws ->
  count_occ Z.eq_dec
    (map (fun w => if Z.testbit w 31 then Z.land w 0xFFFFFFF else (-1)%Z) ws)
    (-1)%Z
  = List.length (filter (fun w => (w <? 0x80000000)%Z) ws).
Proof.
  induction 1 as [|w ws Hw _ IH]; [reflexivity|].
  cbn [map filter]. rewrite validity_compare by assumption.
  destruct (Z.testbit w 31); cbn [negb].
  - rewrite count_occ_cons_neq; [exact IH|].
    pose proof (low_bits_nonneg w (proj1 Hw)). lia.
  - rewrite count_occ_cons_eq by reflexivity. cbn [List.length]. now rewrite IH.
Qed.

(** X13.  The reshape only rearranges: the matrix returned by
    [unpack_numpy], and the matrix [unpack_calib] builds before its
    calibration loop, hold exactly the decoded values of the stream, each
    as many times as it was decoded. *)
Theorem reshape_rearranges_the_decoded_values (f : list byte) (T C : nat) :
  0 < T -> List.length f = 4 * (256 * T * C) ->
  (exists data_matrix,
      unpack_numpy f T = Return data_matrix
      /\ Permutation (data data_matrix) (data (numpy_decode f)))
  /\ (exists reshaped,
         calib_reshape (calib_decode f) T = Return reshaped
         /\ Permutation (data reshaped) (data (calib_decode f))).
Proof.
  intros HT Hlen.
  pose proof (length_words_exact f _ Hlen) as Hw. split.
  - unfold unpack_numpy. rewrite numpy_decode_map. cbn [data array1].
    set (l := map _ (words_of f)).
    assert (Hl : List.length l = 256 * T * C)
      by (unfold l; now rewrite length_map).
    destruct (numpy_reshape_spec l T C HT Hl) as (m & E & Hs & Hm & G).
    exists m. split; [exact E|].
    now apply (reshaped_permutation F64.zero T C).
  - rewrite calib_decode_map. cbn [data array1].
    set (l := map _ (words_of f)).
    assert (Hl : List.length l = 256 * T * C)
      by (unfold l; now rewrite length_map).
    destruct (calib_reshape_spec l T C HT Hl) as (m & E & Hs & Hm & G).
    exists m. split; [exact E|].
    now apply (reshaped_permutation 0%Z T C).
Qed.

Lemma reshape_rearranges_the_decoded_values_witness :
  0 < 2 /\ List.length stream_512 = 4 * (256 * 2 * 1)
  /\ exists data_matrix,
       unpack_numpy stream_512 2 = Return data_matrix
       /\ Permutation (data data_matrix) (data (numpy_decode stream_512)).
Proof.
  split; [lia|]. split; [reflexivity|].
  apply (proj1 (reshape_rearranges_the_decoded_values stream_512 2 1
                  ltac:(lia) eq_refl)).
Defined.

(** The [-1] cells of the matrix [unpack_calib] builds before its
    calibration loop are as many as the words below [0x80000000]. *)
Lemma raw_matrix_sentinels (f : list byte) (T C : nat) (reshaped : ndarray Z) :
  0 < T -> List.length f = 4 * (256 * T * C) ->
  calib_reshape (calib_decode f) T = Return reshaped ->
  count_sentinel reshaped
  = List.length (filter (fun w => (w <? 0x80000000)%Z) (words_of f)).
Proof.
  intros HT Hlen E.
  pose proof (length_words_exact f _ Hlen) as Hw.
  rewrite calib_decode_map in E.
  set (l := map _ (words_of f)) in E.
  assert (Hl : List.length l = 256 * T * C)
    by (unfold l; now rewrite length_map).
  destruct (calib_reshape_spec l T C HT Hl) as (dm & E2 & Hs & Hd & G).
  assert (dm = reshaped) by congruence. subst dm.
  unfold count_sentinel.
  rewrite (proj1 (Permutation_count_occ Z.eq_dec (data reshaped) l)
             (reshaped_permutation 0%Z T C l reshaped HT Hl Hs Hd G)).
  apply count_decoded_sentinels, words_of_range.
Qed.

(** X14.  Invalid words and [-1] cells in [unpack_calib].  Before the
    calibration loop the matrix holds exactly as many [-1] as the stream has
    words below [0x80000000]; the returned matrix holds at least as many. *)
Theorem unpack_calib_counts_invalid_words
        (calibrate_load : string -> string -> load_result)
        (realpath_file board_number : string) (cal_mat : ndarray F64.float)
        (f : list byte) (T C : nat) :
  0 < T -> List.length f = 4 * (256 * T * C) ->
  calibrate_load (realpath_file ++ "/../.." ++ "/calibration_data")%string
                 board_number = Loaded cal_mat ->
  shape cal_mat = [256; 140] ->
  exists reshaped result,
    calib_reshape (calib_decode f) T = Return reshaped
    /\ unpack_calib calibrate_load realpath_file f board_number T
       = ([], Return result)
    /\ count_sentinel reshaped
       = List.length (filter (fun w => (w <? 0x80000000)%Z) (words_of f))
    /\ List.length (filter (fun w => (w <? 0x80000000)%Z) (words_of f))
       <= count_sentinel result.
Proof.
  intros HT Hlen Hload Hcal.
  pose proof (length_words_exact f _ Hlen) as Hw.
  destruct (unpack_calib_loaded calibrate_load realpath_file board_number
              cal_mat f T C HT Hlen Hload Hcal)
    as (dm & m' & E & Hs & Hl & E' & Hr).
  exists dm, m'. split; [exact E|]. split; [exact E'|].
  pose proof (raw_matrix_sentinels f T C dm HT Hlen E) as Hcount.
  split; [exact Hcount|]. rewrite <- Hcount.
  pose proof Hr as (_ & Hl' & _).
  unfold count_sentinel. apply count_occ_pointwise_le; [congruence|].
  intros p Hp Hv. rewrite Hl in Hp.
  rewrite (rows_done_nth cal_mat dm (T * C) Hl m' p Hr Hp), Hv. reflexivity.
Qed.

Lemma unpack_calib_counts_invalid_words_witness :
  0 < 1 /\ List.length stream_valid_141 = 4 * (256 * 1 * 1)
  /\ shape (constant_table F64.zero) = [256; 140]
  /\ exists reshaped result,
       calib_reshape (calib_decode stream_valid_141) 1 = Return reshaped
       /\ unpack_calib (load_constant F64.zero) EmptyString stream_valid_141
                       EmptyString 1 = ([], Return result)
       /\ count_sentinel reshaped
          = List.length (filter (fun w => (w <? 0x80000000)%Z)
                                (words_of stream_valid_141))
       /\ List.length (filter (fun w => (w <? 0x80000000)%Z)
                              (words_of stream_valid_141))
          <= count_sentinel result.
Proof.
  split; [lia|]. split; [reflexivity|]. split; [reflexivity|].
  apply (unpack_calib_counts_invalid_words (load_constant F64.zero) EmptyString
           EmptyString (constant_table F64.zero) stream_valid_141 1 1);
    [lia | reflexivity | reflexivity | reflexivity].
Defined.

(* ================================================================== *)
(** * Streams written one after the other *)
(* ================================================================== *)

Section Concatenation.
Context {A : Type}.
Variable d : A.
Variables (T C1 C2 : nat) (l1 l2 : list A) (m1 m2 m : ndarray A).
Hypothesis T_pos : 0 < T.
Hypothesis l1_length : List.length l1 = 256 * T * C1.
Hypothesis m1_cells :
  forall i k t, i < 256 -> k < C1 -> t < T ->
    get d m1 [i; k * T + t] = nth ((i + 256 * k) * T + t) l1 d.
Hypothesis m2_cells :
  forall i k t, i < 256 -> k < C2 -> t < T ->
    get d m2 [i; k * T + t] = nth ((i + 256 * k) * T + t) l2 d.
Hypothesis m_cells :
  forall i k t, i < 256 -> k < C1 + C2 -> t < T ->
    get d m [i; k * T + t] = nth ((i + 256 * k) * T + t) (l1 ++ l2) d.

(** The cycles of the first stream fill the first columns. *)
Lemma first_columns (i j : nat) :
  i < 256 -> j < T * C1 -> get d m [i; j] = get d m1 [i; j].
Proof.
  intros Hi Hj.
  destruct (column_pair T C1 j T_pos Hj) as (Hk & Ht & Ej).
  revert Hk Ht Ej. generalize (j / T) (j mod T). intros k t Hk Ht ->.
  rewrite (m_cells i k t Hi ltac:(lia) Ht), (m1_cells i k t Hi Hk Ht).
  apply app_nth1. rewrite l1_length. now apply flat_index_lt.
Qed.

(** The cycles of the second stream fill the columns after them. *)
Lemma next_columns (i j : nat) :
  i < 256 -> j < T * C2 -> get d m [i; T * C1 + j] = get d m2 [i; j].
Proof.
  intros Hi Hj.
  destruct (column_pair T C2 j T_pos Hj) as (Hk & Ht & Ej).
  revert Hk Ht Ej. generalize (j / T) (j mod T). intros k t Hk Ht ->.
  replace (T * C1 + (k * T + t)) with ((C1 + k) * T + t) by ring.
  rewrite (m_cells i (C1 + k) t Hi ltac:(lia) Ht), (m2_cells i k t Hi Hk Ht).
  rewrite app_nth2 by (rewrite l1_length; nia).
  f_equal. rewrite l1_length. nia.
Qed.

End Concatenation.

(** X15.  Two streams of whole cycles written one after the other are
    unpacked by [unpack_numpy] to the two matrices side by side: the
    columns of the first stream, then the columns of the second. *)
Theorem unpack_numpy_of_concatenated_streams
        (f1 f2 : list byte) (T C1 C2 : nat) :
  0 < T ->
  List.length f1 = 4 * (256 * T * C1) -> List.length f2 = 4 * (256 * T * C2) ->
  exists m1 m2 m,
    unpack_numpy f1 T = Return m1
    /\ unpack_numpy f2 T = Return m2
    /\ unpack_numpy (f1 ++ f2) T = Return m
    /\ shape m = [256; T * C1 + T * C2]
    /\ (forall i j, i < 256 -> j < T * C1 ->
          get F64.zero m [i; j] = get F64.zero m1 [i; j])
    /\ (forall i j, i < 256 -> j < T * C2 ->
          get F64.zero m [i; T * C1 + j] = get F64.zero m2 [i; j]).
Proof.
  intros HT H1 H2.
  pose proof (length_words_exact f1 _ H1) as W1.
  pose proof (length_words_exact f2 _ H2) as W2.
  unfold unpack_numpy. rewrite !numpy_decode_map.
  rewrite (words_of_app f1 f2 (whole_words f1 _ H1)), map_app.
  set (l1 := map _ (words_of f1)). set (l2 := map _ (words_of f2)).
  assert (L1 : List.length l1 = 256 * T * C1)
    by (unfold l1; now rewrite length_map).
  assert (L2 : List.length l2 = 256 * T * C2)
    by (unfold l2; now rewrite length_map).
  assert (L : List.length (l1 ++ l2) = 256 * T * (C1 + C2))
    by (rewrite length_app, L1, L2; ring).
  destruct (numpy_reshape_spec l1 T C1 HT L1) as (m1 & E1 & _ & _ & G1).
  destruct (numpy_reshape_spec l2 T C2 HT L2) as (m2 & E2 & _ & _ & G2).
  destruct (numpy_reshape_spec (l1 ++ l2) T (C1 + C2) HT L)
    as (m & E & Hs & _ & G).
  exists m1, m2, m. split; [exact E1|]. split; [exact E2|]. split; [exact E|].
  split; [rewrite Hs; do 2 f_equal; ring|]. split.
  - intros i j. now apply (first_columns F64.zero T C1 C2 l1 l2 m1 m).
  - intros i j. now apply (next_columns F64.zero T C1 C2 l1 l2 m2 m).
Qed.

Lemma unpack_numpy_of_concatenated_streams_witness :
  0 < 1 /\ List.length stream_valid_1 = 4 * (256 * 1 * 1)
  /\ List.length stream_valid_141 = 4 * (256 * 1 * 1)
  /\ exists m1 m2 m,
       unpack_numpy stream_valid_1 1 = Return m1
       /\ unpack_numpy stream_valid_141 1 = Return m2
       /\ unpack_numpy (stream_valid_1 ++ stream_valid_141) 1 = Return m
       /\ shape m = [256; 1 * 1 + 1 * 1]
       /\ (forall i j, i < 256 -> j < 1 * 1 ->
             get F64.zero m [i; j] = get F64.zero m1 [i; j])
       /\ (forall i j, i < 256 -> j < 1 * 1 ->
             get F64.zero m [i; 1 * 1 + j] = get F64.zero m2 [i; j]).
Proof.
  split; [lia|]. split; [reflexivity|]. split; [reflexivity|].
  apply (unpack_numpy_of_concatenated_streams stream_valid_1 stream_valid_141
           1 1 1); [lia | reflexivity | reflexivity].
Defined.

(** X16.  The same for [unpack_calib]: the calibration corrects a cell from
    its own value and its row of the table, so the matrix of two streams
    written one after the other is the two calibrated matrices side by
    side. *)
Theorem unpack_calib_of_concatenated_streams
        (calibrate_load : string -> string -> load_result)
        (realpath_file board_number : string) (cal_mat : ndarray F64.float)
        (f1 f2 : list byte) (T C1 C2 : nat) :
  0 < T ->
  List.length f1 = 4 * (256 * T * C1) -> List.length f2 = 4 * (256 * T * C2) ->
  calibrate_load (realpath_file ++ "/../.." ++ "/calibration_data")%string
                 board_number = Loaded cal_mat ->
  shape cal_mat = [256; 140] ->
  exists m1 m2 m,
    unpack_calib calibrate_load realpath_file f1 board_number T
    = ([], Return m1)
    /\ unpack_calib calibrate_load realpath_file f2 board_number T
       = ([], Return m2)
    /\ unpack_calib calibrate_load realpath_file (f1 ++ f2) board_number T
       = ([], Return m)
    /\ shape m = [256; T * C1 + T * C2]
    /\ (forall i j, i < 256 -> j < T * C1 ->
          get 0%Z m [i; j] = get 0%Z m1 [i; j])
    /\ (forall i j, i < 256 -> j < T * C2 ->
          get 0%Z m [i; T * C1 + j] = get 0%Z m2 [i; j]).
Proof.
  intros HT H1 H2 Hload Hcal.
  pose proof (length_words_exact f1 _ H1) as W1.
  pose proof (length_words_exact f2 _ H2) as W2.
  assert (H : List.length (f1 ++ f2) = 4 * (256 * T * (C1 + C2)))
    by (rewrite length_app, H1, H2; ring).
  destruct (unpack_calib_loaded calibrate_load realpath_file board_number
              cal_mat f1 T C1 HT H1 Hload Hcal)
    as (d1 & m1 & E1 & S1 & N1 & R1 & D1).
  destruct (unpack_calib_loaded calibrate_load realpath_file board_number
              cal_mat f2 T C2 HT H2 Hload Hcal)
    as (d2 & m2 & E2 & S2 & N2 & R2 & D2).
  destruct (unpack_calib_loaded calibrate_load realpath_file board_number
              cal_mat (f1 ++ f2) T (C1 + C2) HT H Hload Hcal)
    as (d0 & m & E & S0 & N0 & R & D).
  rewrite calib_decode_map in E1, E2, E.
  rewrite (words_of_app f1 f2 (whole_words f1 _ H1)), map_app in E.
  set (l1 := map _ (words_of f1)) in *. set (l2 := map _ (words_of f2)) in *.
  assert (L1 : List.length l1 = 256 * T * C1)
    by (unfold l1; now rewrite length_map).
  assert (L2 : List.length l2 = 256 * T * C2)
    by (unfold l2; now rewrite length_map).
  assert (L : List.length (l1 ++ l2) = 256 * T * (C1 + C2))
    by (rewrite length_app, L1, L2; ring).
  destruct (calib_reshape_spec l1 T C1 HT L1) as (x1 & X1 & _ & _ & G1).
  destruct (calib_reshape_spec l2 T C2 HT L2) as (x2 & X2 & _ & _ & G2).
  destruct (calib_reshape_spec (l1 ++ l2) T (C1 + C2) HT L)
    as (x & X & _ & _ & G).
  assert (x1 = d1) by congruence. assert (x2 = d2) by congruence.
  assert (x = d0) by congruence. subst x1 x2 x.
  exists m1, m2, m. split; [exact R1|]. split; [exact R2|]. split; [exact R|].
  split; [rewrite (proj1 D); do 2 f_equal; ring|]. split.
  - intros i j Hi Hj.
    rewrite (rows_done_get cal_mat d0 (T * (C1 + C2)) S0 N0 m i j D Hi
               ltac:(nia)).
    rewrite (rows_done_get cal_mat d1 (T * C1) S1 N1 m1 i j D1 Hi Hj).
    f_equal. now apply (first_columns 0%Z T C1 C2 l1 l2 d1 d0).
  - intros i j Hi Hj.
    rewrite (rows_done_get cal_mat d0 (T * (C1 + C2)) S0 N0 m i (T * C1 + j)
               D Hi ltac:(nia)).
    rewrite (rows_done_get cal_mat d2 (T * C2) S2 N2 m2 i j D2 Hi Hj).
    f_equal. now apply (next_columns 0%Z T C1 C2 l1 l2 d2 d0).
Qed.

Lemma unpack_calib_of_concatenated_streams_witness :
  0 < 1 /\ List.length stream_valid_1 = 4 * (256 * 1 * 1)
  /\ List.length stream_valid_141 = 4 * (256 * 1 * 1)
  /\ shape (constant_table F64.zero) = [256; 140]
  /\ exists m1 m2 m,
       unpack_calib (load_constant F64.zero) EmptyString stream_valid_1
                    EmptyString 1 = ([], Return m1)
       /\ unpack_calib (load_constant F64.zero) EmptyString stream_valid_141
                       EmptyString 1 = ([], Return m2)
       /\ unpack_calib (load_constant F64.zero) EmptyString
                       (stream_valid_1 ++ stream_valid_141) EmptyString 1
          = ([], Return m)
       /\ shape m = [256; 1 * 1 + 1 * 1]
       /\ (forall i j, i < 256 -> j < 1 * 1 ->
             get 0%Z m [i; j] = get 0%Z m1 [i; j])
       /\ (forall i j, i < 256 -> j < 1 * 1 ->
             get 0%Z m [i; 1 * 1 + j] = get 0%Z m2 [i; j]).
Proof.
  split; [lia|]. split; [reflexivity|]. split; [reflexivity|].
  split; [reflexivity|].
  apply (unpack_calib_of_concatenated_streams (load_constant F64.zero)
           EmptyString EmptyString (constant_table F64.zero)
           stream_valid_1 stream_valid_141 1 1 1);
    [lia | reflexivity | reflexivity | reflexivity | reflexivity].
Defined.

(* ================================================================== *)
(** * A calibration table with fewer than 140 columns *)
(* ================================================================== *)

Lemma in_where (mask : list bool) (j : nat) :
  j < List.length mask -> nth j mask false = true -> In j (where_ mask).
Proof.
  intros Hj Hm. unfold where_. apply filter_In.
  split; [apply in_seq; lia | assumption].
Qed.

Section NarrowTable.
Variable cal_mat : ndarray F64.float.
Variables (m : ndarray Z) (R i : nat).
Hypothesis m_shape : shape m = [256; R].
Hypothesis m_length : List.length (data m) = 256 * R.
Hypothesis i_row : i < 256.

Lemma row_length : List.length (row m i) = R.
Proof.
  rewrite length_row; unfold ncols; rewrite m_shape; cbn [nth];
    [reflexivity | nia].
Qed.

(** A row either goes through the correction, which leaves the other rows
    as they are, or the gather from the table raises IndexError. *)
Lemma calib_row_outcome :
  calib_row cal_mat i m = Raise IndexError
  \/ exists m', calib_row cal_mat i m = Return m'
       /\ shape m' = [256; R]
       /\ List.length (data m') = 256 * R
       /\ forall i' j, i' < 256 -> i' <> i -> j < R ->
            nth (i' * R + j) (data m') 0%Z = nth (i' * R + j) (data m) 0%Z.
Proof.
  unfold calib_row, nrows. rewrite m_shape. cbn [nth].
  destruct (Nat.ltb_spec i 256) as [_|]; [|lia].
  destruct (cal_take _ _ _) as [cal|e|] eqn:Ec; cbn [bind].
  - right. eexists. split; [reflexivity|].
    set (r' := put _ _ _).
    assert (Hr : List.length r' = R)
      by (unfold r'; rewrite length_put; apply row_length).
    unfold set_row, ncols. rewrite m_shape. cbn [nth shape data].
    split; [reflexivity|].
    replace (i * R + R) with (i * R + List.length r') by (now rewrite Hr).
    assert (Hfit : i * R + List.length r' <= List.length (data m))
      by (rewrite Hr, m_length; nia).
    split; [rewrite length_overwrite by assumption; assumption|].
    intros i' j Hi' Hne Hj. rewrite nth_overwrite by assumption. rewrite Hr.
    destruct (Nat.leb_spec (i * R) (i' * R + j)) as [Hlo|Hlo];
      [destruct (Nat.ltb_spec (i' * R + j) (i * R + R)) as [Hhi|Hhi]|];
      cbn [andb]; try reflexivity.
    exfalso. apply Hne. apply (block_unique R i' i j); lia.
  - left. unfold cal_take in Ec.
    destruct (_ && _); [discriminate|]. congruence.
  - unfold cal_take in Ec. destruct (_ && _); discriminate.
Qed.

(** A valid cell whose bin lies beyond the width of the table makes the
    gather raise. *)
Lemma calib_row_refuses (j : nat) :
  j < R -> (0 <= nth (i * R + j) (data m) 0)%Z ->
  ncols cal_mat <= Z.to_nat (nth (i * R + j) (data m) 0 mod 140)%Z ->
  calib_row cal_mat i m = Raise IndexError.
Proof.
  intros Hj Hv Hw. unfold calib_row, nrows. rewrite m_shape. cbn [nth].
  destruct (Nat.ltb_spec i 256) as [_|]; [|lia].
  assert (Hc : ncols m = R) by (unfold ncols; now rewrite m_shape).
  assert (Hn : nth j (row m i) 0%Z = nth (i * R + j) (data m) 0%Z).
  { unfold row. rewrite Hc, nth_firstn.
    destruct (Nat.ltb_spec j R); [|lia]. apply nth_skipn. }
  unfold cal_take.
  match goal with
  | |- context [forallb ?P ?bins] => destruct (forallb P bins) eqn:Ef
  end; [|now rewrite andb_false_r].
  exfalso.
  assert (Hin : In (nth j (row m i) 0 mod 140)%Z
                   (map (fun v => (v mod 140)%Z)
                        (take 0%Z (row m i)
                              (where_ (map (fun v => (0 <=? v)%Z)
                                           (row m i)))))).
  { apply (in_map (fun v => (v mod 140)%Z)). unfold take.
    apply (in_map (fun j0 => nth j0 (row m i) 0%Z)).
    apply in_where; [now rewrite length_map, row_length|].
    rewrite (nth_map_in_range _ 0%Z) by (now rewrite row_length).
    apply Z.leb_le. now rewrite Hn. }
  pose proof (proj1 (forallb_forall _ _) Ef _ Hin) as Hb. cbv beta in Hb.
  apply Nat.ltb_lt in Hb. rewrite Hn in Hb. lia.
Qed.

End NarrowTable.

(** The loop over the rows stops with IndexError at the latest in the row
    that holds such a cell. *)
Lemma for_each_refuses (cal_mat : ndarray F64.float) (data_matrix : ndarray Z)
      (R i0 j0 : nat) :
  i0 < 256 -> j0 < R ->
  (0 <= nth (i0 * R + j0) (data data_matrix) 0)%Z ->
  ncols cal_mat
  <= Z.to_nat (nth (i0 * R + j0) (data data_matrix) 0 mod 140)%Z ->
  forall n a m,
    a + n = 256 -> a <= i0 ->
    shape m = [256; R] -> List.length (data m) = 256 * R ->
    (forall i' j, i' < 256 -> a <= i' -> j < R ->
       nth (i' * R + j) (data m) 0%Z
       = nth (i' * R + j) (data data_matrix) 0%Z) ->
    for_each (seq a n) (calib_row cal_mat) m = Raise IndexError.
Proof.
  intros Hi0 Hj0 Hv Hw.
  induction n as [|n IH]; intros a m Han Ha Hs Hl Hsame; [lia|].
  cbn [seq for_each].
  destruct (Nat.eq_dec a i0) as [->|Hne].
  - rewrite (calib_row_refuses cal_mat m R i0 Hs Hl Hi0 j0 Hj0);
      [reflexivity | |]; rewrite (Hsame i0 j0 Hi0 (Nat.le_refl _) Hj0);
      assumption.
  - destruct (calib_row_outcome cal_mat m R a Hs Hl ltac:(lia))
      as [E | (m' & E & Hs' & Hl' & Hkeep)]; rewrite E; cbn [bind];
      [reflexivity|].
    apply IH; try assumption; try lia.
    intros i' j Hi' Hai Hj. rewrite (Hkeep i' j Hi' ltac:(lia) Hj).
    apply Hsame; [assumption | lia | assumption].
Qed.

(** X17.  A table with fewer than 140 columns.  When some valid word of a
    well-formed stream has its bin [(word & 0xFFFFFFF) mod 140] at or beyond
    the width of the loaded table, [unpack_calib] ends in IndexError: no
    matrix is returned, and nothing is printed. *)
Theorem unpack_calib_rejects_a_narrow_table
        (calibrate_load : string -> string -> load_result)
        (realpath_file board_number : string) (cal_mat : ndarray F64.float)
        (f : list byte) (T C W n : nat) :
  0 < T -> List.length f = 4 * (256 * T * C) ->
  calibrate_load (realpath_file ++ "/../.." ++ "/calibration_data")%string
                 board_number = Loaded cal_mat ->
  shape cal_mat = [256; W] ->
  n < 256 * T * C ->
  Z.testbit (nth n (words_of f) 0%Z) 31 = true ->
  W <= Z.to_nat (Z.land (nth n (words_of f) 0) 0xFFFFFFF mod 140)%Z ->
  unpack_calib calibrate_load realpath_file f board_number T
  = ([], Raise IndexError).
Proof.
  intros HT Hlen Hload Hcal Hn Hbit HW.
  pose proof (length_words_exact f _ Hlen) as Hw.
  unfold unpack_calib. rewrite calib_decode_map.
  set (l := map _ (words_of f)).
  assert (Hl : List.length l = 256 * T * C)
    by (unfold l; now rewrite length_map).
  destruct (calib_reshape_spec l T C HT Hl) as (dm & E & Hs & Hd & G).
  rewrite E, Hload. f_equal.
  pose proof (Nat.div_mod_eq n T) as E1.
  pose proof (Nat.mod_upper_bound n T ltac:(lia)) as B1.
  pose proof (Nat.div_mod_eq (n / T) 256) as E3.
  pose proof (Nat.mod_upper_bound (n / T) 256 ltac:(lia)) as B2.
  assert (Hk : n / T / 256 < C).
  { apply Nat.Div0.div_lt_upper_bound, Nat.Div0.div_lt_upper_bound.
    replace (T * (256 * C)) with (256 * T * C) by ring. assumption. }
  assert (Hj : n / T / 256 * T + n mod T < T * C) by nia.
  assert (Hcell : nth (n / T mod 256 * (T * C) + (n / T / 256 * T + n mod T))
                      (data dm) 0%Z
                  = Z.land (nth n (words_of f) 0%Z) 0xFFFFFFF).
  { rewrite <- (get_row_major 0%Z dm 256 (T * C)) by assumption.
    rewrite (G (n / T mod 256) (n / T / 256) (n mod T) B2 Hk B1).
    replace ((n / T mod 256 + 256 * (n / T / 256)) * T + n mod T) with n by nia.
    unfold l. rewrite (nth_map_in_range _ 0%Z) by lia. now rewrite Hbit. }
  unfold calibrate, range.
  apply (for_each_refuses cal_mat dm (T * C) (n / T mod 256)
           (n / T / 256 * T + n mod T)); try assumption; try lia;
    try reflexivity.
  - rewrite Hcell. apply low_bits_nonneg.
    rewrite <- Hw in Hn. exact (proj1 (word_in_range f n Hn)).
  - rewrite Hcell. unfold ncols. rewrite Hcal. exact HW.
Qed.

Lemma unpack_calib_rejects_a_narrow_table_witness :
  0 < 1 /\ List.length stream_valid_141 = 4 * (256 * 1 * 1)
  /\ shape (full [256; 1] F64.zero) = [256; 1]
  /\ 0 < 256 * 1 * 1
  /\ Z.testbit (nth 0 (words_of stream_valid_141) 0%Z) 31 = true
  /\ 1 <= Z.to_nat (Z.land (nth 0 (words_of stream_valid_141) 0) 0xFFFFFFF
                    mod 140)%Z
  /\ unpack_calib (fun _ _ => Loaded (full [256; 1] F64.zero)) EmptyString
                  stream_valid_141 EmptyString 1
     = ([], Raise IndexError).
Proof.
  split; [lia|]. split; [reflexivity|]. split; [reflexivity|].
  split; [lia|]. split; [reflexivity|]. split; [vm_compute; lia|].
  apply (unpack_calib_rejects_a_narrow_table
           (fun _ _ => Loaded (full [256; 1] F64.zero)) EmptyString EmptyString
           (full [256; 1] F64.zero) stream_valid_141 1 1 1 0);
    [lia | reflexivity | reflexivity | reflexivity | lia | reflexivity
    | vm_compute; lia].
Defined.

(* ================================================================== *)
(** * Signs of the computed floats *)
(* ================================================================== *)

Lemma binary_round_aux_not_negative (mx ex : Z) (lx : SpecFloat.location) :
  not_negative
    (SpecFloat.binary_round_aux FloatOps.prec FloatOps.emax false mx ex lx)
  = true.
Proof.
  unfold SpecFloat.binary_round_aux.
  destruct (SpecFloat.shr_fexp _ _ mx ex lx) as [mrs' e'].
  destruct (SpecFloat.shr_fexp _ _ _ e' SpecFloat.loc_Exact) as [mrs'' e''].
  destruct (SpecFloat.shr_m mrs''); [reflexivity | | reflexivity].
  destruct (Z.leb e'' _); reflexivity.
Qed.

Lemma binary_normalize_not_negative (m e : Z) :
  (0 <= m)%Z ->
  not_negative
    (SpecFloat.binary_normalize FloatOps.prec FloatOps.emax m e false) = true.
Proof.
  intros Hm. destruct m as [|p|p]; [reflexivity | | lia].
  unfold SpecFloat.binary_normalize, SpecFloat.binary_round.
  destruct (SpecFloat.shl_align _ _ _) as [mz ez].
  apply binary_round_aux_not_negative.
Qed.

(** The conversion of a count, its product with the bin width, and the sum
    of such a product with an offset that is not negative. *)
Lemma of_int_not_negative (z : Z) :
  (0 <= z)%Z -> not_negative (FloatOps.Prim2SF (F64.of_int z)) = true.
Proof.
  intros Hz. unfold F64.of_int.
  destruct (Z.ltb_spec z 0) as [|_]; [lia|].
  rewrite FloatAxioms.of_uint63_spec.
  apply binary_normalize_not_negative.
  apply Uint63.to_Z_bounded.
Qed.

Lemma scaled_not_negative (x : F64.float) :
  not_negative (FloatOps.Prim2SF x) = true ->
  not_negative (FloatOps.Prim2SF (F64.mul x F64.bin_ps)) = true.
Proof.
  intros Hx. unfold F64.mul. rewrite FloatAxioms.mul_spec.
  change (FloatOps.Prim2SF F64.bin_ps)
    with (SpecFloat.S754_finite false 5026298659122184 (-48)).
  unfold FloatAxioms.SF64mul, SpecFloat.SFmul.
  destruct (FloatOps.Prim2SF x) as [s|s| |s m e]; try destruct s;
    try discriminate; try reflexivity.
  apply binary_round_aux_not_negative.
Qed.

Lemma sum_not_negative (x y : F64.float) :
  not_negative (FloatOps.Prim2SF x) = true ->
  not_negative (FloatOps.Prim2SF y) = true ->
  not_negative (FloatOps.Prim2SF (F64.add x y)) = true.
Proof.
  intros Hx Hy. unfold F64.add. rewrite FloatAxioms.add_spec.
  unfold FloatAxioms.SF64add, SpecFloat.SFadd.
  destruct (FloatOps.Prim2SF x) as [s|s| |s m e]; try destruct s;
    try discriminate;
    destruct (FloatOps.Prim2SF y) as [s'|s'| |s' m' e']; try destruct s';
    try discriminate; try reflexivity.
  cbn [SpecFloat.cond_Zopp]. apply binary_normalize_not_negative. lia.
Qed.

(** A value that is not negative is not the sentinel, as a float and after
    the cast to int64. *)
Lemma not_negative_differs_from_sentinel (x : F64.float) :
  not_negative (FloatOps.Prim2SF x) = true ->
  PrimFloat.eqb x (F64.of_int (-1)) = false.
Proof.
  intros Hx. rewrite FloatAxioms.eqb_spec.
  change (FloatOps.Prim2SF (F64.of_int (-1)))
    with (SpecFloat.S754_finite true 4503599627370496 (-52)).
  unfold SpecFloat.SFeqb, SpecFloat.SFcompare.
  destruct (FloatOps.Prim2SF x) as [s|s| |s m e]; try destruct s;
    try discriminate; reflexivity.
Qed.

Lemma to_int64_of_not_negative (x : F64.float) :
  not_negative (FloatOps.Prim2SF x) = true ->
  (0 <= F64.to_int64 x)%Z \/ F64.to_int64 x = F64.INT64_MIN.
Proof.
  intros Hx. unfold F64.to_int64.
  destruct (FloatOps.Prim2SF x) as [s|s| |s m e]; try (now right);
    [left; lia|].
  destruct s; [discriminate|].
  match goal with
  | |- context [if ?c then _ else _] => destruct c eqn:Ec
  end; [left | now right].
  destruct e as [|p|p]; [lia | lia |].
  apply Z.div_pos; lia.
Qed.

(** An offset that is not less than zero is not negative. *)
Lemma not_below_zero (c : F64.float) :
  PrimFloat.ltb c F64.zero = false ->
  not_negative (FloatOps.Prim2SF c) = true.
Proof.
  rewrite FloatAxioms.ltb_spec.
  change (FloatOps.Prim2SF F64.zero) with (SpecFloat.S754_zero false).
  unfold SpecFloat.SFltb, SpecFloat.SFcompare.
  destruct (FloatOps.Prim2SF c) as [s|s| |s m e]; try destruct s;
    try discriminate; reflexivity.
Qed.

(** The correction of a valid cell with such an offset is never [-1]. *)
Lemma corrected_is_no_sentinel (v : Z) (c : F64.float) :
  (0 <= v)%Z -> PrimFloat.ltb c F64.zero = false ->
  F64.to_int64 (corrected v c) <> (-1)%Z.
Proof.
  intros Hv Hc.
  assert (H : not_negative (FloatOps.Prim2SF (corrected v c)) = true).
  { unfold corrected. apply sum_not_negative; [|now apply not_below_zero].
    apply scaled_not_negative, of_int_not_negative.
    pose proof (Z.mod_pos_bound v 140 ltac:(lia)).
    pose proof (Z.mod_le v 140 Hv ltac:(lia)). lia. }
  destruct (to_int64_of_not_negative _ H) as [H0 | H0]; [lia|].
  rewrite H0. discriminate.
Qed.

(* ================================================================== *)
(** * The sentinel marks the invalid words, and only them *)
(* ================================================================== *)

(** The value both decoders give to a word, compared with [-1.0]. *)
Lemma decoded_is_sentinel (w : Z) :
  (0 <= w < 2 ^ 32)%Z ->
  PrimFloat.eqb (to_float64 (packet_timestamp w)) (F64.of_int (-1))
  = negb (Z.testbit w 31).
Proof.
  intros Hw. unfold packet_timestamp. rewrite validity_shift by assumption.
  destruct (Z.testbit w 31); cbn [negb to_float64]; [|reflexivity].
  apply not_negative_differs_from_sentinel, scaled_not_negative,
    of_int_not_negative, low_bits_nonneg. lia.
Qed.

(** X18.  In the matrix returned by [unpack_numpy], and in the one returned
    by [unpack_binary_flex], the cell of word [n] compares equal to [-1.0]
    exactly when bit 31 of the word is clear: no valid timestamp, whatever
    its 28 bits, is decoded to the sentinel. *)
Theorem sentinel_marks_exactly_the_invalid_words (f : list byte) (T C : nat) :
  0 < T -> List.length f = 4 * (256 * T * C) ->
  (exists data_matrix,
      unpack_numpy f T = Return data_matrix
      /\ forall n, n < 256 * T * C ->
           PrimFloat.eqb
             (get F64.zero data_matrix
                  [n / T mod 256; n / T / 256 * T + n mod T])
             (F64.of_int (-1))
           = negb (Z.testbit (nth n (words_of f) 0%Z) 31))
  /\ (forall fuel, C <= fuel ->
      exists data_matrix,
        unpack_binary_flex fuel f T = Return data_matrix
        /\ forall n, n < 256 * T * C ->
             PrimFloat.eqb
               (get F64.zero data_matrix
                    [n / T mod 256; n / T / 256 * T + n mod T])
               (F64.of_int (-1))
             = negb (Z.testbit (nth n (words_of f) 0%Z) 31)).
Proof.
  intros HT Hlen.
  pose proof (length_words_exact f _ Hlen) as Hw.
  assert (Hpos : forall n, n < 256 * T * C ->
            n / T mod 256 < 256 /\ n / T / 256 < C /\ n mod T < T
            /\ (n / T mod 256 + 256 * (n / T / 256)) * T + n mod T = n).
  { intros n Hn.
    pose proof (Nat.div_mod_eq n T) as E1.
    pose proof (Nat.mod_upper_bound n T ltac:(lia)) as B1.
    pose proof (Nat.div_mod_eq (n / T) 256) as E3.
    pose proof (Nat.mod_upper_bound (n / T) 256 ltac:(lia)) as B2.
    repeat split; try assumption; [|nia].
    apply Nat.Div0.div_lt_upper_bound, Nat.Div0.div_lt_upper_bound.
    replace (T * (256 * C)) with (256 * T * C) by ring. assumption. }
  split.
  - unfold unpack_numpy. rewrite numpy_decode_map.
    destruct (numpy_reshape_spec
                (map (fun w => to_float64 (packet_timestamp w)) (words_of f))
                T C HT ltac:(now rewrite length_map)) as (m & E & _ & _ & G).
    exists m. split; [exact E|]. intros n Hn.
    destruct (Hpos n Hn) as (B2 & Hk & B1 & En).
    rewrite (G _ _ _ B2 Hk B1), En.
    rewrite (nth_map_in_range _ 0%Z) by lia.
    apply decoded_is_sentinel, word_in_range. lia.
  - intros fuel Hfuel. unfold unpack_binary_flex.
    rewrite read_packets_whole by (now apply (whole_words f (256 * T * C))).
    cbn [bind fst app].
    set (ts := map packet_timestamp (words_of f)).
    assert (Hts : List.length ts = 256 * T * C)
      by (unfold ts; now rewrite length_map).
    destruct (flex_reshape_spec ts T C fuel HT Hts Hfuel) as (m & E & Hf).
    exists m. split; [exact E|]. intros n Hn.
    destruct (Hpos n Hn) as (B2 & Hk & B1 & En).
    rewrite (filled_get ts T C (T * C) m C _ _ _ Hf B2 Hk B1).
    destruct (Nat.ltb_spec (n / T / 256) C) as [_|]; [|lia].
    unfold source_cell. rewrite En. unfold ts.
    rewrite (nth_map_in_range _ 0%Z) by lia.
    apply decoded_is_sentinel, word_in_range. lia.
Qed.

Lemma sentinel_marks_exactly_the_invalid_words_witness :
  0 < 2 /\ List.length stream_512 = 4 * (256 * 2 * 1)
  /\ exists data_matrix,
       unpack_numpy stream_512 2 = Return data_matrix
       /\ forall n, n < 256 * 2 * 1 ->
            PrimFloat.eqb
              (get F64.zero data_matrix
                   [n / 2 mod 256; n / 2 / 256 * 2 + n mod 2])
              (F64.of_int (-1))
            = negb (Z.testbit (nth n (words_of stream_512) 0%Z) 31).
Proof.
  split; [lia|]. split; [reflexivity|].
  apply (proj1 (sentinel_marks_exactly_the_invalid_words stream_512 2 1
                  ltac:(lia) eq_refl)).
Defined.

(** X19.  [unpack_calib] with a table that has no entry below zero.  The
    cell of word [n] in the returned matrix is [-1] exactly when bit 31 of
    the word is clear, and the matrix holds as many [-1] as the stream has
    words below [0x80000000]: with such a table the calibration adds no
    sentinel. *)
Theorem unpack_calib_marks_exactly_the_invalid_words
        (calibrate_load : string -> string -> load_result)
        (realpath_file board_number : string) (cal_mat : ndarray F64.float)
        (f : list byte) (T C : nat) :
  0 < T -> List.length f = 4 * (256 * T * C) ->
  calibrate_load (realpath_file ++ "/../.." ++ "/calibration_data")%string
                 board_number = Loaded cal_mat ->
  shape cal_mat = [256; 140] ->
  (forall i b, i < 256 -> b < 140 ->
     PrimFloat.ltb (get F64.zero cal_mat [i; b]) F64.zero = false) ->
  exists result,
    unpack_calib calibrate_load realpath_file f board_number T
    = ([], Return result)
    /\ (forall n, n < 256 * T * C ->
          get 0%Z result [n / T mod 256; n / T / 256 * T + n mod T] = (-1)%Z
          <-> Z.testbit (nth n (words_of f) 0%Z) 31 = false)
    /\ count_sentinel result
       = List.length (filter (fun w => (w <? 0x80000000)%Z) (words_of f)).
Proof.
  intros HT Hlen Hload Hcal Htable.
  pose proof (length_words_exact f _ Hlen) as Hw.
  destruct (unpack_calib_loaded calibrate_load realpath_file board_number
              cal_mat f T C HT Hlen Hload Hcal)
    as (dm & m' & E & Hs & Hl & E' & Hr).
  assert (Hkeep : forall i v, i < 256 ->
            calibrated_cell cal_mat i v = (-1)%Z <-> v = (-1)%Z).
  { intros i v Hi. unfold calibrated_cell.
    destruct (Z.leb_spec 0 v) as [Hv|Hv]; [|tauto].
    split; [|lia]. intros Hc. exfalso. revert Hc.
    apply corrected_is_no_sentinel; [assumption|].
    apply Htable; [assumption|].
    pose proof (Z.mod_pos_bound v 140 ltac:(lia)). lia. }
  exists m'. split; [exact E'|]. split.
  - intros n Hn.
    pose proof (Nat.div_mod_eq n T) as E1.
    pose proof (Nat.mod_upper_bound n T ltac:(lia)) as B1.
    pose proof (Nat.div_mod_eq (n / T) 256) as E3.
    pose proof (Nat.mod_upper_bound (n / T) 256 ltac:(lia)) as B2.
    assert (Hk : n / T / 256 < C).
    { apply Nat.Div0.div_lt_upper_bound, Nat.Div0.div_lt_upper_bound.
      replace (T * (256 * C)) with (256 * T * C) by ring. assumption. }
    assert (Hj : n / T / 256 * T + n mod T < T * C) by nia.
    rewrite (rows_done_get cal_mat dm (T * C) Hs Hl m' _ _ Hr B2 Hj).
    rewrite (Hkeep _ _ B2).
    rewrite calib_decode_map in E.
    destruct (calib_reshape_spec
                (map (fun w => if Z.testbit w 31 then Z.land w 0xFFFFFFF
                               else (-1)%Z) (words_of f)) T C HT
                ltac:(now rewrite length_map)) as (dm' & E2 & _ & _ & G).
    assert (dm' = dm) by congruence. subst dm'.
    rewrite (G (n / T mod 256) (n / T / 256) (n mod T) B2 Hk B1).
    replace ((n / T mod 256 + 256 * (n / T / 256)) * T + n mod T) with n by nia.
    rewrite (nth_map_in_range _ 0%Z) by lia.
    rewrite <- Hw in Hn. pose proof (word_in_range f n Hn) as Hrg.
    set (word := nth n (words_of f) 0%Z) in *.
    pose proof (low_bits_nonneg _ (proj1 Hrg)).
    destruct (Z.testbit word 31); split; intros; try reflexivity;
      try discriminate; lia.
  - rewrite <- (raw_matrix_sentinels f T C dm HT Hlen E).
    pose proof Hr as (_ & Hl' & _).
    unfold count_sentinel. apply count_occ_pointwise_eq; [congruence|].
    intros p Hp. rewrite Hl' in Hp.
    rewrite (rows_done_nth cal_mat dm (T * C) Hl m' p Hr Hp).
    apply Hkeep. apply Nat.Div0.div_lt_upper_bound. lia.
Qed.

Lemma unpack_calib_marks_exactly_the_invalid_words_witness :
  0 < 1 /\ List.length stream_valid_141 = 4 * (256 * 1 * 1)
  /\ shape (constant_table F64.zero) = [256; 140]
  /\ exists result,
       unpack_calib (load_constant F64.zero) EmptyString stream_valid_141
                    EmptyString 1 = ([], Return result)
       /\ count_sentinel result
          = List.length (filter (fun w => (w <? 0x80000000)%Z)
                                (words_of stream_valid_141)).
Proof.
  split; [lia|]. split; [reflexivity|]. split; [reflexivity|].
  destruct (unpack_calib_marks_exactly_the_invalid_words
              (load_constant F64.zero) EmptyString EmptyString
              (constant_table F64.zero) stream_valid_141 1 1)
    as (result & E & _ & Hc);
    [lia | reflexivity | reflexivity | reflexivity | | eauto].
  intros i b Hi Hb. unfold constant_table.
  rewrite get_full by assumption. reflexivity.
Defined.
